(** * Trend-following strategy engine: signal, backtest and reconciliation

    A shallow embedding of the Python sources [strategy.py],
    [soxl_strategy.py], [backtest.py], [soxl_backtest.py], [trade.py] and
    [config.py], followed by the properties of the specification that
    concern them.

    Conventions of the embedding.
    - Python and numpy floats are idealised as exact rationals; the value
      NaN is [None].  Comparisons with NaN are false, arithmetic on NaN is
      NaN.  A numpy division by zero produces a non-finite value (inf or
      NaN); the embedding merges these into [None], so that what is
      proved about a column holds where its divisors are not zero, as
      they are for positive prices.  A division of two Python floats by
      zero raises [ZeroDivisionError].
    - [pct_change] is taken without the forward fill of missing values;
      the backtests apply it to columns without NaN.
    - The power and square-root functions of the float library are not
      rational; they are the two operations of the class [FloatLib].
    - pandas objects handed in by a caller live in a store ([heap]); a
      [.copy()] allocates a fresh object.  Frames that a function builds
      itself with the [DataFrame] constructor are local values, with one
      record field per column.
    - A date is the ordinal number of its day. *)

From Stdlib Require Import ZArith QArith Qround Qabs Qminmax Lqa Lia List String.
From stdpp Require Import base option list gmap strings.

Open Scope Q_scope.

(* ================================================================== *)
(** ** Floats *)

Module PyFloat.

Abbreviation float := (option Q).

Definition NaN : float := None.

Definition Qlt_bool (x y : Q) : bool := negb (Qle_bool y x).

Definition fcmp (c : Q -> Q -> bool) (x y : float) : bool :=
  match x, y with
  | Some a, Some b => c a b
  | _, _ => false
  end.

(** [x > y], [x >= y], [x < y], [x <= y], [x == y] on floats. *)
Definition fgt : float -> float -> bool := fcmp (fun a b => Qlt_bool b a).
Definition fge : float -> float -> bool := fcmp (fun a b => Qle_bool b a).
Definition flt : float -> float -> bool := fcmp Qlt_bool.
Definition fle : float -> float -> bool := fcmp Qle_bool.
Definition feq : float -> float -> bool := fcmp Qeq_bool.

(** [x != y]: true as soon as one side is NaN. *)
Definition fne (x y : float) : bool := negb (feq x y).

Definition flift2 (f : Q -> Q -> Q) (x y : float) : float :=
  match x, y with
  | Some a, Some b => Some (f a b)
  | _, _ => None
  end.

Definition fadd : float -> float -> float := flift2 Qplus.
Definition fsub : float -> float -> float := flift2 Qminus.
Definition fmul : float -> float -> float := flift2 Qmult.

(** numpy division: a zero divisor gives a non-finite value, here [None]. *)
Definition fdiv (x y : float) : float :=
  match x, y with
  | Some a, Some b => if Qeq_bool b 0 then None else Some (a / b)
  | _, _ => None
  end.

Definition fabs (x : float) : float :=
  match x with Some a => Some (Qabs a) | None => None end.

(** The builtin [min(a, b)]: [b] when [b < a], otherwise [a]. *)
Definition py_min (a b : float) : float := if flt b a then b else a.

(** Rounding to the nearest integer, ties to the even one. *)
Definition round_half_even (x : Q) : Z :=
  let f := Qfloor x in
  let d := x - inject_Z f in
  if Qlt_bool d (1 # 2) then f
  else if Qlt_bool (1 # 2) d then (f + 1)%Z
  else if Z.even f then f else (f + 1)%Z.

(** The builtin [round(x, ndigits)]. *)
Definition py_round (x : Q) (ndigits : nat) : Q :=
  let s := inject_Z (10 ^ Z.of_nat ndigits) in
  inject_Z (round_half_even (x * s)) / s.

Definition fround (x : float) (ndigits : nat) : float :=
  match x with Some a => Some (py_round a ndigits) | None => None end.

(** The builtin [int(x)] on a finite float: truncation toward zero. *)
Definition py_int (x : Q) : Z :=
  if Qlt_bool x 0 then Qceiling x else Qfloor x.

(** The irrational operations of the float library. *)
Class FloatLib : Type := {
  fpow : Q -> Q -> float;     (* [x ** y] *)
  fsqrt : Q -> float          (* [np.sqrt(x)] *)
}.

End PyFloat.
Export PyFloat.

(* ================================================================== *)
(** ** Exceptions and results *)

Inductive exn : Type :=
| KeyError
| IndexError
| ZeroDivisionError
| ValueError
| InvalidReference.   (* a location outside the store; no Python program holds one *)

Inductive result (A : Type) : Type :=
| Ok (a : A)
| Raise (e : exn).
Arguments Ok {A} a.
Arguments Raise {A} e.

(* ================================================================== *)
(** ** pandas: frames and series *)

Module Pandas.

(** The column labels of a frame: a flat [Index] or a two-level
    [MultiIndex] (as the price provider returns for a download). *)
Inductive ColumnIndex : Type :=
| Index (names : list string)
| MultiIndex (tuples : list (string * string)).

Definition is_MultiIndex (c : ColumnIndex) : bool :=
  match c with MultiIndex _ => true | Index _ => false end.

(** [columns.get_level_values(0)] *)
Definition get_level_values_0 (c : ColumnIndex) : ColumnIndex :=
  match c with
  | Index names => Index names
  | MultiIndex tuples => Index (map fst tuples)
  end.

Definition level0 (c : ColumnIndex) : list string :=
  match c with
  | Index names => names
  | MultiIndex tuples => map fst tuples
  end.

Abbreviation Series := (list float).

(** A frame: column labels, row labels (dates) and the columns' values,
    one list per label. *)
Record DataFrame : Type := mkDataFrame {
  columns : ColumnIndex;
  index : list Z;
  values : list Series
}.

(** A row taken out of a frame: its date and one value per column. *)
Record Row : Type := mkRow {
  name : Z;
  items : list (string * float)
}.

Fixpoint find_label (key : string) (names : list string) : option nat :=
  match names with
  | [] => None
  | n :: rest =>
      if String.eqb n key then Some O
      else match find_label key rest with
           | Some i => Some (S i)
           | None => None
           end
  end.

(** [df[key]] *)
Definition getitem (df : DataFrame) (key : string) : option Series :=
  match find_label key (level0 (columns df)) with
  | Some i => values df !! i
  | None => None
  end.

Definition add_label (c : ColumnIndex) (key : string) : ColumnIndex :=
  match c with
  | Index names => Index (names ++ [key])
  | MultiIndex tuples => MultiIndex (tuples ++ [(key, EmptyString)])
  end.

(** [df[key] = s]: overwrite the column, or append a new one. *)
Definition setitem (df : DataFrame) (key : string) (s : Series) : DataFrame :=
  match find_label key (level0 (columns df)) with
  | Some i => mkDataFrame (columns df) (index df) (<[i := s]> (values df))
  | None => mkDataFrame (add_label (columns df) key) (index df) (values df ++ [s])
  end.

(** Python position: a negative one counts from the end. *)
Definition position_of (len : nat) (i : Z) : option nat :=
  let j := if (i <? 0)%Z then (Z.of_nat len + i)%Z else i in
  if (j <? 0)%Z then None
  else if (j <? Z.of_nat len)%Z then Some (Z.to_nat j) else None.

Fixpoint row_items (names : list string) (cols : list Series) (i : nat)
  : list (string * float) :=
  match names, cols with
  | n :: names', c :: cols' =>
      match c !! i with
      | Some v => (n, v) :: row_items names' cols' i
      | None => row_items names' cols' i
      end
  | _, _ => []
  end.

(** [df.iloc[i]] *)
Definition iloc (df : DataFrame) (i : Z) : option Row :=
  match position_of (length (index df)) i with
  | Some j =>
      match index df !! j with
      | Some d => Some (mkRow d (row_items (level0 (columns df)) (values df) j))
      | None => None
      end
  | None => None
  end.

(** [row[key]] *)
Fixpoint row_getitem (r : list (string * float)) (key : string) : option float :=
  match r with
  | [] => None
  | (n, v) :: rest => if String.eqb n key then Some v else row_getitem rest key
  end.

(** *** Series operations *)

Definition of_nat (n : nat) : Q := inject_Z (Z.of_nat n).

Definition Qsum (s : list Q) : Q := foldr Qplus 0 s.

(** [s.mean()] of observations without NaN; NaN when there is none. *)
Definition mean (s : list Q) : float :=
  fdiv (Some (Qsum s)) (Some (of_nat (length s))).

(** [s.std()]: sample standard deviation (one degree of freedom
    removed); NaN for fewer than two observations. *)
Definition std `{FloatLib} (s : list Q) : float :=
  match mean s with
  | Some m =>
      let ss := Qsum (map (fun x => (x - m) * (x - m)) s) in
      match fdiv (Some ss) (Some (of_nat (length s) - 1)) with
      | Some v => fsqrt v
      | None => None
      end
  | None => None
  end.

(** The observations of a window, when none of them is NaN. *)
Fixpoint observations (win : Series) : option (list Q) :=
  match win with
  | [] => Some []
  | Some a :: rest =>
      match observations rest with
      | Some l => Some (a :: l)
      | None => None
      end
  | None :: _ => None
  end.

(** The trailing window of width [w] that ends at position [i]. *)
Definition window (w i : nat) (s : Series) : Series :=
  drop (S i - w) (take (S i) s).

(** [s.rolling(window=w).f()]: the statistic [f] of each trailing
    window that holds [w] observations, NaN elsewhere. *)
Definition rolling (w : nat) (f : list Q -> float) (s : Series) : Series :=
  imap (fun i _ =>
          let win := window w i s in
          if (length win <? w)%nat then None
          else match observations win with
               | Some obs => f obs
               | None => None
               end) s.

Definition rolling_mean (w : nat) : Series -> Series := rolling w mean.

Definition rolling_std `{FloatLib} (w : nat) : Series -> Series := rolling w std.

(** [s.shift(n)] *)
Definition shift (n : nat) (s : Series) : Series :=
  take (length s) (replicate n NaN ++ s).

(** [s.pct_change(periods=n)], computed as [s / s.shift(n) - 1]. *)
Definition pct_change (n : nat) (s : Series) : Series :=
  zip_with (fun x p => fsub (fdiv x p) (Some 1)) s (shift n s).

(** [s.cumprod()] on a series without NaN. *)
Fixpoint cumprod_from (acc : Q) (s : list Q) : list Q :=
  match s with
  | [] => []
  | x :: rest => let acc' := acc * x in acc' :: cumprod_from acc' rest
  end.

Definition cumprod (s : list Q) : list Q := cumprod_from 1 s.

(** [s.expanding().max()] on a series without NaN. *)
Fixpoint expanding_max_from (m : Q) (s : list Q) : list Q :=
  match s with
  | [] => []
  | x :: rest => let m' := Qmax m x in m' :: expanding_max_from m' rest
  end.

Definition expanding_max (s : list Q) : list Q :=
  match s with
  | [] => []
  | x :: rest => x :: expanding_max_from x rest
  end.

(** [s.min()]: NaN entries are skipped; NaN when nothing is left. *)
Fixpoint series_min (s : Series) : float :=
  match s with
  | [] => None
  | x :: rest =>
      match x, series_min rest with
      | Some a, Some b => Some (Qmin a b)
      | Some a, None => Some a
      | None, m => m
      end
  end.

(** [(s > 0).sum()], [(s != 0).sum()] and the like. *)
Definition count_if {A : Type} (p : A -> bool) (s : list A) : nat :=
  length (filter (fun x => p x = true) s).

End Pandas.
Export Pandas.

(* ================================================================== *)
(** ** The store of caller-visible frames *)

Module Store.

Definition loc : Type := nat.

Abbreviation heap := (gmap loc DataFrame).

(** Computations that read and update the store and may raise.  The
    store that an exception leaves behind is kept: what was mutated
    before the exception stays mutated. *)
Definition M (A : Type) : Type := heap -> result A * heap.

#[global] Instance M_ret : MRet M := fun A a h => (Ok a, h).

#[global] Instance M_bind : MBind M := fun A B f m h =>
  match m h with
  | (Ok a, h') => f a h'
  | (Raise e, h') => (Raise e, h')
  end.

Definition raise {A : Type} (e : exn) : M A := fun h => (Raise e, h).

Definition lift_option {A : Type} (e : exn) (o : option A) : M A :=
  match o with Some a => mret a | None => raise e end.

(** Dereference. *)
Definition deref (l : loc) : M DataFrame := fun h =>
  match h !! l with
  | Some df => (Ok df, h)
  | None => (Raise InvalidReference, h)
  end.

(** Overwrite the object at [l]. *)
Definition store (l : loc) (df : DataFrame) : M unit := fun h =>
  match h !! l with
  | Some _ => (Ok tt, <[l := df]> h)
  | None => (Raise InvalidReference, h)
  end.

(** Allocate a new object. *)
Definition alloc (df : DataFrame) : M loc := fun h =>
  let l := fresh (dom h) in (Ok l, <[l := df]> h).

(** [len(df)] *)
Definition df_len (l : loc) : M nat :=
  df ← deref l; mret (length (index df)).

(** [df.copy()] *)
Definition df_copy (l : loc) : M loc :=
  df ← deref l; alloc df.

(** [df.columns] *)
Definition df_columns (l : loc) : M ColumnIndex :=
  df ← deref l; mret (columns df).

(** [df.columns = c] *)
Definition df_set_columns (l : loc) (c : ColumnIndex) : M unit :=
  df ← deref l; store l (mkDataFrame c (index df) (values df)).

(** [df[key]] *)
Definition df_getitem (l : loc) (key : string) : M Series :=
  df ← deref l; lift_option KeyError (getitem df key).

(** [df[key] = s] *)
Definition df_setitem (l : loc) (key : string) (s : Series) : M unit :=
  df ← deref l; store l (setitem df key s).

(** [df.iloc[i]] *)
Definition df_iloc (l : loc) (i : Z) : M Row :=
  df ← deref l; lift_option IndexError (iloc df i).

(** [df.index] *)
Definition df_index (l : loc) : M (list Z) :=
  df ← deref l; mret (index df).

(** [row[key]] *)
Definition row_get (r : Row) (key : string) : M float :=
  lift_option KeyError (row_getitem (items r) key).

(** Division of two Python floats. *)
Definition py_div (x y : float) : M float :=
  match y with
  | Some b => if Qeq_bool b 0 then raise ZeroDivisionError else mret (fdiv x y)
  | None => mret None
  end.

End Store.
Export Store.

(* ================================================================== *)
(** ** config.py *)

Module Config.

Definition MA_PERIOD : nat := 250.
Definition MA_PERIOD_SHORT : nat := 50.

Definition TICKER_INDEX : string := "^NDX".
Definition TICKER_LONG : string := "TQQQ".
Definition TICKER_SHORT : string := "SQQQ".
Definition TICKER_UNDERLYING : string := "QQQ".

Definition MAX_POSITION_SIZE : Q := 1.
Definition USE_SHORTS : bool := false.

End Config.

(* ================================================================== *)
(** ** strategy.py: the single moving-average signal *)

Module Strategy.
Import Config.

(** The payload of a signal. *)
Record Signal : Type := mkSignal {
  date : Z;
  ticker : string;
  price : float;
  sma : float;
  ma_period : nat;
  above_ma : bool;
  signal : string;
  position : string;
  allocation : Q;
  crossed_up : bool;
  crossed_down : bool;
  distance_from_ma : float
}.

(** What [get_signal] returns: the signal, or the dictionary
    [{"error": "Need at least <n> days of data"}]. *)
Inductive SignalDict : Type :=
| Error (need_at_least : nat)
| Sig (s : Signal).

(** [calculate_sma] *)
Definition calculate_sma (data : loc) (period : nat) : M Series :=
  close ← df_getitem data "Close";
  mret (rolling_mean period close).

(** [get_signal] *)
Definition get_signal (data : loc) (ma_period : nat) : M SignalDict :=
  n ← df_len data;
  if (n <? ma_period)%nat then mret (Error ma_period)
  else
    data ← df_copy data;
    s ← calculate_sma data ma_period;
    _ ← df_setitem data "SMA" s;
    latest ← df_iloc data (-1);
    prev ← df_iloc data (-2);
    current_price ← row_get latest "Close";
    current_sma ← row_get latest "SMA";
    prev_price ← row_get prev "Close";
    prev_sma ← row_get prev "SMA";
    let above_ma := fgt current_price current_sma in
    let crossed_up := fgt current_price current_sma && fle prev_price prev_sma in
    let crossed_down := flt current_price current_sma && fge prev_price prev_sma in
    let '(signal, position, allocation) :=
      if above_ma then ("LONG"%string, TICKER_LONG, 1)
      else ("CASH"%string, "CASH"%string, 0) in
    dist ← py_div (fsub current_price current_sma) current_sma;
    mret (Sig (mkSignal (name latest) TICKER_INDEX
                        (fround current_price 2) (fround current_sma 2)
                        ma_period above_ma signal position allocation
                        crossed_up crossed_down
                        (fround (fmul dist (Some 100)) 2))).

End Strategy.

(* ================================================================== *)
(** ** soxl_strategy.py: the dual moving-average and momentum signal *)

Module SoxlStrategy.

Definition TICKER_INDEX : string := "^SOX".
Definition TICKER_LONG : string := "SOXL".
Definition TICKER_SHORT : string := "SOXS".
Definition MA_LONG : nat := 200.
Definition MA_SHORT : nat := 50.
Definition ROC_PERIOD : nat := 20.
Definition ROC_THRESHOLD : Q := 0.02.

Inductive Regime : Type :=
| STRONG_UPTREND | UPTREND | WEAKENING_UPTREND
| STRONG_DOWNTREND | DOWNTREND | WEAKENING_DOWNTREND
| TRANSITION.

Record Signal : Type := mkSignal {
  date : Z;
  ticker : string;
  price : float;
  sma_200 : float;
  sma_50 : float;
  roc : float;
  volatility : float;
  trend_strength : float;
  above_200_ma : bool;
  above_50_ma : bool;
  signal : string;
  position : string;
  allocation : float;
  crossed_up_200 : bool;
  crossed_down_200 : bool;
  regime : Regime
}.

Inductive SignalDict : Type :=
| Error (need_at_least : nat)
| Sig (s : Signal).

(** [calculate_indicators] *)
Definition calculate_indicators `{FloatLib} (data : loc) : M loc :=
  df ← df_copy data;
  close ← df_getitem df "Close";
  _ ← df_setitem df "SMA_200" (rolling_mean MA_LONG close);
  close ← df_getitem df "Close";
  _ ← df_setitem df "SMA_50" (rolling_mean MA_SHORT close);
  close ← df_getitem df "Close";
  _ ← df_setitem df "ROC" (pct_change ROC_PERIOD close);
  close ← df_getitem df "Close";
  _ ← df_setitem df "Volatility"
        (map (fun v => fmul v (fsqrt 252)) (rolling_std 20 (pct_change 1 close)));
  close ← df_getitem df "Close";
  sma ← df_getitem df "SMA_200";
  sma' ← df_getitem df "SMA_200";
  _ ← df_setitem df "Trend_Strength"
        (zip_with fdiv (zip_with fsub close sma) sma');
  mret df.

(** [calculate_position_size] *)
Definition calculate_position_size
    (trend_strength volatility : float) (bullish : bool) : float :=
  let base := Some 1 in
  let trend_mult :=
    py_min (Some 1) (fadd (Some 0.5) (fmul (fabs trend_strength) (Some 2))) in
  let vol_mult :=
    if fgt volatility (Some 0.50) then Some 0.5
    else if fgt volatility (Some 0.35) then Some 0.75
    else Some 1 in
  let allocation := fmul (fmul base trend_mult) vol_mult in
  py_min (Some 1) allocation.

(** [get_market_regime] *)
Definition get_market_regime (above_200 above_50 : bool) (roc : float) : Regime :=
  if above_200 && above_50 then
    if fgt roc (Some 0.05) then STRONG_UPTREND
    else if fgt roc (Some 0) then UPTREND
    else WEAKENING_UPTREND
  else if negb above_200 && negb above_50 then
    if flt roc (Some (- 0.05)) then STRONG_DOWNTREND
    else if flt roc (Some 0) then DOWNTREND
    else WEAKENING_DOWNTREND
  else TRANSITION.

(** The trend, momentum and signal logic of [get_signal]: from the
    latest row's indicators to (signal, position, allocation), the
    allocation not yet rounded. *)
Definition signal_logic
    (price sma_200 sma_50 roc volatility trend_strength : float)
  : string * string * float :=
  let above_200 := fgt price sma_200 in
  let above_50 := fgt price sma_50 in
  let below_200 := flt price sma_200 in
  let below_50 := flt price sma_50 in
  let strong_up_momentum := fgt roc (Some ROC_THRESHOLD) in
  let strong_down_momentum := flt roc (Some (- ROC_THRESHOLD)) in
  if above_200 && above_50 && strong_up_momentum then
    ("LONG"%string, TICKER_LONG,
     calculate_position_size trend_strength volatility true)
  else if below_200 && below_50 && strong_down_momentum then
    ("SHORT"%string, TICKER_SHORT,
     calculate_position_size (fabs trend_strength) volatility false)
  else
    ("CASH"%string, "CASH"%string, Some 0).

(** [get_signal] *)
Definition get_signal `{FloatLib} (data : loc) : M SignalDict :=
  df ← calculate_indicators data;
  n ← df_len df;
  if (n <? MA_LONG)%nat then mret (Error MA_LONG)
  else
    latest ← df_iloc df (-1);
    prev ← df_iloc df (-2);
    price ← row_get latest "Close";
    sma_200 ← row_get latest "SMA_200";
    sma_50 ← row_get latest "SMA_50";
    roc ← row_get latest "ROC";
    volatility ← row_get latest "Volatility";
    trend_strength ← row_get latest "Trend_Strength";
    let above_200 := fgt price sma_200 in
    let above_50 := fgt price sma_50 in
    let '(signal, position, allocation) :=
      signal_logic price sma_200 sma_50 roc volatility trend_strength in
    prev_close ← row_get prev "Close";
    prev_sma_200 ← row_get prev "SMA_200";
    let prev_above_200 := fgt prev_close prev_sma_200 in
    let crossed_up_200 := above_200 && negb prev_above_200 in
    let crossed_down_200 := negb above_200 && prev_above_200 in
    mret (Sig (mkSignal (name latest) TICKER_INDEX
                        (fround price 2) (fround sma_200 2) (fround sma_50 2)
                        (fround (fmul roc (Some 100)) 2)
                        (fround (fmul volatility (Some 100)) 2)
                        (fround (fmul trend_strength (Some 100)) 2)
                        above_200 above_50 signal position
                        (fround allocation 2)
                        crossed_up_200 crossed_down_200
                        (get_market_regime above_200 above_50 roc))).

End SoxlStrategy.

(* ================================================================== *)
(** ** Frames built from price series *)

Module Frames.

(** A column together with the dates that label its rows. *)
Abbreviation IndexedSeries := (list (Z * float)).

Fixpoint insert_date (d : Z) (l : list Z) : list Z :=
  match l with
  | [] => [d]
  | x :: rest =>
      if (d <? x)%Z then d :: l
      else if (d =? x)%Z then l
      else x :: insert_date d rest
  end.

(** The union of two date indices, in increasing order. *)
Definition union_index (a b : list Z) : list Z :=
  foldr insert_date [] (a ++ b).

Fixpoint at_date (d : Z) (s : IndexedSeries) : float :=
  match s with
  | [] => NaN
  | (d', v) :: rest => if (d' =? d)%Z then v else at_date d rest
  end.

(** [pd.DataFrame({a: s1, b: s2})]: the two columns aligned on the
    union of their dates, NaN where a series has no value. *)
Definition align2 (s1 s2 : IndexedSeries) : list (Z * float * float) :=
  map (fun d => (d, at_date d s1, at_date d s2))
      (union_index (map fst s1) (map fst s2)).

(** Sequencing of the pure computations that may raise. *)
#[global] Instance result_ret : MRet result := fun A a => Ok a.

#[global] Instance result_bind : MBind result := fun A B f r =>
  match r with Ok a => f a | Raise e => Raise e end.

Definition lift_result {A : Type} (r : result A) : M A := fun h => (r, h).

Definition head_or {A : Type} (e : exn) (l : list A) : result A :=
  match l with x :: _ => Ok x | [] => Raise e end.

(** [s.iloc[-1]] *)
Definition last_or {A : Type} (e : exn) (l : list A) : result A :=
  match last l with Some x => Ok x | None => Raise e end.

(** Division of two Python floats, outside the store. *)
Definition py_div_pure (x y : float) : result float :=
  match y with
  | Some b => if Qeq_bool b 0 then Raise ZeroDivisionError else Ok (fdiv x y)
  | None => Ok None
  end.

(** [x ** y] on floats that may be NaN. *)
Definition fpow' `{FloatLib} (x y : float) : float :=
  match x, y with Some a, Some b => fpow a b | _, _ => None end.

(** The metric block shared by the two backtests: from the cumulative
    product of the returns to the largest relative fall below the
    running maximum. *)
Definition drawdowns (cumulative : list Q) : Series :=
  zip_with (fun c m => fdiv (Some (c - m)) (Some m))
           cumulative (expanding_max cumulative).

(** [(s != s.shift(1)).sum()] for an integer column [s]. *)
Definition changes (s : list Z) : nat :=
  let col := map (fun z => Some (inject_Z z)) s in
  count_if id (zip_with fne col (shift 1 col)).

End Frames.
Export Frames.

(* ================================================================== *)
(** ** backtest.py: backtest of the single moving-average strategy *)

Module Backtest.
Import Config.

(** Rows of [combined] after the closes are aligned (line 55). *)
Record Bar : Type := mkBar {
  bar_date : Z;
  bar_index_close : Q;
  bar_etf_close : Q
}.

(** Rows of [combined] once the signal is generated (line 63). *)
Record SignalRow : Type := mkSignalRow {
  sr_date : Z;
  sr_index_close : Q;
  sr_etf_close : Q;
  sr_sma : Q;
  sr_above_ma : bool;
  sr_signal : Z
}.

(** Rows of the final [combined]. *)
Record Row : Type := mkRow {
  date : Z;
  index_close : Q;
  etf_close : Q;
  sma : Q;
  above_ma : bool;
  signal : Z;
  etf_return : Q;
  strategy_return : Q;
  buy_hold_return : Q;
  strategy_cumulative : Q;
  buy_hold_cumulative : Q;
  strategy_value : Q;
  buy_hold_value : Q
}.

Record Metrics : Type := mkMetrics {
  start_date : Z;
  end_date : Z;
  years : Q;
  initial_capital : Q;
  final_value : Q;
  total_return : float;
  annual_return : float;
  annual_volatility : float;
  sharpe_ratio : float;
  max_drawdown : float;
  win_rate : float;
  total_trades : nat;
  bh_final_value : Q;
  bh_total_return : float;
  bh_annual_return : float;
  bh_max_drawdown : float
}.

(** Lines 52-55: the two closes side by side, incomplete rows dropped. *)
Definition aligned_closes (index_close etf_close : IndexedSeries) : list Bar :=
  omap (fun '(d, i, e) =>
          match i, e with
          | Some x, Some y => Some (mkBar d x y)
          | _, _ => None
          end)
       (align2 index_close etf_close).

(** Lines 58-63: moving average, rows without it dropped, signal. *)
Definition signal_frame (ma_period : nat) (bars : list Bar) : list SignalRow :=
  let sma := rolling_mean ma_period (map (fun b => Some (bar_index_close b)) bars) in
  omap (fun '(b, s) =>
          match s with
          | Some v =>
              let above_ma := Qlt_bool v (bar_index_close b) in
              Some (mkSignalRow (bar_date b) (bar_index_close b) (bar_etf_close b)
                                v above_ma (if above_ma then 1%Z else 0%Z))
          | None => None
          end)
       (zip bars sma).

(** Lines 66-68: the three return columns, still with their NaN. *)
Definition etf_return_column (rows : list SignalRow) : Series :=
  pct_change 1 (map (fun r => Some (sr_etf_close r)) rows).

Definition strategy_return_column (rows : list SignalRow) : Series :=
  zip_with fmul
           (shift 1 (map (fun r => Some (inject_Z (sr_signal r))) rows))
           (etf_return_column rows).

(** Lines 71-79: rows with a NaN dropped, cumulative returns and
    portfolio values. *)
Definition returns_frame (rows : list SignalRow) : list (SignalRow * Q * Q) :=
  omap (fun '(r, e, s) =>
          match e, s with
          | Some x, Some y => Some (r, x, y)
          | _, _ => None
          end)
       (zip (zip rows (etf_return_column rows)) (strategy_return_column rows)).

Definition final_frame (initial_capital : Q) (rows : list (SignalRow * Q * Q))
  : list Row :=
  let strategy_cumulative := cumprod (map (fun '(_, _, s) => 1 + s) rows) in
  let buy_hold_cumulative := cumprod (map (fun '(_, e, _) => 1 + e) rows) in
  zip_with (fun '(r, e, s) '(sc, bc) =>
              mkRow (sr_date r) (sr_index_close r) (sr_etf_close r) (sr_sma r)
                    (sr_above_ma r) (sr_signal r) e s e sc bc
                    (initial_capital * sc) (initial_capital * bc))
           rows (zip strategy_cumulative buy_hold_cumulative).

(** The annualised return of line 100. *)
Definition annualized `{FloatLib} (total_return : float) (years : Q) : result float :=
  e ← py_div_pure (Some 1) (Some years);
  Ok (fsub (fpow' (fadd (Some 1) total_return) e) (Some 1)).

(** [calculate_metrics] *)
Definition calculate_metrics `{FloatLib} (data : list Row) (initial_capital : Q)
  : result Metrics :=
  let strategy_returns := map strategy_return data in
  final_value ← last_or IndexError (map strategy_value data);
  let total_return :=
    fdiv (Some (final_value - initial_capital)) (Some initial_capital) in
  let years := of_nat (length data) / 252 in
  annual_return ← annualized total_return years;
  let annual_vol := fmul (std strategy_returns) (fsqrt 252) in
  let sharpe :=
    if fgt annual_vol (Some 0) then fdiv annual_return annual_vol else Some 0 in
  let max_drawdown := series_min (drawdowns (map strategy_cumulative data)) in
  let winning_days := count_if (fun r => Qlt_bool 0 r) strategy_returns in
  let total_days := count_if (fun r => negb (Qeq_bool r 0)) strategy_returns in
  let win_rate :=
    if (0 <? total_days)%nat
    then fdiv (Some (of_nat winning_days)) (Some (of_nat total_days))
    else Some 0 in
  let trades := changes (map signal data) in
  bh_final ← last_or IndexError (map buy_hold_value data);
  let bh_total_return :=
    fdiv (Some (bh_final - initial_capital)) (Some initial_capital) in
  bh_annual_return ← annualized bh_total_return years;
  let bh_max_drawdown := series_min (drawdowns (map buy_hold_cumulative data)) in
  first ← head_or IndexError data;
  final ← last_or IndexError data;
  Ok (mkMetrics (date first) (date final) (py_round years 2) initial_capital
                (py_round final_value 2)
                (fround (fmul total_return (Some 100)) 2)
                (fround (fmul annual_return (Some 100)) 2)
                (fround (fmul annual_vol (Some 100)) 2)
                (fround sharpe 2)
                (fround (fmul max_drawdown (Some 100)) 2)
                (fround (fmul win_rate (Some 100)) 2)
                trades
                (py_round bh_final 2)
                (fround (fmul bh_total_return (Some 100)) 2)
                (fround (fmul bh_annual_return (Some 100)) 2)
                (fround (fmul bh_max_drawdown (Some 100)) 2)).

(** Lines 52-79 of [run_backtest]: the frame [combined]. *)
Definition combined_frame (index_close etf_close : IndexedSeries)
    (ma_period : nat) (initial_capital : Q) : list Row :=
  final_frame initial_capital
    (returns_frame (signal_frame ma_period (aligned_closes index_close etf_close))).

(** [run_backtest]: the metrics and, under the key ['data'], the frame. *)
Definition run_backtest `{FloatLib} (index_data etf_data : loc)
    (ma_period : nat) (initial_capital : Q) (use_leverage_decay : bool)
  : M (Metrics * list Row) :=
  c ← df_columns index_data;
  _ ← (if is_MultiIndex c
       then df_set_columns index_data (get_level_values_0 c)
       else mret tt);
  c ← df_columns etf_data;
  _ ← (if is_MultiIndex c
       then df_set_columns etf_data (get_level_values_0 c)
       else mret tt);
  index_close ← df_getitem index_data "Close";
  index_dates ← df_index index_data;
  etf_close ← df_getitem etf_data "Close";
  etf_dates ← df_index etf_data;
  let combined :=
    combined_frame (zip index_dates index_close) (zip etf_dates etf_close)
                   ma_period initial_capital in
  results ← lift_result (calculate_metrics combined initial_capital);
  mret (results, combined).

End Backtest.

(* ================================================================== *)
(** ** soxl_backtest.py: backtest of the dual moving-average strategy *)

Module SoxlBacktest.

Definition MA_LONG : nat := 200.
Definition MA_SHORT : nat := 50.
Definition ROC_PERIOD : nat := 20.
Definition ROC_THRESHOLD : Q := 0.02.

Definition TICKER_INDEX : string := "^SOX".
Definition TICKER_LONG : string := "SOXL".
Definition TICKER_SHORT : string := "SOXS".

(** Rows of [df] after the closes are aligned (line 68); the short
    close is [None] when the frame has no such column. *)
Record Bar : Type := mkBar {
  bar_date : Z;
  bar_index_close : Q;
  bar_long_close : Q;
  bar_short_close : option Q
}.

(** Rows of [df] once the position is decided (line 89). *)
Record SignalRow : Type := mkSignalRow {
  sr_date : Z;
  sr_index_close : Q;
  sr_long_close : Q;
  sr_short_close : option Q;
  sr_sma_200 : Q;
  sr_sma_50 : Q;
  sr_roc : Q;
  sr_above_200 : bool;
  sr_above_50 : bool;
  sr_strong_up : bool;
  sr_strong_down : bool;
  sr_position : Z
}.

(** Rows of the final [df]. *)
Record Row : Type := mkRow {
  row_signal : SignalRow;
  long_return : Q;
  short_return : Q;
  strategy_return : Q;
  buy_hold_return : Q;
  strategy_cumulative : Q;
  buy_hold_cumulative : Q;
  strategy_value : Q;
  buy_hold_value : Q
}.

Definition date (r : Row) : Z := sr_date (row_signal r).
Definition position (r : Row) : Z := sr_position (row_signal r).

Record Metrics : Type := mkMetrics {
  start_date : Z;
  end_date : Z;
  years : Q;
  initial_capital : Q;
  use_shorts : bool;
  final_value : Q;
  total_return : float;
  annual_return : float;
  annual_volatility : float;
  sharpe_ratio : float;
  max_drawdown : float;
  win_rate : float;
  total_trades : nat;
  time_long : float;
  time_short : float;
  time_cash : float;
  bh_final_value : Q;
  bh_total_return : float;
  bh_annual_return : float;
  bh_max_drawdown : float
}.

(** Lines 59-68: the closes side by side, the short close joined on
    the dates of the other two when it is used, incomplete rows
    dropped. *)
Definition aligned_closes (idx_close long_close : IndexedSeries)
    (short_close : option IndexedSeries) : list Bar :=
  omap (fun '(d, i, l) =>
          match i, l with
          | Some x, Some y =>
              match short_close with
              | None => Some (mkBar d x y None)
              | Some s =>
                  match at_date d s with
                  | Some z => Some (mkBar d x y (Some z))
                  | None => None
                  end
              end
          | _, _ => None
          end)
       (align2 idx_close long_close).

(** Lines 84-89: [np.select] over the long and the short condition. *)
Definition select_position (use_shorts above_200 above_50 strong_up strong_down : bool)
  : Z :=
  if above_200 && above_50 && strong_up then 1%Z
  else if negb above_200 && negb above_50 && strong_down
       then (if use_shorts then (-1)%Z else 0%Z)
       else 0%Z.

(** Lines 71-89: indicators, rows without them dropped, position. *)
Definition signal_frame (use_shorts : bool) (bars : list Bar) : list SignalRow :=
  let close := map (fun b => Some (bar_index_close b)) bars in
  let sma_200 := rolling_mean MA_LONG close in
  let sma_50 := rolling_mean MA_SHORT close in
  let roc := pct_change ROC_PERIOD close in
  omap (fun '(b, s200, s50, r) =>
          match s200, s50, r with
          | Some m200, Some m50, Some rc =>
              let above_200 := Qlt_bool m200 (bar_index_close b) in
              let above_50 := Qlt_bool m50 (bar_index_close b) in
              let strong_up := Qlt_bool ROC_THRESHOLD rc in
              let strong_down := Qlt_bool rc (- ROC_THRESHOLD) in
              Some (mkSignalRow (bar_date b) (bar_index_close b)
                      (bar_long_close b) (bar_short_close b) m200 m50 rc
                      above_200 above_50 strong_up strong_down
                      (select_position use_shorts above_200 above_50
                                       strong_up strong_down))
          | _, _, _ => None
          end)
       (zip (zip (zip bars sma_200) sma_50) roc).

(** Lines 92-96. *)
Definition long_return_column (rows : list SignalRow) : Series :=
  pct_change 1 (map (fun r => Some (sr_long_close r)) rows).

Definition short_return_column (has_short : bool) (rows : list SignalRow) : Series :=
  if has_short then pct_change 1 (map sr_short_close rows)
  else map (fun _ => Some 0) rows.

(** Lines 99-107: [np.where] on the position of the previous row. *)
Definition where_position (shifted lr sr : float) : float :=
  if feq shifted (Some 1) then lr
  else if feq shifted (Some (- 1)) then sr
  else Some 0.

Definition strategy_return_column (has_short : bool) (rows : list SignalRow) : Series :=
  zip_with (fun '(p, l) s => where_position p l s)
           (zip (shift 1 (map (fun r => Some (inject_Z (sr_position r))) rows))
                (long_return_column rows))
           (short_return_column has_short rows).

(** Line 112: rows with a NaN dropped. *)
Definition returns_frame (has_short : bool) (rows : list SignalRow)
  : list (SignalRow * Q * Q * Q) :=
  omap (fun '(r, l, s, st) =>
          match l, s, st with
          | Some x, Some y, Some z => Some (r, x, y, z)
          | _, _, _ => None
          end)
       (zip (zip (zip rows (long_return_column rows))
                 (short_return_column has_short rows))
            (strategy_return_column has_short rows)).

(** Lines 115-120. *)
Definition final_frame (initial_capital : Q) (rows : list (SignalRow * Q * Q * Q))
  : list Row :=
  let strategy_cumulative := cumprod (map (fun '(_, _, _, st) => 1 + st) rows) in
  let buy_hold_cumulative := cumprod (map (fun '(_, l, _, _) => 1 + l) rows) in
  zip_with (fun '(r, l, s, st) '(sc, bc) =>
              mkRow r l s st l sc bc (initial_capital * sc) (initial_capital * bc))
           rows (zip strategy_cumulative buy_hold_cumulative).

(** The annualised return of line 138, with its guard. *)
Definition annualized `{FloatLib} (total_return : float) (years : Q) : result float :=
  if Qlt_bool 0 years then
    e ← py_div_pure (Some 1) (Some years);
    Ok (fsub (fpow' (fadd (Some 1) total_return) e) (Some 1))
  else Ok (Some 0).

(** [(data['position'] == v).mean()] *)
Definition time_in (v : Z) (positions : list Z) : float :=
  fdiv (Some (of_nat (count_if (fun p => (p =? v)%Z) positions)))
       (Some (of_nat (length positions))).

(** [calculate_metrics] *)
Definition calculate_metrics `{FloatLib} (data : list Row) (initial_capital : Q)
    (use_shorts : bool) : result Metrics :=
  let strategy_returns := map strategy_return data in
  final_value ← last_or IndexError (map strategy_value data);
  let total_return :=
    fdiv (Some (final_value - initial_capital)) (Some initial_capital) in
  let years := of_nat (length data) / 252 in
  annual_return ← annualized total_return years;
  let annual_vol := fmul (std strategy_returns) (fsqrt 252) in
  let sharpe :=
    if fgt annual_vol (Some 0) then fdiv annual_return annual_vol else Some 0 in
  let max_drawdown := series_min (drawdowns (map strategy_cumulative data)) in
  let winning_days := count_if (fun r => Qlt_bool 0 r) strategy_returns in
  let trading_days := count_if (fun r => negb (Qeq_bool r 0)) strategy_returns in
  let win_rate :=
    if (0 <? trading_days)%nat
    then fdiv (Some (of_nat winning_days)) (Some (of_nat trading_days))
    else Some 0 in
  let trades := changes (map position data) in
  let time_long := time_in 1 (map position data) in
  let time_short := time_in (-1) (map position data) in
  let time_cash := time_in 0 (map position data) in
  bh_final ← last_or IndexError (map buy_hold_value data);
  let bh_total :=
    fdiv (Some (bh_final - initial_capital)) (Some initial_capital) in
  bh_annual ← annualized bh_total years;
  let bh_max_dd := series_min (drawdowns (map buy_hold_cumulative data)) in
  first ← head_or IndexError data;
  final ← last_or IndexError data;
  Ok (mkMetrics (date first) (date final) (py_round years 2) initial_capital
                use_shorts
                (py_round final_value 2)
                (fround (fmul total_return (Some 100)) 2)
                (fround (fmul annual_return (Some 100)) 2)
                (fround (fmul annual_vol (Some 100)) 2)
                (fround sharpe 2)
                (fround (fmul max_drawdown (Some 100)) 2)
                (fround (fmul win_rate (Some 100)) 2)
                trades
                (fround (fmul time_long (Some 100)) 1)
                (fround (fmul time_short (Some 100)) 1)
                (fround (fmul time_cash (Some 100)) 1)
                (py_round bh_final 2)
                (fround (fmul bh_total (Some 100)) 2)
                (fround (fmul bh_annual (Some 100)) 2)
                (fround (fmul bh_max_dd (Some 100)) 2)).

(** Lines 59-120 of [run_backtest]: the frame [df]. *)
Definition backtest_frame (idx_close long_close : IndexedSeries)
    (short_close : option IndexedSeries) (initial_capital : Q) (use_shorts : bool)
  : list Row :=
  let has_short := use_shorts && bool_decide (is_Some short_close) in
  final_frame initial_capital
    (returns_frame has_short
       (signal_frame use_shorts
          (aligned_closes idx_close long_close short_close))).

(** [run_backtest] *)
Definition run_backtest `{FloatLib} (index_data long_etf_data : loc)
    (short_etf_data : option loc) (initial_capital : Q) (use_shorts : bool)
  : M (Metrics * list Row) :=
  idx_close ← df_getitem index_data "Close";
  idx_dates ← df_index index_data;
  long_close ← df_getitem long_etf_data "Close";
  long_dates ← df_index long_etf_data;
  short_close ←
    match short_etf_data with
    | Some short_data =>
        if use_shorts then
          s ← df_getitem short_data "Close";
          d ← df_index short_data;
          mret (Some (zip d s))
        else mret None
    | None => mret None
    end;
  let df :=
    backtest_frame (zip idx_dates idx_close) (zip long_dates long_close)
                   short_close initial_capital use_shorts in
  results ← lift_result (calculate_metrics df initial_capital use_shorts);
  mret (results, df).

End SoxlBacktest.

(* ================================================================== *)
(** ** trade.py: reconciliation of the holdings with the signal *)

Module Trade.
Import Config.

(** An entry of the dictionary that [get_current_positions] returns. *)
Record Position : Type := mkPosition {
  qty : Z;
  market_value : Q;
  avg_entry : Q;
  unrealized_pl : Q
}.

Inductive Side : Type := buy | sell.

(** A call of [execute_trade]. *)
Record Order : Type := mkOrder {
  symbol : string;
  order_qty : Z;
  side : Side
}.

(** [int(x)] of a float. *)
Definition py_int_float (x : float) : result Z :=
  match x with Some a => Ok (py_int a) | None => Raise ValueError end.

(** [calculate_target_position] *)
Definition calculate_target_position
    (signal : Strategy.Signal) (portfolio_value : Q) (current_price : float)
  : result Z :=
  let target_value := portfolio_value * Strategy.allocation signal in
  q ← py_div_pure (Some target_value) current_price;
  py_int_float q.

(** [positions.get(ticker, {}).get('qty', 0)] *)
Definition held (positions : gmap string Position) (ticker : string) : Z :=
  match positions !! ticker with
  | Some pos => qty pos
  | None => 0%Z
  end.

(** The orders that [run_strategy] executes, in the order of their
    execution, from line 158 on.  [use_shorts] is the configuration
    constant [USE_SHORTS]; [quotes t] is the close column of the five
    days of data fetched for the ticker [t]. *)
Definition reconcile (use_shorts : bool) (signal : Strategy.Signal)
    (portfolio_value : Q) (positions : gmap string Position)
    (quotes : string -> Series) : result (list Order) :=
  let target_ticker :=
    if String.eqb (Strategy.signal signal) "LONG" then Some TICKER_LONG else None in
  let target_ticker :=
    if String.eqb (Strategy.signal signal) "SHORT" && use_shorts
    then Some TICKER_SHORT else target_ticker in
  let current_tqqq := held positions TICKER_LONG in
  let current_sqqq := held positions TICKER_SHORT in
  if bool_decide (target_ticker = Some TICKER_LONG) then
    tqqq_price ← last_or IndexError (quotes TICKER_LONG);
    target_shares ←
      calculate_target_position signal portfolio_value tqqq_price;
    let shares_to_trade := (target_shares - current_tqqq)%Z in
    let closing :=
      if (0 <? current_sqqq)%Z
      then [mkOrder TICKER_SHORT current_sqqq sell] else [] in
    let opening :=
      if (0 <? shares_to_trade)%Z
      then [mkOrder TICKER_LONG shares_to_trade buy]
      else if (shares_to_trade <? 0)%Z
           then [mkOrder TICKER_LONG (Z.abs shares_to_trade) sell]
           else [] in
    Ok (closing ++ opening)
  else if bool_decide (target_ticker = Some TICKER_SHORT) then
    sqqq_price ← last_or IndexError (quotes TICKER_SHORT);
    target_shares ←
      calculate_target_position signal portfolio_value sqqq_price;
    let shares_to_trade := (target_shares - current_sqqq)%Z in
    let closing :=
      if (0 <? current_tqqq)%Z
      then [mkOrder TICKER_LONG current_tqqq sell] else [] in
    let opening :=
      if (0 <? shares_to_trade)%Z
      then [mkOrder TICKER_SHORT shares_to_trade buy] else [] in
    Ok (closing ++ opening)
  else
    let close_long :=
      if (0 <? current_tqqq)%Z
      then [mkOrder TICKER_LONG current_tqqq sell] else [] in
    let close_short :=
      if (0 <? current_sqqq)%Z
      then [mkOrder TICKER_SHORT current_sqqq sell] else [] in
    Ok (close_long ++ close_short).

(** [run_strategy], once the signal, the account and the positions are
    fetched: nothing is executed on a signal that is an error. *)
Definition run_strategy (signal : Strategy.SignalDict) (portfolio_value : Q)
    (positions : gmap string Position) (quotes : string -> Series)
  : result (list Order) :=
  match signal with
  | Strategy.Error _ => Ok []
  | Strategy.Sig s => reconcile USE_SHORTS s portfolio_value positions quotes
  end.

End Trade.

(* ================================================================== *)
(** ** Data for running the model *)

Module Examples.

(** A float library for the examples: square roots to six decimals,
    powers exact on whole non-negative exponents and NaN elsewhere. *)
Definition example_sqrt (x : Q) : float :=
  if Qlt_bool x 0 then None
  else Some (inject_Z (Z.sqrt (Qfloor (x * 1000000000000))) / 1000000).

Definition example_pow (x y : Q) : float :=
  if Qeq_bool (inject_Z (Qfloor y)) y && Qle_bool 0 y
  then Some (Qpower x (Qfloor y)) else None.

Definition example_floatlib : FloatLib :=
  {| fpow := example_pow; fsqrt := example_sqrt |}.

(** A frame of daily closes, dated 0, 1, 2, ... *)
Definition price_frame (closes : list Q) : DataFrame :=
  mkDataFrame (Index ["Close"%string])
              (map Z.of_nat (seq 0 (length closes)))
              [map Some closes].

(** The same frame as the price provider labels it for one ticker. *)
Definition downloaded_frame (ticker : string) (closes : list Q) : DataFrame :=
  mkDataFrame (MultiIndex [("Close"%string, ticker)])
              (map Z.of_nat (seq 0 (length closes)))
              [map Some closes].

(** A store with one frame, at location 0. *)
Definition store1 (df : DataFrame) : heap := {[ 0%nat := df ]}.

(** A store with two frames, at locations 0 and 1. *)
Definition store2 (df0 df1 : DataFrame) : heap :=
  <[ 1%nat := df1 ]> {[ 0%nat := df0 ]}.

(** Two hundred closes: 199 days at 1, then a fall to 1/2. *)
Definition falling_closes : list Q := replicate 199 1 ++ [1 # 2].

(** The same closes as bars of the dual-MA backtest, the long fund
    priced like the index, no short fund. *)
Definition falling_bars : list SoxlBacktest.Bar :=
  imap (fun i c => SoxlBacktest.mkBar (Z.of_nat i) c c None) falling_closes.

(** The one row of [falling_bars] that has all its indicators. *)
Definition falling_row : SoxlBacktest.SignalRow :=
  Eval vm_compute in
    match SoxlBacktest.signal_frame false falling_bars with
    | r :: _ => r
    | [] => SoxlBacktest.mkSignalRow 0 0 0 None 0 0 0 false false false false 0
    end.

(** Signals of the single-MA generator, as [trade.py] receives them. *)
Definition long_signal : Strategy.Signal :=
  Strategy.mkSignal 0 Config.TICKER_INDEX (Some 110) (Some 100) 250 true
                    "LONG" Config.TICKER_LONG 1 false false (Some 10).

Definition short_signal : Strategy.Signal :=
  Strategy.mkSignal 0 Config.TICKER_INDEX (Some 90) (Some 100) 250 false
                    "SHORT" Config.TICKER_SHORT 1 false false (Some (- 10)).

Definition holding (quantity : Z) : Trade.Position :=
  Trade.mkPosition quantity 0 0 0.

(** Every ticker quoted at 10. *)
Definition quotes_at_10 (ticker : string) : Series := [Some 10].

(** Five days of index and fund closes.  With a two-day average the
    index is above it on days 1 and 2, below on day 3, above on day 4. *)
Definition five_index_closes : list Q := [10; 11; 12; 11; 12].
Definition five_etf_closes : list Q := [100; 103; 106; 103; 106].

(** Dated series out of closes. *)
Definition dated (closes : list Q) : IndexedSeries :=
  imap (fun i c => (Z.of_nat i, Some c)) closes.

(** 202 days for the dual-MA backtest: 200 days at 1, then 2 and 3.
    The signal range is the last three days: CASH, LONG, LONG. *)
Definition rising_closes : list Q := replicate 200 1 ++ [2; 3].

(** The frame of the five example days. *)
Definition five_days : list Backtest.Row :=
  Backtest.combined_frame (dated five_index_closes) (dated five_etf_closes)
                          2 100000.

End Examples.
(* ================================================================== *)
(** ** strategy.py: the size of the position *)

Module PositionSize.
Import Config Strategy.

(** The entry [action]: "HOLD CASH", or
    "HOLD <shares> shares of <position>". *)
Inductive Action : Type :=
| HOLD_CASH
| HOLD (shares : Z) (position : string).

(** The entries that [get_position_size] adds to those of the signal. *)
Record Sizing : Type := mkSizing {
  portfolio_value : Q;
  position_value : Q;
  ticker_price : option float;    (* the key is absent for CASH *)
  shares_to_hold : Z;
  action : Action
}.

(** What [get_position_size] returns: the error signal it was given,
    the dictionary [{"error": "Could not fetch data for <position>"}],
    or the signal with its sizing. *)
Inductive SizedDict : Type :=
| Unsized (need_at_least : nat)
| FetchError (position : string)
| Sized (s : Signal) (z : Sizing).

(** [df.empty]: one of the two axes has length zero. *)
Definition empty (df : DataFrame) : bool :=
  match index df, level0 (columns df) with
  | _ :: _, _ :: _ => false
  | _, _ => true
  end.

(** [get_position_size]; [get_data ticker period] is the frame that
    the price provider returns. *)
Definition get_position_size (get_data : string -> string -> DataFrame)
    (signal : SignalDict) (portfolio_value : Q) : result SizedDict :=
  match signal with
  | Error n => Ok (Unsized n)
  | Sig signal =>
      let allocation := allocation signal in
      let position_value := portfolio_value * allocation in
      if String.eqb (position signal) "CASH" then
        Ok (Sized signal (mkSizing portfolio_value 0 None 0%Z HOLD_CASH))
      else
        let ticker_data := get_data (position signal) "5d" in
        if empty ticker_data then Ok (FetchError (position signal))
        else
          close ← match getitem ticker_data "Close" with
                  | Some c => Ok c
                  | None => Raise KeyError
                  end;
          ticker_price ← last_or IndexError close;
          q ← py_div_pure (Some position_value) ticker_price;
          shares ← Trade.py_int_float q;
          Ok (Sized signal
                (mkSizing portfolio_value (py_round position_value 2)
                          (Some (fround ticker_price 2)) shares
                          (HOLD shares (position signal))))
  end.

End PositionSize.

(* ================================================================== *)
(** ** trade.py: the client, the orders it submits and a whole run *)

Module TradeSession.
Import Config Trade.

(** Why [get_alpaca_client] raises: [ImportError] when the broker's
    library is not installed, [ValueError] when a credential is not
    set. *)
Inductive ClientError : Type :=
| NotInstalled
| NoCredentials.

Record TradingClient : Type := mkTradingClient {
  api_key : string;
  secret_key : string;
  paper : bool
}.

(** [not s] for the value of [os.environ.get]: no value, or the empty
    string. *)
Definition falsy (s : option string) : bool :=
  match s with
  | Some (String _ _) => false
  | _ => true
  end.

(** [get_alpaca_client] *)
Definition get_alpaca_client (alpaca_available : bool)
    (environ : gmap string string) (paper : bool)
  : ClientError + TradingClient :=
  if negb alpaca_available then inl NotInstalled
  else
    let api_key := environ !! "ALPACA_API_KEY"%string in
    let secret_key := environ !! "ALPACA_SECRET_KEY"%string in
    if falsy api_key || falsy secret_key then inl NoCredentials
    else inr (mkTradingClient (default EmptyString api_key)
                              (default EmptyString secret_key) paper).

(** The enumerations of the broker's library that an order carries. *)
Inductive OrderSide : Type := BUY | SELL.

Inductive TimeInForce : Type := DAY | GTC | OPG | CLS | IOC | FOK.

Inductive OrderType : Type := MARKET | LIMIT | STOP | STOP_LIMIT | TRAILING_STOP.

(** [MarketOrderRequest(symbol=, qty=, side=, time_in_force=)] *)
Record MarketOrderRequest : Type := mkMarketOrderRequest {
  request_symbol : string;
  request_qty : Z;
  request_side : OrderSide;
  time_in_force : TimeInForce
}.

(** The order that [client.submit_order] returns, with the attributes
    that [execute_trade] reads: [id], [symbol], [qty], [side] and
    [type], as the broker booked them. *)
Record AlpacaOrder : Type := mkAlpacaOrder {
  reply_id : string;
  reply_symbol : string;
  reply_qty : Q;
  reply_side : OrderSide;
  reply_type : OrderType
}.

(** The broker behind the client.  [B] is its state and [E] the
    exceptions that its library raises.  [submit_order] is
    [client.submit_order]: it answers with the booked order or raises,
    and the broker's state after the call is the broker's to decide in
    both cases. *)
Class Alpaca (B E : Type) : Type := mkAlpaca {
  submit_order : TradingClient -> MarketOrderRequest -> B -> (E + AlpacaOrder) * B
}.

(** What leaves a run that does not return: an exception of the run's
    own code, or one that the broker's library raised. *)
Inductive Raised (E : Type) : Type :=
| Python (e : exn)
| Library (e : E).
Arguments Python {E} e.
Arguments Library {E} e.

(** Computations that talk to the broker and may raise. *)
Definition T (B E A : Type) : Type := B -> (Raised E + A) * B.

#[export] Instance T_ret {B E : Type} : MRet (T B E) := fun A a b => (inr a, b).

#[export] Instance T_bind {B E : Type} : MBind (T B E) := fun A C f m b =>
  match m b with
  | (inr a, b') => f a b'
  | (inl e, b') => (inl e, b')
  end.

(** A step of the run's own code. *)
Definition lift {B E A : Type} (r : result A) : T B E A := fun b =>
  match r with
  | Ok a => (inr a, b)
  | Raise e => (inl (Python e), b)
  end.

(** A call of the broker's library. *)
Definition call {B E A : Type} (c : B -> (E + A) * B) : T B E A := fun b =>
  match c b with
  | (inr a, b') => (inr a, b')
  | (inl e, b') => (inl (Library e), b')
  end.

(** The dictionary that [execute_trade] returns. *)
Inductive TradeReport : Type :=
| DRY_RUN (symbol : string) (qty : Z) (side : Side)
| SUBMITTED (order_id : string) (symbol : string) (qty : Q)
            (side : OrderSide) (type : OrderType).

(** [execute_trade] *)
Definition execute_trade `{Alpaca B E} (client : TradingClient)
    (symbol : string) (qty : Z) (side : Side) (dry_run : bool)
  : T B E TradeReport :=
  if dry_run then mret (DRY_RUN symbol qty side)
  else
    let order_side := match side with buy => BUY | sell => SELL end in
    let order_request := mkMarketOrderRequest symbol qty order_side DAY in
    order ← call (submit_order client order_request);
    mret (SUBMITTED (reply_id order) (reply_symbol order) (reply_qty order)
                    (reply_side order) (reply_type order)).

(** [run_strategy] from the signal on, with the client and the calls
    of [execute_trade]; [use_shorts] is the configuration constant
    [USE_SHORTS], [portfolio_value] and [positions] are what
    [get_account_info] and [get_current_positions] read from the
    broker, [quotes] as in [reconcile].  It returns the reports of
    [execute_trade] in the order in which they are printed. *)
Definition session `{Alpaca B E} (use_shorts paper dry_run : bool)
    (signal : Strategy.SignalDict)
    (alpaca_available : bool) (environ : gmap string string)
    (portfolio_value : Q) (positions : gmap string Position)
    (quotes : string -> Series) : T B E (list TradeReport) :=
  match signal with
  | Strategy.Error _ => mret []
  | Strategy.Sig signal =>
      match get_alpaca_client alpaca_available environ paper with
      | inl _ => mret []
      | inr client =>
          let target_ticker :=
            if String.eqb (Strategy.signal signal) "LONG"
            then Some TICKER_LONG else None in
          let target_ticker :=
            if String.eqb (Strategy.signal signal) "SHORT" && use_shorts
            then Some TICKER_SHORT else target_ticker in
          let current_tqqq := held positions TICKER_LONG in
          let current_sqqq := held positions TICKER_SHORT in
          if bool_decide (target_ticker = Some TICKER_LONG) then
            tqqq_price ← lift (last_or IndexError (quotes TICKER_LONG));
            target_shares ←
              lift (calculate_target_position signal portfolio_value tqqq_price);
            let shares_to_trade := (target_shares - current_tqqq)%Z in
            closing ←
              (if (0 <? current_sqqq)%Z
               then r ← execute_trade client TICKER_SHORT current_sqqq sell dry_run;
                    mret [r]
               else mret []);
            opening ←
              (if (0 <? shares_to_trade)%Z
               then r ← execute_trade client TICKER_LONG shares_to_trade buy dry_run;
                    mret [r]
               else if (shares_to_trade <? 0)%Z
                    then r ← execute_trade client TICKER_LONG
                               (Z.abs shares_to_trade) sell dry_run;
                         mret [r]
                    else mret []);
            mret (closing ++ opening)
          else if bool_decide (target_ticker = Some TICKER_SHORT) then
            sqqq_price ← lift (last_or IndexError (quotes TICKER_SHORT));
            target_shares ←
              lift (calculate_target_position signal portfolio_value sqqq_price);
            let shares_to_trade := (target_shares - current_sqqq)%Z in
            closing ←
              (if (0 <? current_tqqq)%Z
               then r ← execute_trade client TICKER_LONG current_tqqq sell dry_run;
                    mret [r]
               else mret []);
            opening ←
              (if (0 <? shares_to_trade)%Z
               then r ← execute_trade client TICKER_SHORT shares_to_trade buy dry_run;
                    mret [r]
               else mret []);
            mret (closing ++ opening)
          else
            close_long ←
              (if (0 <? current_tqqq)%Z
               then r ← execute_trade client TICKER_LONG current_tqqq sell dry_run;
                    mret [r]
               else mret []);
            close_short ←
              (if (0 <? current_sqqq)%Z
               then r ← execute_trade client TICKER_SHORT current_sqqq sell dry_run;
                    mret [r]
               else mret []);
            mret (close_long ++ close_short)
      end
  end.

(** [run_strategy] *)
Definition run_strategy `{Alpaca B E} (paper dry_run : bool)
    (signal : Strategy.SignalDict)
    (alpaca_available : bool) (environ : gmap string string)
    (portfolio_value : Q) (positions : gmap string Position)
    (quotes : string -> Series) : T B E (list TradeReport) :=
  session USE_SHORTS paper dry_run signal alpaca_available environ
          portfolio_value positions quotes.

End TradeSession.


(* ================================================================== *)
(** ** The terms in which the properties are stated *)

Module Terms.

(** A well-formed frame: one column of values per label, each with one
    value per row. *)
Definition wf_frame (df : DataFrame) : Prop :=
  length (level0 (columns df)) = length (values df) /\
  Forall (fun c : Series => length c = length (index df)) (values df).

(** Frames with the same rows and the same columns under every key. *)
Definition same_data (df df' : DataFrame) : Prop :=
  index df' = index df /\ forall k, getitem df' k = getitem df k.

(** The frame with its column labels reduced to their first level. *)
Definition relabel (df : DataFrame) : DataFrame :=
  mkDataFrame (get_level_values_0 (columns df)) (index df) (values df).

(** The store after lines 47-48 (or 49-50) of [run_backtest]. *)
Definition relabelled (h : heap) (l : loc) (df : DataFrame) : heap :=
  if is_MultiIndex (columns df) then <[l := relabel df]> h else h.

(** A frame rule for the store.  [frame_ok S m P]: running [m] leaves
    every object of [S] as it was, and a value it returns satisfies [P]. *)
Definition frame_ok {A : Type} (S : gset loc) (m : M A) (P : A -> Prop) : Prop :=
  forall h : heap, S ⊆ dom h ->
  forall (r : result A) (h' : heap), m h = (r, h') ->
    S ⊆ dom h' /\
    (forall l, l ∈ S -> h' !! l = h !! l) /\
    (forall a, r = Ok a -> P a).

(** Computations that leave the store as it is. *)
Definition reads_only {A : Type} (m : M A) : Prop :=
  forall (h h' : heap) (r : result A), m h = (r, h') -> h' = h.


(** Every close of the series that is not NaN is positive. *)
Definition positive_closes (s : IndexedSeries) : bool :=
  forallb (fun '(_, v) => match v with Some x => Qlt_bool 0 x | None => true end) s.

(** The volatility bands as the specification words them. *)
Definition in_band (volatility : float) (m : Q) : Prop :=
  match volatility with
  | Some v =>
      (v <= 0.35 -> m == 1) /\
      (0.35 < v /\ v <= 0.50 -> m == 0.75) /\
      (0.50 < v -> m == 0.5)
  | None => m == 1
  end.

(** The count of the specification: the rows whose position differs
    from the position of the row before; the first row has no row
    before it and is not counted. *)
Fixpoint flips_after (previous : Z) (s : list Z) : nat :=
  match s with
  | [] => 0
  | x :: rest => (if (x =? previous)%Z then 0 else 1) + flips_after x rest
  end.

Definition flips (s : list Z) : nat :=
  match s with
  | [] => 0
  | x :: rest => flips_after x rest
  end.

End Terms.
Export Terms.


(** *** The lagged returns of [backtest.py] *)

Module BacktestTerms.
Import Backtest.

(** The fund's return from one row of the signal range to the next. *)
Definition etf_move (previous current : SignalRow) : Q :=
  sr_etf_close current / sr_etf_close previous - 1.

(** The rows that follow [previous], each with the fund's return over
    its day and that return times the signal of the day before. *)
Fixpoint lagged (previous : SignalRow) (rest : list SignalRow)
  : list (SignalRow * Q * Q) :=
  match rest with
  | [] => []
  | r :: rest' =>
      (r, etf_move previous r, inject_Z (sr_signal previous) * etf_move previous r)
        :: lagged r rest'
  end.

Definition close_of (r : SignalRow) : float := Some (sr_etf_close r).

Definition signal_of (r : SignalRow) : float := Some (inject_Z (sr_signal r)).

Definition pct (x p : float) : float := fsub (fdiv x p) (Some 1).

Definition keep (x : SignalRow * float * float) : option (SignalRow * Q * Q) :=
  let '(r, e, s) := x in
  match e, s with
  | Some x, Some y => Some (r, x, y)
  | _, _ => None
  end.

(** The return columns of the rows after [previous]. *)
Definition returns_after (previous : SignalRow) (rest : list SignalRow)
  : list (SignalRow * Q * Q) :=
  let e := zip_with pct (map close_of rest)
             (take (length rest) (close_of previous :: map close_of rest)) in
  let s := zip_with fmul
             (take (length rest) (signal_of previous :: map signal_of rest)) e in
  omap keep (zip (zip rest e) s).

Definition growth_of (x : SignalRow * Q * Q) : Q := let '(_, _, s) := x in 1 + s.

Definition hold_growth_of (x : SignalRow * Q * Q) : Q := let '(_, e, _) := x in 1 + e.

(** Row [t] of the final frame is day [t + 1] of the signal range (the
    first day, which has no return, is dropped); its strategy return is
    the signal of day [t] times the fund's return over day [t + 1]. *)
Definition tqqq_lag_rule (sig : list SignalRow) (data : list Row)
  : Prop :=
  length data = pred (length sig) /\
  forall (t : nat) (p c : SignalRow),
    sig !! t = Some p -> sig !! (S t) = Some c ->
    exists row,
      data !! t = Some row /\
      date row = sr_date c /\
      signal row = sr_signal c /\
      etf_return row
        = sr_etf_close c / sr_etf_close p - 1 /\
      strategy_return row
        = inject_Z (sr_signal p) * etf_return row.

(** The signal is CASH before day [k] and LONG on day [k]: up to day
    [k] the strategy returns are zero, and on day [k + 1] the strategy
    return is the fund's. *)
Definition tqqq_flip_rule (sig : list SignalRow) (data : list Row)
  : Prop :=
  forall (k : nat) (pk : SignalRow),
    (forall j p, (j < k)%nat -> sig !! j = Some p -> sr_signal p = 0%Z) ->
    sig !! k = Some pk -> sr_signal pk = 1%Z ->
    (forall t row, (t < k)%nat -> data !! t = Some row ->
                   strategy_return row == 0) /\
    (forall row, data !! k = Some row ->
                 strategy_return row == etf_return row /\
                 (~ etf_return row == 0 ->
                  ~ strategy_return row == 0)).

End BacktestTerms.


(** *** The lagged returns of [soxl_backtest.py] *)

Module SoxlBacktestTerms.
Import SoxlBacktest.

(** The return that a position of the day before earns: the long
    fund's for 1, the short fund's for -1, none for 0. *)
Definition exposure_return (position : Z) (long_ret short_ret : Q) : Q :=
  if (position =? 1)%Z then long_ret
  else if (position =? -1)%Z then short_ret
  else 0.

Definition long_move (previous current : SignalRow) : Q :=
  sr_long_close current / sr_long_close previous - 1.

(** The short fund's return, 0 when the short fund is not in use. *)
Definition short_move (has_short : bool) (previous current : SignalRow) : Q :=
  if has_short then
    match sr_short_close current, sr_short_close previous with
    | Some c, Some p => c / p - 1
    | _, _ => 0
    end
  else 0.

Fixpoint lagged (has_short : bool) (previous : SignalRow) (rest : list SignalRow)
  : list (SignalRow * Q * Q * Q) :=
  match rest with
  | [] => []
  | r :: rest' =>
      (r, long_move previous r, short_move has_short previous r,
       exposure_return (sr_position previous)
                       (long_move previous r) (short_move has_short previous r))
        :: lagged has_short r rest'
  end.

Definition long_of (r : SignalRow) : float := Some (sr_long_close r).

Definition position_of_row (r : SignalRow) : float :=
  Some (inject_Z (sr_position r)).

Definition pct (x p : float) : float := fsub (fdiv x p) (Some 1).

Definition short_cell (has_short : bool) (previous current : SignalRow) : float :=
  if has_short then pct (sr_short_close current) (sr_short_close previous)
  else Some 0.

Definition keep (x : SignalRow * float * float * float)
  : option (SignalRow * Q * Q * Q) :=
  let '(r, l, s, st) := x in
  match l, s, st with
  | Some x, Some y, Some z => Some (r, x, y, z)
  | _, _, _ => None
  end.

Definition returns_after (has_short : bool) (previous : SignalRow)
    (rest : list SignalRow) : list (SignalRow * Q * Q * Q) :=
  let l := zip_with pct (map long_of rest)
             (take (length rest) (long_of previous :: map long_of rest)) in
  let s := if has_short
           then zip_with pct (map sr_short_close rest)
                  (take (length rest)
                        (sr_short_close previous :: map sr_short_close rest))
           else map (fun _ => Some 0) rest in
  let st := zip_with (fun '(p, l) s => where_position p l s)
              (zip (take (length rest)
                         (position_of_row previous :: map position_of_row rest)) l)
              s in
  omap keep (zip (zip (zip rest l) s) st).

(** A row that can be lagged: a positive long close and, when the
    short fund is in use, a positive short close. *)
Definition priced (has_short : bool) (r : SignalRow) : Prop :=
  0 < sr_long_close r /\
  (has_short = true -> exists z, sr_short_close r = Some z /\ 0 < z).

Definition growth_of (x : SignalRow * Q * Q * Q) : Q :=
  let '(_, _, _, st) := x in 1 + st.

Definition hold_growth_of (x : SignalRow * Q * Q * Q) : Q :=
  let '(_, l, _, _) := x in 1 + l.

Definition positive_short (short_close : option IndexedSeries) : bool :=
  match short_close with
  | Some s => positive_closes s
  | None => true
  end.

(** The same for the dual-MA backtest: the position of day [t] selects
    the return of day [t + 1]: the long fund's for 1, the short fund's
    for -1, none for 0; without the short fund its return column is 0,
    with it the column holds the short fund's return over the day. *)
Definition soxl_lag_rule (has_short : bool) (sig : list SignalRow)
    (data : list Row) : Prop :=
  length data = pred (length sig) /\
  forall (t : nat) (p c : SignalRow),
    sig !! t = Some p -> sig !! (S t) = Some c ->
    exists row,
      data !! t = Some row /\
      row_signal row = c /\
      long_return row
        = sr_long_close c / sr_long_close p - 1 /\
      (has_short = false -> short_return row = 0) /\
      (has_short = true ->
       exists zc zp,
         sr_short_close c = Some zc /\ sr_short_close p = Some zp /\
         short_return row = zc / zp - 1) /\
      strategy_return row
        = exposure_return
            (sr_position p)
            (long_return row) (short_return row) /\
      (sr_position p = 0%Z \/ sr_position p = 1%Z ->
       strategy_return row
         == inject_Z (sr_position p) * long_return row).

Definition soxl_flip_rule (sig : list SignalRow)
    (data : list Row) : Prop :=
  forall (k : nat) (pk : SignalRow),
    (forall j p, (j < k)%nat -> sig !! j = Some p ->
                 sr_position p = 0%Z) ->
    sig !! k = Some pk -> sr_position pk = 1%Z ->
    (forall t row, (t < k)%nat -> data !! t = Some row ->
                   strategy_return row == 0) /\
    (forall row, data !! k = Some row ->
                 strategy_return row == long_return row /\
                 (~ long_return row == 0 ->
                  ~ strategy_return row == 0)).

End SoxlBacktestTerms.
(* ================================================================== *)
(** ** Terms for comparing the two modes of the dual-MA backtest *)

Module LongOnlyTerms.
Import SoxlBacktest.

(** A position with SHORT collapsed to CASH. *)
Definition collapse (position : Z) : Z :=
  if (position =? -1)%Z then 0%Z else position.

(** The row of the signal range with its position collapsed. *)
Definition long_only_signal (r : SignalRow) : SignalRow :=
  mkSignalRow (sr_date r) (sr_index_close r) (sr_long_close r)
              (sr_short_close r) (sr_sma_200 r) (sr_sma_50 r) (sr_roc r)
              (sr_above_200 r) (sr_above_50 r) (sr_strong_up r)
              (sr_strong_down r) (collapse (sr_position r)).

(** The row of the final frame with its position collapsed and every
    other column as it is. *)
Definition long_only_row (r : Row) : Row :=
  mkRow (long_only_signal (row_signal r)) (long_return r) (short_return r)
        (strategy_return r) (buy_hold_return r) (strategy_cumulative r)
        (buy_hold_cumulative r) (strategy_value r) (buy_hold_value r).

End LongOnlyTerms.

(* ================================================================== *)
(** ** Terms for comparing two initial capitals *)

Module CapitalTerms.
Import Backtest.

(** The row with its two portfolio values recomputed from another
    initial capital, every other column as it is. *)
Definition with_capital (initial_capital : Q) (r : Row) : Row :=
  mkRow (date r) (index_close r) (etf_close r) (sma r) (above_ma r) (signal r)
        (etf_return r) (strategy_return r) (buy_hold_return r)
        (strategy_cumulative r) (buy_hold_cumulative r)
        (initial_capital * strategy_cumulative r)
        (initial_capital * buy_hold_cumulative r).

End CapitalTerms.

(* ================================================================== *)
(** ** Terms for the orders of a run *)

Module TradeTerms.
Import Trade TradeSession.

(** By how much the holding of [ticker] changes when the orders are
    filled. *)
Fixpoint net (ticker : string) (orders : list Order) : Z :=
  match orders with
  | [] => 0
  | o :: rest =>
      if String.eqb (symbol o) ticker then
        match side o with
        | buy => (order_qty o + net ticker rest)%Z
        | sell => (net ticker rest - order_qty o)%Z
        end
      else net ticker rest
  end.

(** The target of the reconciliation (lines 159-162 of [trade.py]). *)
Definition targets (use_shorts : bool) (signal : Strategy.Signal) (ticker : string)
  : Prop :=
  (ticker = Config.TICKER_LONG /\ Strategy.signal signal = "LONG"%string) \/
  (ticker = Config.TICKER_SHORT /\ Strategy.signal signal = "SHORT"%string /\
   use_shorts = true).

(** No instrument is targeted: the holdings go to cash. *)
Definition targets_cash (use_shorts : bool) (signal : Strategy.Signal) : Prop :=
  Strategy.signal signal <> "LONG"%string /\
  (Strategy.signal signal = "SHORT"%string -> use_shorts = false).

(** The request that [execute_trade] builds for an order: a market
    order for the day. *)
Definition request (o : Order) : MarketOrderRequest :=
  mkMarketOrderRequest (symbol o) (order_qty o)
                       (match side o with buy => BUY | sell => SELL end) DAY.

(** What [execute_trade] reports for an order in a dry run, and for
    the broker's reply in a live one. *)
Definition dry_report (o : Order) : TradeReport :=
  DRY_RUN (symbol o) (order_qty o) (side o).

Definition submitted (reply : AlpacaOrder) : TradeReport :=
  SUBMITTED (reply_id reply) (reply_symbol reply) (reply_qty reply)
            (reply_side reply) (reply_type reply).

(** The orders submitted one after the other, each on the state in
    which the broker was left by the one before.  The first refusal
    ends it with the broker's exception, in the state in which the
    refusal left the broker; without a refusal it yields the reports
    of the replies. *)
Fixpoint submit_each `{Alpaca B E} (client : TradingClient) (orders : list Order)
    (b : B) : (Raised E + list TradeReport) * B :=
  match orders with
  | [] => (inr [], b)
  | o :: rest =>
      match submit_order client (request o) b with
      | (inl e, b') => (inl (Library e), b')
      | (inr reply, b') =>
          match submit_each client rest b' with
          | (inl e, b'') => (inl e, b'')
          | (inr reports, b'') => (inr (submitted reply :: reports), b'')
          end
      end
  end.

End TradeTerms.

(* ================================================================== *)
(** ** More data for running the model *)

Module MoreExamples.
Import Examples.

(** The CASH signal of the single-MA generator. *)
Definition cash_signal : Strategy.Signal :=
  Strategy.mkSignal 0 Config.TICKER_INDEX (Some 90) (Some 100) 250 false
                    "CASH" "CASH" 0 false false (Some (- 10)).

(** Holdings of 40 of the long fund and 7 of the short fund. *)
Definition both_held : gmap string Trade.Position :=
  <[ Config.TICKER_LONG := holding 40 ]> {[ Config.TICKER_SHORT := holding 7 ]}.


(** The frame of the dual-MA backtest on the rising closes, the long
    fund priced like the index, no short fund. *)
Definition rising_days : list SoxlBacktest.Row :=
  SoxlBacktest.backtest_frame (dated rising_closes) (dated rising_closes) None
                              100000 false.

(** Four days on which the index closes above its two-day average
    from the second day on. *)
Definition climbing_index_closes : list Q := [10; 11; 12; 13].
Definition climbing_etf_closes : list Q := [100; 103; 106; 109].

(** 202 days without any move: the dual-MA policy stays in cash. *)
Definition flat_closes : list Q := replicate 202 1.

(** The frame of the dual-MA backtest on the flat closes: two days,
    both in cash. *)
Definition flat_days : list SoxlBacktest.Row :=
  SoxlBacktest.backtest_frame (dated flat_closes) (dated flat_closes) None
                              100000 false.

(** An environment with both credentials of the broker. *)
Definition credentials : gmap string string :=
  <[ "ALPACA_API_KEY"%string := "key"%string ]>
    {[ "ALPACA_SECRET_KEY"%string := "secret"%string ]}.

(** A broker for the examples.  It books every sale, and a purchase
    of at most [limit] shares; it keeps the requests it booked, the
    oldest first, and refuses the others with a message. *)
Definition example_submit (limit : Z) (client : TradeSession.TradingClient)
    (r : TradeSession.MarketOrderRequest)
    (booked : list TradeSession.MarketOrderRequest)
  : (string + TradeSession.AlpacaOrder) * list TradeSession.MarketOrderRequest :=
  match TradeSession.request_side r with
  | TradeSession.BUY =>
      if (limit <? TradeSession.request_qty r)%Z
      then (inl "insufficient buying power"%string, booked)
      else (inr (TradeSession.mkAlpacaOrder
                   ("order for " +:+ TradeSession.request_symbol r)
                   (TradeSession.request_symbol r)
                   (inject_Z (TradeSession.request_qty r))
                   TradeSession.BUY TradeSession.MARKET),
            booked ++ [r])
  | TradeSession.SELL =>
      (inr (TradeSession.mkAlpacaOrder
              ("order for " +:+ TradeSession.request_symbol r)
              (TradeSession.request_symbol r)
              (inject_Z (TradeSession.request_qty r))
              TradeSession.SELL TradeSession.MARKET),
       booked ++ [r])
  end.

Definition example_broker (limit : Z)
  : TradeSession.Alpaca (list TradeSession.MarketOrderRequest) string :=
  TradeSession.mkAlpaca _ _ (example_submit limit).

End MoreExamples.


(* ================================================================== *)
(** * Properties *)

(** ** Floats *)

Module PyFloatFacts.

Lemma Qlt_bool_iff (x y : Q) : Qlt_bool x y = true <-> x < y.
Proof.
  unfold Qlt_bool. rewrite negb_true_iff.
  destruct (Qle_bool y x) eqn:E.
  - apply Qle_bool_iff in E. split; [discriminate | intros; lra].
  - split; [intros _ | reflexivity].
    apply Qnot_le_lt. intros C. apply Qle_bool_iff in C. congruence.
Qed.

Lemma Qlt_bool_false_iff (x y : Q) : Qlt_bool x y = false <-> y <= x.
Proof.
  unfold Qlt_bool. rewrite negb_false_iff. apply Qle_bool_iff.
Qed.

Lemma Qle_bool_false_iff (x y : Q) : Qle_bool x y = false <-> y < x.
Proof.
  rewrite <- Qlt_bool_iff. unfold Qlt_bool.
  destruct (Qle_bool x y); simpl; split; congruence.
Qed.

Lemma fgt_Some (a b : Q) : fgt (Some a) (Some b) = true <-> b < a.
Proof. apply Qlt_bool_iff. Qed.

Lemma flt_Some (a b : Q) : flt (Some a) (Some b) = true <-> a < b.
Proof. apply Qlt_bool_iff. Qed.

Lemma fgt_true (x y : float) :
  fgt x y = true -> exists a b, x = Some a /\ y = Some b /\ b < a.
Proof.
  destruct x as [a|], y as [b|]; try discriminate.
  intros E. exists a, b. rewrite fgt_Some in E. auto.
Qed.

Lemma flt_true (x y : float) :
  flt x y = true -> exists a b, x = Some a /\ y = Some b /\ a < b.
Proof.
  destruct x as [a|], y as [b|]; try discriminate.
  intros E. exists a, b. rewrite flt_Some in E. auto.
Qed.

(** A float is never both above and below another one. *)
Lemma fgt_flt_exclusive (x y : float) : fgt x y && flt x y = false.
Proof.
  destruct (fgt x y) eqn:G; [|reflexivity].
  destruct (flt x y) eqn:L; [|reflexivity].
  apply fgt_true in G as (a & b & -> & -> & Hab).
  apply flt_true in L as (a' & b' & [= <-] & [= <-] & Hba).
  lra.
Qed.

Lemma round_half_even_le (x : Q) (n : Z) :
  x <= inject_Z n -> (round_half_even x <= n)%Z.
Proof.
  intros Hx. unfold round_half_even.
  pose proof (Qfloor_le x) as Hfl.
  pose proof (Qlt_floor x) as Hlt.
  assert (Hfn : (Qfloor x <= n)%Z).
  { rewrite Zle_Qle. lra. }
  destruct (Qlt_bool (x - inject_Z (Qfloor x)) (1 # 2)) eqn:E1; [exact Hfn|].
  apply Qlt_bool_false_iff in E1.
  assert (Hne : (Qfloor x < n)%Z).
  { rewrite Zlt_Qlt. lra. }
  repeat match goal with |- context [if ?b then _ else _] => destruct b end; lia.
Qed.

Lemma round_half_even_ge (x : Q) (n : Z) :
  inject_Z n <= x -> (n <= round_half_even x)%Z.
Proof.
  intros Hx. unfold round_half_even.
  assert (Hfn : (n <= Qfloor x)%Z).
  { apply Qfloor_resp_le in Hx. rewrite Qfloor_Z in Hx. exact Hx. }
  repeat match goal with |- context [if ?b then _ else _] => destruct b end; lia.
Qed.

Lemma pow10_pos (n : nat) : 0 < inject_Z (10 ^ Z.of_nat n).
Proof.
  replace 0 with (inject_Z 0) by reflexivity. rewrite <- Zlt_Qlt.
  apply Z.pow_pos_nonneg; lia.
Qed.

(** Rounding keeps a value on its side of an integer bound. *)
Lemma py_round_le (x : Q) (nd : nat) (n : Z) :
  x <= inject_Z n -> py_round x nd <= inject_Z n.
Proof.
  intros Hx. unfold py_round.
  pose proof (pow10_pos nd) as Hs.
  set (s := inject_Z (10 ^ Z.of_nat nd)) in *.
  apply Qle_shift_div_r; [exact Hs|].
  unfold s. rewrite <- inject_Z_mult, <- Zle_Qle.
  apply round_half_even_le. rewrite inject_Z_mult. fold s.
  apply Qmult_le_compat_r; lra.
Qed.

Lemma py_round_ge (x : Q) (nd : nat) (n : Z) :
  inject_Z n <= x -> inject_Z n <= py_round x nd.
Proof.
  intros Hx. unfold py_round.
  pose proof (pow10_pos nd) as Hs.
  set (s := inject_Z (10 ^ Z.of_nat nd)) in *.
  apply Qle_shift_div_l; [exact Hs|].
  unfold s. rewrite <- inject_Z_mult, <- Zle_Qle.
  apply round_half_even_ge. rewrite inject_Z_mult. fold s.
  apply Qmult_le_compat_r; lra.
Qed.

End PyFloatFacts.
Import PyFloatFacts.

(** ** Frames and series *)

Module PandasFacts.

Lemma find_label_lt (k : string) (names : list string) (i : nat) :
  find_label k names = Some i -> (i < length names)%nat.
Proof.
  revert i. induction names as [|n names IH]; intros i; simpl; [discriminate|].
  destruct (String.eqb n k).
  - intros [= <-]. lia.
  - destruct (find_label k names) as [j|]; [|discriminate].
    intros [= <-]. specialize (IH j eq_refl). lia.
Qed.

Lemma find_label_app_l (k : string) (names more : list string) (i : nat) :
  find_label k names = Some i -> find_label k (names ++ more) = Some i.
Proof.
  revert i. induction names as [|n names IH]; intros i; simpl; [discriminate|].
  destruct (String.eqb n k); [auto|].
  destruct (find_label k names) as [j|]; [|discriminate].
  intros [= <-]. now rewrite (IH j eq_refl).
Qed.

Lemma find_label_app_new (k : string) (names : list string) :
  find_label k names = None -> find_label k (names ++ [k]) = Some (length names).
Proof.
  induction names as [|n names IH]; simpl.
  - now rewrite String.eqb_refl.
  - destruct (String.eqb n k); [discriminate|].
    destruct (find_label k names); [discriminate|].
    intros _. now rewrite IH.
Qed.

Lemma find_label_app_other (k k' : string) (names : list string) :
  k <> k' -> find_label k' names = None -> find_label k' (names ++ [k]) = None.
Proof.
  intros Hne. induction names as [|n names IH]; simpl.
  - intros _. destruct (String.eqb_spec k k'); congruence.
  - destruct (String.eqb n k'); [discriminate|].
    destruct (find_label k' names); [discriminate|].
    intros _. now rewrite IH.
Qed.

Lemma level0_add_label (c : ColumnIndex) (k : string) :
  level0 (add_label c k) = level0 c ++ [k].
Proof. destruct c; simpl; [reflexivity|]. now rewrite map_app. Qed.

Lemma index_setitem (df : DataFrame) (k : string) (s : Series) :
  index (setitem df k s) = index df.
Proof. unfold setitem. now destruct (find_label k _). Qed.

Lemma wf_setitem (df : DataFrame) (k : string) (s : Series) :
  wf_frame df -> length s = length (index df) -> wf_frame (setitem df k s).
Proof.
  intros [Hlen Hall] Hs. unfold wf_frame, setitem.
  destruct (find_label k (level0 (columns df))) as [i|] eqn:E; simpl.
  - split; [now rewrite length_insert|].
    apply Forall_insert; assumption.
  - rewrite level0_add_label, !length_app, Hlen. split; [reflexivity|].
    apply Forall_app. split; [assumption|]. now constructor.
Qed.

(** Reading back the column just assigned. *)
Lemma getitem_setitem_eq (df : DataFrame) (k : string) (s : Series) :
  wf_frame df -> getitem (setitem df k s) k = Some s.
Proof.
  intros [Hlen _]. unfold getitem, setitem.
  destruct (find_label k (level0 (columns df))) as [i|] eqn:E; simpl.
  - rewrite E. apply list_lookup_insert_eq.
    apply find_label_lt in E. lia.
  - rewrite level0_add_label, (find_label_app_new _ _ E), Hlen.
    rewrite lookup_app_r by lia. now rewrite Nat.sub_diag.
Qed.

(** The other columns are untouched by an assignment. *)
Lemma getitem_setitem_ne (df : DataFrame) (k k' : string) (s : Series) :
  wf_frame df -> k <> k' -> getitem (setitem df k s) k' = getitem df k'.
Proof.
  intros [Hlen _] Hne. unfold getitem, setitem.
  destruct (find_label k (level0 (columns df))) as [i|] eqn:E; simpl.
  - destruct (find_label k' (level0 (columns df))) as [j|] eqn:E'; [|reflexivity].
    apply list_lookup_insert_ne. intros ->.
    clear Hlen. revert j E E'.
    induction (level0 (columns df)) as [|n names IH]; intros j; simpl; [discriminate|].
    destruct (String.eqb_spec n k), (String.eqb_spec n k'); try congruence.
    + destruct (find_label k' names); [|discriminate]. intros [= <-]; discriminate.
    + destruct (find_label k names); [|discriminate]. intros [= <-]; discriminate.
    + destruct (find_label k names) as [a|], (find_label k' names) as [b|];
        try discriminate.
      intros [= <-] [= Hab]. subst b. eapply IH; reflexivity.
  - rewrite level0_add_label.
    destruct (find_label k' (level0 (columns df))) as [j|] eqn:E'.
    + rewrite (find_label_app_l _ _ _ _ E').
      apply lookup_app_l. apply find_label_lt in E'. lia.
    + now rewrite (find_label_app_other _ _ _ Hne E').
Qed.

Lemma row_getitem_row_items (names : list string) (cols : list Series)
      (j i : nat) (k : string) (c : Series) (v : float) :
  find_label k names = Some i -> cols !! i = Some c -> c !! j = Some v ->
  row_getitem (row_items names cols j) k = Some v.
Proof.
  revert cols i. induction names as [|n names IH]; intros cols i; simpl; [discriminate|].
  destruct cols as [|c0 cols]; [intros _; rewrite lookup_nil; discriminate|].
  destruct (String.eqb n k) eqn:En.
  - intros [= <-]. simpl. intros [= ->] Hv. rewrite Hv. simpl. now rewrite En.
  - destruct (find_label k names) as [i'|] eqn:E; [|discriminate].
    intros [= <-]. simpl. intros Hc Hv.
    destruct (c0 !! j); simpl; [rewrite En|]; eapply IH; eauto.
Qed.

(** [df.iloc[i][k]] is the [i]-th value of the column [df[k]]. *)
Lemma iloc_getitem (df : DataFrame) (i : Z) (j : nat) (k : string)
      (c : Series) (v : float) :
  position_of (length (index df)) i = Some j ->
  getitem df k = Some c -> c !! j = Some v ->
  exists r, iloc df i = Some r /\ index df !! j = Some (name r) /\
            row_getitem (items r) k = Some v.
Proof.
  intros Hpos Hget Hv. unfold iloc. rewrite Hpos.
  assert (Hj : (j < length (index df))%nat).
  { unfold position_of in Hpos.
    repeat match type of Hpos with
           | context [if ?b then _ else _] => destruct b eqn:?
           end; try discriminate; injection Hpos as <-; lia. }
  destruct (lookup_lt_is_Some_2 (index df) j Hj) as [d Hd]. rewrite Hd.
  eexists. split; [reflexivity|]. split; [reflexivity|]. simpl.
  unfold getitem in Hget.
  destruct (find_label k (level0 (columns df))) as [p|] eqn:E; [|discriminate].
  eapply row_getitem_row_items; eauto.
Qed.

Lemma position_of_last (len : nat) (k : nat) :
  (1 <= k <= len)%nat ->
  position_of len (- Z.of_nat k) = Some (len - k)%nat.
Proof.
  intros Hk. unfold position_of.
  destruct (- Z.of_nat k <? 0)%Z eqn:E1; [|lia].
  destruct (Z.of_nat len + - Z.of_nat k <? 0)%Z eqn:E2; [lia|].
  destruct (Z.of_nat len + - Z.of_nat k <? Z.of_nat len)%Z eqn:E3; [|lia].
  f_equal. lia.
Qed.

(** *** Rolling windows *)

Lemma length_rolling (w : nat) (f : list Q -> float) (s : Series) :
  length (rolling w f s) = length s.
Proof. apply length_imap. Qed.

Lemma length_window (w i : nat) (s : Series) :
  (i < length s)%nat -> length (window w i s) = Nat.min w (S i).
Proof. intros Hi. unfold window. rewrite length_drop, length_take. lia. Qed.

Lemma rolling_lookup (w : nat) (f : list Q -> float) (s : Series) (i : nat) :
  (i < length s)%nat ->
  rolling w f s !! i =
    Some (if (length (window w i s) <? w)%nat then None
          else match observations (window w i s) with
               | Some obs => f obs
               | None => None
               end).
Proof.
  intros Hi. unfold rolling. rewrite list_lookup_imap.
  destruct (lookup_lt_is_Some_2 s i Hi) as [x ->]. reflexivity.
Qed.

(** The first [w - 1] rows have no moving average. *)
Lemma rolling_lookup_short (w : nat) (f : list Q -> float) (s : Series) (i : nat) :
  (i < length s)%nat -> (S i < w)%nat -> rolling w f s !! i = Some NaN.
Proof.
  intros Hi Hw. rewrite rolling_lookup by assumption.
  rewrite length_window by assumption.
  destruct (Nat.ltb_spec (Nat.min w (S i)) w); [reflexivity|lia].
Qed.

Lemma observations_Some (l : list Q) : observations (map Some l) = Some l.
Proof. induction l as [|a l IH]; simpl; [reflexivity|]. now rewrite IH. Qed.

Lemma Qsum_pos (l : list Q) :
  l <> [] -> Forall (fun x => 0 < x) l -> 0 < Qsum l.
Proof.
  intros Hne Hall. destruct l as [|a l]; [congruence|].
  inversion Hall as [|? ? Ha Hl]; subst. clear Hall Hne.
  revert a Ha. induction Hl as [|b l Hb Hl IH]; intros a Ha; simpl.
  - unfold Qsum in *. simpl. lra.
  - specialize (IH b Hb). unfold Qsum in *. simpl in *. lra.
Qed.

Lemma of_nat_pos (n : nat) : (0 < n)%nat -> 0 < of_nat n.
Proof.
  intros Hn. unfold of_nat. replace 0 with (inject_Z 0) by reflexivity.
  rewrite <- Zlt_Qlt. lia.
Qed.

(** The mean of positive observations is a positive number. *)
Lemma mean_pos (l : list Q) :
  l <> [] -> Forall (fun x => 0 < x) l -> exists m, mean l = Some m /\ 0 < m.
Proof.
  intros Hne Hall. unfold mean, fdiv.
  assert (Hn : 0 < of_nat (length l)).
  { apply of_nat_pos. destruct l; [congruence|simpl; lia]. }
  destruct (Qeq_bool (of_nat (length l)) 0) eqn:E.
  - apply Qeq_bool_iff in E. lra.
  - eexists. split; [reflexivity|].
    apply Qlt_shift_div_l; [assumption|].
    pose proof (Qsum_pos l Hne Hall). lra.
Qed.

End PandasFacts.
Import PandasFacts.

(** ** The store *)

Module StoreFacts.

(** Unfold one layer of the monad. *)
Ltac munfold :=
  unfold df_len, df_copy, df_columns, df_set_columns, df_getitem, df_setitem,
    df_iloc, df_index, row_get, py_div in *;
  unfold lift_option, deref, store, alloc, raise in *;
  unfold mbind, mret, M_bind, M_ret in *;
  cbv beta in *.

(** Case analysis on every scrutinee of a hypothesis about a run. *)
Ltac mcases H :=
  repeat match type of H with
         | context [match ?x with _ => _ end] =>
             let E := fresh "E" in destruct x eqn:E; simplify_eq
         end.

Lemma fresh_lookup (h : heap) : h !! fresh (dom h) = None.
Proof. apply not_elem_of_dom, is_fresh. Qed.

(** Allocating and then writing to the new object leaves every object
    that existed before as it was. *)
Lemma lookup_alloc_old (h : heap) (l : loc) (df df' : DataFrame) :
  h !! l = Some df -> <[fresh (dom h) := df']> h !! l = Some df.
Proof.
  intros Hl. rewrite lookup_insert_ne; [assumption|].
  intros E. rewrite <- E, fresh_lookup in Hl. discriminate.
Qed.

(** *** Running the primitives on a known store *)

Lemma bind_run {A B : Type} (m : M A) (f : A -> M B) (h h1 : heap) (a : A) :
  m h = (Ok a, h1) -> (m ≫= f) h = f a h1.
Proof. intros E. unfold mbind, M_bind. now rewrite E. Qed.

Lemma bind_raise {A B : Type} (m : M A) (f : A -> M B) (h h1 : heap) (e : exn) :
  m h = (Raise e, h1) -> (m ≫= f) h = (Raise e, h1).
Proof. intros E. unfold mbind, M_bind. now rewrite E. Qed.

Lemma deref_run (h : heap) (l : loc) (df : DataFrame) :
  h !! l = Some df -> deref l h = (Ok df, h).
Proof. intros E. unfold deref. now rewrite E. Qed.

Lemma store_run (h : heap) (l : loc) (df df' : DataFrame) :
  h !! l = Some df -> store l df' h = (Ok tt, <[l := df']> h).
Proof. intros E. unfold store. now rewrite E. Qed.

Lemma df_len_run (h : heap) (l : loc) (df : DataFrame) :
  h !! l = Some df -> df_len l h = (Ok (length (index df)), h).
Proof. intros E. unfold df_len. now rewrite (bind_run _ _ _ _ _ (deref_run _ _ _ E)). Qed.

Lemma df_copy_run (h : heap) (l : loc) (df : DataFrame) :
  h !! l = Some df ->
  df_copy l h = (Ok (fresh (dom h)), <[fresh (dom h) := df]> h).
Proof. intros E. unfold df_copy. now rewrite (bind_run _ _ _ _ _ (deref_run _ _ _ E)). Qed.

Lemma df_columns_run (h : heap) (l : loc) (df : DataFrame) :
  h !! l = Some df -> df_columns l h = (Ok (columns df), h).
Proof. intros E. unfold df_columns. now rewrite (bind_run _ _ _ _ _ (deref_run _ _ _ E)). Qed.

Lemma df_set_columns_run (h : heap) (l : loc) (df : DataFrame) (c : ColumnIndex) :
  h !! l = Some df ->
  df_set_columns l c h = (Ok tt, <[l := mkDataFrame c (index df) (values df)]> h).
Proof.
  intros E. unfold df_set_columns.
  rewrite (bind_run _ _ _ _ _ (deref_run _ _ _ E)). now apply store_run with df.
Qed.

Lemma df_getitem_run (h : heap) (l : loc) (df : DataFrame) (k : string) (s : Series) :
  h !! l = Some df -> getitem df k = Some s -> df_getitem l k h = (Ok s, h).
Proof.
  intros E G. unfold df_getitem.
  rewrite (bind_run _ _ _ _ _ (deref_run _ _ _ E)), G. reflexivity.
Qed.

Lemma df_getitem_KeyError (h : heap) (l : loc) (df : DataFrame) (k : string) :
  h !! l = Some df -> getitem df k = None -> df_getitem l k h = (Raise KeyError, h).
Proof.
  intros E G. unfold df_getitem.
  rewrite (bind_run _ _ _ _ _ (deref_run _ _ _ E)), G. reflexivity.
Qed.

Lemma df_setitem_run (h : heap) (l : loc) (df : DataFrame) (k : string) (s : Series) :
  h !! l = Some df -> df_setitem l k s h = (Ok tt, <[l := setitem df k s]> h).
Proof.
  intros E. unfold df_setitem.
  rewrite (bind_run _ _ _ _ _ (deref_run _ _ _ E)). now apply store_run with df.
Qed.

Lemma df_iloc_run (h : heap) (l : loc) (df : DataFrame) (i : Z) (r : Row) :
  h !! l = Some df -> iloc df i = Some r -> df_iloc l i h = (Ok r, h).
Proof.
  intros E G. unfold df_iloc.
  rewrite (bind_run _ _ _ _ _ (deref_run _ _ _ E)), G. reflexivity.
Qed.

Lemma df_iloc_IndexError (h : heap) (l : loc) (df : DataFrame) (i : Z) :
  h !! l = Some df -> iloc df i = None -> df_iloc l i h = (Raise IndexError, h).
Proof.
  intros E G. unfold df_iloc.
  rewrite (bind_run _ _ _ _ _ (deref_run _ _ _ E)), G. reflexivity.
Qed.

Lemma row_get_run (h : heap) (r : Row) (k : string) (v : float) :
  row_getitem (items r) k = Some v -> row_get r k h = (Ok v, h).
Proof. intros G. unfold row_get. now rewrite G. Qed.

(** Run the first computation of a sequence with a lemma about it. *)
Ltac mrun lem := erewrite bind_run; [|eapply lem; eassumption].

(** A sequence that returns has returned from its first computation. *)
Lemma bind_Ok_inv {A B : Type} (m : M A) (f : A -> M B) (h h' : heap) (b : B) :
  (m ≫= f) h = (Ok b, h') ->
  exists (a : A) (h1 : heap), m h = (Ok a, h1) /\ f a h1 = (Ok b, h').
Proof.
  unfold mbind, M_bind. destruct (m h) as [[a|e] h1]; [eauto|discriminate].
Qed.

Ltac minv H :=
  repeat (let a := fresh "a" in let h := fresh "h" in let E := fresh "E" in
          apply bind_Ok_inv in H as (a & h & E & H)).

Lemma frame_ret {A : Type} (S : gset loc) (a : A) (P : A -> Prop) :
  P a -> frame_ok S (mret a) P.
Proof.
  intros Ha h HS r h' [= <- <-]. split; [assumption|split; [reflexivity|]].
  intros ? [= <-]. assumption.
Qed.

Lemma frame_ret_True {A : Type} (S : gset loc) (a : A) :
  frame_ok S (mret a) (fun _ => True).
Proof. now apply frame_ret. Qed.

Lemma frame_raise {A : Type} (S : gset loc) (e : exn) (P : A -> Prop) :
  frame_ok S (raise e) P.
Proof.
  intros h HS r h' [= <- <-]. split; [assumption|split; [reflexivity|discriminate]].
Qed.

Lemma frame_bind {A B : Type} (S : gset loc) (m : M A) (f : A -> M B)
      (P : A -> Prop) (Q : B -> Prop) :
  frame_ok S m P -> (forall a, P a -> frame_ok S (f a) Q) ->
  frame_ok S (m ≫= f) Q.
Proof.
  intros Hm Hf h HS r h' Hrun. unfold mbind, M_bind in Hrun.
  destruct (m h) as [[a|e] h1] eqn:E.
  - destruct (Hm h HS _ _ E) as (HS1 & Hsame1 & HP).
    destruct (Hf a (HP a eq_refl) h1 HS1 _ _ Hrun) as (HS2 & Hsame2 & HQ).
    split; [assumption|split; [|assumption]].
    intros l Hl. rewrite Hsame2, Hsame1; auto.
  - injection Hrun as <- <-.
    destruct (Hm h HS _ _ E) as (HS1 & Hsame1 & _).
    split; [assumption|split; [assumption|discriminate]].
Qed.

Lemma frame_weaken {A : Type} (S : gset loc) (m : M A) (P Q : A -> Prop) :
  frame_ok S m P -> (forall a, P a -> Q a) -> frame_ok S m Q.
Proof.
  intros Hm HPQ h HS r h' Hrun.
  destruct (Hm h HS r h' Hrun) as (? & ? & ?). auto.
Qed.

Lemma frame_lift_option {A : Type} (S : gset loc) (e : exn) (o : option A) :
  frame_ok S (lift_option e o) (fun _ => True).
Proof. destruct o; [now apply frame_ret|apply frame_raise]. Qed.

Lemma frame_deref (S : gset loc) (l : loc) :
  frame_ok S (deref l) (fun _ => True).
Proof.
  intros h HS r h' Hrun. unfold deref in Hrun.
  destruct (h !! l); injection Hrun as <- <-; auto.
Qed.

(** Writing to an object outside [S]. *)
Lemma frame_store (S : gset loc) (l : loc) (df : DataFrame) :
  l ∉ S -> frame_ok S (store l df) (fun _ => True).
Proof.
  intros Hl h HS r h' Hrun. unfold store in Hrun.
  destruct (h !! l); injection Hrun as <- <-; auto.
  split; [|split; [intros l' Hl'|auto]].
  - rewrite dom_insert_L. set_solver.
  - apply lookup_insert_ne. set_solver.
Qed.

(** A new object is outside [S]. *)
Lemma frame_alloc (S : gset loc) (df : DataFrame) :
  frame_ok S (alloc df) (fun l => l ∉ S).
Proof.
  intros h HS r h' [= <- <-].
  pose proof (is_fresh (dom h)) as Hf.
  split; [|split].
  - rewrite dom_insert_L. set_solver.
  - intros l Hl. apply lookup_insert_ne. set_solver.
  - intros a [= <-]. set_solver.
Qed.

Lemma frame_df_len (S : gset loc) (l : loc) :
  frame_ok S (df_len l) (fun _ => True).
Proof.
  eapply frame_bind; [apply frame_deref|]. intros. now apply frame_ret.
Qed.

Lemma frame_df_copy (S : gset loc) (l : loc) :
  frame_ok S (df_copy l) (fun l' => l' ∉ S).
Proof.
  eapply frame_bind; [apply frame_deref|]. intros. apply frame_alloc.
Qed.

Lemma frame_df_columns (S : gset loc) (l : loc) :
  frame_ok S (df_columns l) (fun _ => True).
Proof.
  eapply frame_bind; [apply frame_deref|]. intros. now apply frame_ret.
Qed.

Lemma frame_df_getitem (S : gset loc) (l : loc) (k : string) :
  frame_ok S (df_getitem l k) (fun _ => True).
Proof.
  eapply frame_bind; [apply frame_deref|]. intros. apply frame_lift_option.
Qed.

Lemma frame_df_setitem (S : gset loc) (l : loc) (k : string) (s : Series) :
  l ∉ S -> frame_ok S (df_setitem l k s) (fun _ => True).
Proof.
  intros Hl. eapply frame_bind; [apply frame_deref|]. intros.
  now apply frame_store.
Qed.

Lemma frame_df_iloc (S : gset loc) (l : loc) (i : Z) :
  frame_ok S (df_iloc l i) (fun _ => True).
Proof.
  eapply frame_bind; [apply frame_deref|]. intros. apply frame_lift_option.
Qed.

Lemma frame_row_get (S : gset loc) (r : Row) (k : string) :
  frame_ok S (row_get r k) (fun _ => True).
Proof. apply frame_lift_option. Qed.

Lemma frame_py_div (S : gset loc) (x y : float) :
  frame_ok S (py_div x y) (fun _ => True).
Proof.
  unfold py_div. destruct y as [b|]; [|now apply frame_ret].
  destruct (Qeq_bool b 0); [apply frame_raise|now apply frame_ret].
Qed.

(** What [frame_ok] says about a store in which [S] is a set of
    existing objects. *)
Lemma frame_ok_lookup {A : Type} (S : gset loc) (m : M A) (P : A -> Prop)
      (h h' : heap) (r : result A) (l : loc) (df : DataFrame) :
  frame_ok S m P -> S = dom h -> m h = (r, h') ->
  h !! l = Some df -> h' !! l = Some df.
Proof.
  intros Hm -> Hrun Hl.
  destruct (Hm h (reflexivity _) r h' Hrun) as (_ & Hsame & _).
  rewrite Hsame; [assumption|]. apply elem_of_dom. eauto.
Qed.

(** Step through a computation with the frame rule. *)
Ltac mframe :=
  repeat first
    [ apply frame_df_len | apply frame_df_copy | apply frame_df_columns
    | apply frame_df_getitem | apply frame_df_iloc | apply frame_row_get
    | apply frame_py_div | apply frame_lift_option | apply frame_deref
    | apply frame_raise
    | apply frame_df_setitem; assumption
    | apply frame_store; assumption
    | apply frame_ret_True
    | eapply frame_bind; [|intros ? ?] ].

End StoreFacts.
Import StoreFacts.

(** ** strategy.py *)

Module StrategyFacts.
Import Config Strategy.

(** The two crossover flags are conjunctions whose first conjuncts are
    [price > sma] and [price < sma]. *)
Lemma sma_get_signal_flags (h h' : heap) (data : loc) (p : nat) (s : Signal) :
  get_signal data p h = (Ok (Sig s), h') ->
  exists cp cs pp ps : float,
    above_ma s = fgt cp cs /\
    crossed_up s = fgt cp cs && fle pp ps /\
    crossed_down s = flt cp cs && fge pp ps.
Proof.
  intros H. unfold get_signal, calculate_sma in H. munfold.
  mcases H; try (injection H as <- <-); simpl;
    do 4 eexists; repeat split; reflexivity.
Qed.

(** Too short a series is answered by the error dictionary. *)
Lemma sma_get_signal_short (h : heap) (data : loc) (p : nat) (df : DataFrame) :
  h !! data = Some df -> (length (index df) < p)%nat ->
  get_signal data p h = (Ok (Error p), h).
Proof.
  intros Hd Hlen. unfold get_signal. munfold. rewrite Hd.
  destruct (Nat.ltb_spec (length (index df)) p); [reflexivity|lia].
Qed.

(** [get_signal] works on a copy: the objects of the caller's store are
    the same after the call, whatever its outcome. *)
Lemma sma_get_signal_frame_ok (S : gset loc) (data : loc) (p : nat) :
  frame_ok S (get_signal data p) (fun _ => True).
Proof.
  unfold get_signal, calculate_sma.
  eapply frame_bind; [apply frame_df_len|]. intros n _.
  destruct (n <? p)%nat; [now apply frame_ret|].
  eapply frame_bind; [apply frame_df_copy|]. intros data' Hfresh.
  mframe.
  match goal with |- context [if ?b then _ else _] => destruct b end; mframe.
Qed.

(** A run on a well-formed frame with at least [ma_period] and at least
    two rows, in terms of the last two closes and moving averages. *)
Lemma sma_get_signal_run (h : heap) (data : loc) (p : nat) (df : DataFrame)
      (closes : Series) (cp pp cs ps : float) :
  h !! data = Some df -> wf_frame df -> getitem df "Close" = Some closes ->
  (p <= length (index df))%nat -> (2 <= length (index df))%nat ->
  closes !! (length (index df) - 1)%nat = Some cp ->
  closes !! (length (index df) - 2)%nat = Some pp ->
  rolling_mean p closes !! (length (index df) - 1)%nat = Some cs ->
  rolling_mean p closes !! (length (index df) - 2)%nat = Some ps ->
  (forall b, cs = Some b -> ~ b == 0) ->
  exists (d : Z) (dist : float) (h' : heap),
    get_signal data p h =
      (Ok (Sig (mkSignal d TICKER_INDEX (fround cp 2) (fround cs 2) p
                  (fgt cp cs)
                  (if fgt cp cs then "LONG" else "CASH")
                  (if fgt cp cs then TICKER_LONG else "CASH")
                  (if fgt cp cs then 1 else 0)
                  (fgt cp cs && fle pp ps) (flt cp cs && fge pp ps)
                  dist)), h').
Proof.
  intros Hd Hwf Hclose Hp H2 Hcp Hpp Hcs Hps Hnz.
  set (n := length (index df)) in *.
  set (df' := setitem df "SMA" (rolling_mean p closes)).
  assert (Hwf' : wf_frame df').
  { apply wf_setitem; [assumption|].
    unfold rolling_mean. rewrite length_rolling.
    destruct Hwf as [Hl Hall]. unfold getitem in Hclose.
    destruct (find_label "Close" (level0 (columns df))); [|discriminate].
    rewrite Forall_lookup in Hall. eapply Hall; eauto. }
  assert (Hn' : length (index df') = n).
  { unfold df'. now rewrite index_setitem. }
  assert (Hc' : getitem df' "Close" = Some closes).
  { unfold df'. rewrite getitem_setitem_ne; [assumption|assumption|discriminate]. }
  assert (Hs' : getitem df' "SMA" = Some (rolling_mean p closes)).
  { apply getitem_setitem_eq; assumption. }
  assert (Hpos1 : position_of (length (index df')) (-1) = Some (n - 1)%nat).
  { rewrite Hn'. apply (position_of_last n 1). lia. }
  assert (Hpos2 : position_of (length (index df')) (-2) = Some (n - 2)%nat).
  { rewrite Hn'. apply (position_of_last n 2). lia. }
  destruct (iloc_getitem df' (-1) _ "Close" _ _ Hpos1 Hc' Hcp)
    as (latest & Hlatest & _ & Hl_close).
  destruct (iloc_getitem df' (-1) _ "SMA" _ _ Hpos1 Hs' Hcs)
    as (latest' & Hlatest' & _ & Hl_sma).
  destruct (iloc_getitem df' (-2) _ "Close" _ _ Hpos2 Hc' Hpp)
    as (prev & Hprev & _ & Hp_close).
  destruct (iloc_getitem df' (-2) _ "SMA" _ _ Hpos2 Hs' Hps)
    as (prev' & Hprev' & _ & Hp_sma).
  assert (latest' = latest) by congruence. subst latest'.
  assert (prev' = prev) by congruence. subst prev'.
  set (l := fresh (dom h)).
  set (h1 := <[l := df]> h).
  set (h2 := <[l := df']> h1).
  assert (H1 : h1 !! l = Some df) by apply lookup_insert_eq.
  assert (Hh2 : h2 !! l = Some df') by apply lookup_insert_eq.
  unfold get_signal.
  mrun df_len_run.
  destruct (Nat.ltb_spec (length (index df)) p) as [Hlt|_]; [fold n in Hlt; lia|].
  erewrite bind_run; [|apply df_copy_run; eassumption]. fold l h1.
  erewrite bind_run;
    [|unfold calculate_sma; mrun df_getitem_run; reflexivity].
  erewrite bind_run; [|apply df_setitem_run; eassumption]. fold df' h2.
  mrun df_iloc_run. mrun df_iloc_run.
  mrun row_get_run. mrun row_get_run. mrun row_get_run. mrun row_get_run.
  unfold py_div. destruct cs as [b|].
  - destruct (Qeq_bool b 0) eqn:Eb.
    + apply Qeq_bool_iff in Eb. exfalso. eapply Hnz; eauto.
    + destruct (fgt cp (Some b)); do 3 eexists; reflexivity.
  - destruct (fgt cp None); do 3 eexists; reflexivity.
Qed.

End StrategyFacts.

(** ** soxl_strategy.py *)

Module SoxlStrategyFacts.
Import SoxlStrategy.

Section WithFloatLib.
Context `{FloatLib}.

(** The two crossover flags are built from one boolean and its
    negation. *)
Lemma dual_get_signal_flags (h h' : heap) (data : loc) (s : Signal) :
  get_signal data h = (Ok (Sig s), h') ->
  exists prev_above_200 : bool,
    crossed_up_200 s = above_200_ma s && negb prev_above_200 /\
    crossed_down_200 s = negb (above_200_ma s) && prev_above_200.
Proof.
  intros Hrun. unfold get_signal in Hrun.
  apply bind_Ok_inv in Hrun as (df & h1 & _ & Hrun).
  apply bind_Ok_inv in Hrun as (n & h2 & _ & Hrun).
  destruct (n <? MA_LONG)%nat; [discriminate|].
  minv Hrun.
  destruct (signal_logic a1 a2 a3 a4 a5 a6) as [[sg ps] al].
  minv Hrun. injection Hrun as <- <-. simpl.
  eexists. split; reflexivity.
Qed.

Lemma dual_calculate_indicators_frame_ok (S : gset loc) (data : loc) :
  frame_ok S (calculate_indicators data) (fun _ => True).
Proof.
  unfold calculate_indicators.
  eapply frame_bind; [apply frame_df_copy|]. intros df Hfresh.
  mframe.
Qed.

(** [get_signal] computes its indicators on a copy. *)
Lemma dual_get_signal_frame_ok (S : gset loc) (data : loc) :
  frame_ok S (get_signal data) (fun _ => True).
Proof.
  unfold get_signal.
  eapply frame_bind; [apply dual_calculate_indicators_frame_ok|]. intros df _.
  eapply frame_bind; [apply frame_df_len|]. intros n _.
  destruct (n <? MA_LONG)%nat; [apply frame_ret_True|].
  mframe.
  match goal with
  | |- context [signal_logic ?a ?b ?c ?d ?e ?f] =>
      destruct (signal_logic a b c d e f) as [[sg ps] al]
  end.
  mframe.
Qed.




End WithFloatLib.

End SoxlStrategyFacts.

(** ** Cumulative returns and drawdowns *)

Module FramesFacts.

Lemma length_cumprod_from (acc : Q) (s : list Q) :
  length (cumprod_from acc s) = length s.
Proof.
  revert acc. induction s as [|x s IH]; intros acc; simpl; [reflexivity|].
  now rewrite IH.
Qed.

Lemma length_cumprod (s : list Q) : length (cumprod s) = length s.
Proof. apply length_cumprod_from. Qed.

(** A product of positive factors stays positive. *)
Lemma cumprod_from_pos (acc : Q) (s : list Q) :
  0 < acc -> Forall (fun x => 0 < x) s ->
  Forall (fun x => 0 < x) (cumprod_from acc s).
Proof.
  intros Hacc Hs. revert acc Hacc.
  induction Hs as [|x s Hx Hs IH]; intros acc Hacc; simpl; constructor.
  - nra.
  - apply IH. nra.
Qed.

Lemma cumprod_pos (s : list Q) :
  Forall (fun x => 0 < x) s -> Forall (fun x => 0 < x) (cumprod s).
Proof. apply cumprod_from_pos. reflexivity. Qed.

(** The running maximum is at least the running value, and positive
    when the values are. *)
Lemma expanding_max_from_above (m : Q) (s : list Q) :
  0 < m -> Forall (fun x => 0 < x) s ->
  Forall2 (fun c r => 0 < r /\ c <= r) s (expanding_max_from m s).
Proof.
  intros Hm Hs. revert m Hm.
  induction Hs as [|x s Hx Hs IH]; intros m Hm; simpl; constructor.
  - split.
    + apply Qlt_le_trans with m; [assumption|apply Q.le_max_l].
    + apply Q.le_max_r.
  - apply IH. apply Qlt_le_trans with m; [assumption|apply Q.le_max_l].
Qed.

Lemma expanding_max_above (s : list Q) :
  Forall (fun x => 0 < x) s ->
  Forall2 (fun c r => 0 < r /\ c <= r) s (expanding_max s).
Proof.
  intros Hs. destruct Hs as [|x s Hx Hs]; simpl; constructor.
  - split; [assumption|lra].
  - apply expanding_max_from_above; assumption.
Qed.

Lemma drawdown_nonpos (c r : Q) :
  0 < r -> c <= r ->
  exists d, fdiv (Some (c - r)) (Some r) = Some d /\ d <= 0.
Proof.
  intros Hr Hc. unfold fdiv.
  destruct (Qeq_bool r 0) eqn:E.
  - apply Qeq_bool_iff in E. lra.
  - eexists. split; [reflexivity|].
    apply Qle_shift_div_r; [assumption|]. lra.
Qed.

(** Every drawdown of a positive equity curve is defined and at most
    zero. *)
Lemma drawdowns_nonpos (cumulative : list Q) :
  Forall (fun x => 0 < x) cumulative ->
  Forall (fun x : float => exists d, x = Some d /\ d <= 0) (drawdowns cumulative).
Proof.
  intros Hpos. unfold drawdowns.
  pose proof (expanding_max_above cumulative Hpos) as Habove.
  clear Hpos. induction Habove as [|c r cs rs [Hr Hc] _ IH]; simpl.
  - constructor.
  - constructor; [now apply drawdown_nonpos|assumption].
Qed.

Lemma length_drawdowns (cumulative : list Q) :
  length (drawdowns cumulative) = length cumulative.
Proof.
  unfold drawdowns. rewrite length_zip_with.
  destruct cumulative as [|x s]; simpl; [reflexivity|].
  assert (length (expanding_max_from x s) = length s).
  { clear. revert x. induction s as [|y s IH]; intros x; simpl; [reflexivity|].
    now rewrite IH. }
  lia.
Qed.

(** The minimum of defined, non-positive values is one of them. *)
Lemma series_min_nonpos (s : Series) :
  s <> [] ->
  Forall (fun x : float => exists d, x = Some d /\ d <= 0) s ->
  exists d, series_min s = Some d /\ d <= 0.
Proof.
  intros Hne Hs. induction Hs as [|x s (d & -> & Hd) Hs IH]; [congruence|].
  simpl. destruct s as [|y s].
  - simpl. eauto.
  - destruct IH as (d' & -> & Hd'); [discriminate|].
    eexists. split; [reflexivity|].
    apply Qle_trans with d; [apply Q.le_min_l|assumption].
Qed.

(** The largest drawdown of a positive, non-empty equity curve. *)
Lemma max_drawdown_nonpos (cumulative : list Q) :
  cumulative <> [] -> Forall (fun x => 0 < x) cumulative ->
  exists d, series_min (drawdowns cumulative) = Some d /\ d <= 0.
Proof.
  intros Hne Hpos. apply series_min_nonpos.
  - intros E. apply (f_equal length) in E.
    rewrite length_drawdowns in E. destruct cumulative; [congruence|discriminate].
  - now apply drawdowns_nonpos.
Qed.

(** The reported drawdown: a percentage, rounded to two decimals. *)
Lemma reported_drawdown_nonpos (x : float) :
  (exists d, x = Some d /\ d <= 0) ->
  exists d, fround (fmul x (Some 100)) 2 = Some d /\ d <= 0.
Proof.
  intros (d & -> & Hd). eexists. split; [reflexivity|].
  apply (py_round_le (d * 100) 2 0). change (inject_Z 0) with 0. lra.
Qed.

(** *** Alignment *)

Lemma at_date_elem (d : Z) (s : IndexedSeries) (v : Q) :
  at_date d s = Some v -> (d, Some v) ∈ s.
Proof.
  induction s as [|[d' x] s IH]; simpl; [discriminate|].
  destruct (Z.eqb_spec d' d) as [->|_].
  - intros ->. left.
  - intros E. right. auto.
Qed.

Lemma positive_closes_elem (s : IndexedSeries) (d : Z) (v : Q) :
  positive_closes s = true -> (d, Some v) ∈ s -> 0 < v.
Proof.
  unfold positive_closes. rewrite forallb_forall. intros Hall Hin.
  apply list_elem_of_In in Hin. specialize (Hall _ Hin). simpl in Hall.
  now apply Qlt_bool_iff.
Qed.

End FramesFacts.
Import FramesFacts.

(** ** backtest.py *)

Module BacktestFacts.
Import Backtest BacktestTerms.

(** The first row of the signal range has no return and is dropped. *)
Lemma tqqq_returns_frame_cons (r0 : SignalRow) (rest : list SignalRow) :
  returns_frame (r0 :: rest) = returns_after r0 rest.
Proof.
  unfold returns_frame, returns_after, strategy_return_column,
    etf_return_column, pct_change, shift.
  cbn [map length app replicate take zip_with zip omap].
  rewrite !length_map. reflexivity.
Qed.

Lemma tqqq_returns_after_cons (previous r : SignalRow) (rest : list SignalRow) :
  returns_after previous (r :: rest) =
    match keep (r, pct (close_of r) (close_of previous),
                fmul (signal_of previous) (pct (close_of r) (close_of previous))) with
    | Some x => x :: returns_after r rest
    | None => returns_after r rest
    end.
Proof. reflexivity. Qed.

Lemma tqqq_returns_after_lagged (previous : SignalRow) (rest : list SignalRow) :
  Forall (fun r => 0 < sr_etf_close r) (previous :: rest) ->
  returns_after previous rest = lagged previous rest.
Proof.
  revert previous. induction rest as [|r rest IH]; intros previous Hpos;
    [reflexivity|].
  inversion Hpos as [|? ? Hp Hrest]; subst.
  rewrite tqqq_returns_after_cons, (IH r Hrest).
  unfold pct, close_of, signal_of, fdiv.
  destruct (Qeq_bool (sr_etf_close previous) 0) eqn:E.
  - apply Qeq_bool_iff in E. lra.
  - reflexivity.
Qed.

(** With positive fund closes, the rows with returns are the rows of
    the signal range after the first, each with the lagged return. *)
Lemma tqqq_returns_frame_lagged (rows : list SignalRow) :
  Forall (fun r => 0 < sr_etf_close r) rows ->
  returns_frame rows =
    match rows with
    | [] => []
    | r0 :: rest => lagged r0 rest
    end.
Proof.
  intros Hpos. destruct rows as [|r0 rest]; [reflexivity|].
  rewrite tqqq_returns_frame_cons. now apply tqqq_returns_after_lagged.
Qed.

Lemma tqqq_length_lagged (previous : SignalRow) (rest : list SignalRow) :
  length (lagged previous rest) = length rest.
Proof.
  revert previous. induction rest as [|r rest IH]; intros previous; simpl;
    [reflexivity|]. now rewrite IH.
Qed.

Lemma tqqq_lagged_lookup (previous : SignalRow) (rest : list SignalRow)
      (t : nat) (p c : SignalRow) :
  (previous :: rest) !! t = Some p -> rest !! t = Some c ->
  lagged previous rest !! t =
    Some (c, etf_move p c, inject_Z (sr_signal p) * etf_move p c).
Proof.
  revert previous t. induction rest as [|r rest IH]; intros previous t;
    [intros _; rewrite lookup_nil; discriminate|].
  destruct t as [|t]; simpl.
  - intros [= <-] [= <-]. reflexivity.
  - intros Hp Hc. apply IH; assumption.
Qed.

(** *** The final frame *)

Lemma tqqq_final_frame_unfold (cap : Q) (rows : list (SignalRow * Q * Q)) :
  final_frame cap rows =
    zip_with (fun '(r, e, s) '(sc, bc) =>
                mkRow (sr_date r) (sr_index_close r) (sr_etf_close r) (sr_sma r)
                      (sr_above_ma r) (sr_signal r) e s e sc bc
                      (cap * sc) (cap * bc))
             rows (zip (cumprod (map growth_of rows))
                       (cumprod (map hold_growth_of rows))).
Proof.
  reflexivity.
Qed.

Lemma tqqq_length_final_frame (cap : Q) (rows : list (SignalRow * Q * Q)) :
  length (final_frame cap rows) = length rows.
Proof.
  rewrite tqqq_final_frame_unfold, length_zip_with, length_zip, !length_cumprod,
    !length_map. lia.
Qed.

(** A row of the final frame carries the date, the signal and the two
    returns of the row it is built from. *)
Lemma tqqq_final_frame_lookup (cap : Q) (rows : list (SignalRow * Q * Q))
      (t : nat) (r : SignalRow) (e s : Q) :
  rows !! t = Some (r, e, s) ->
  exists row,
    final_frame cap rows !! t = Some row /\
    date row = sr_date r /\ signal row = sr_signal r /\
    etf_close row = sr_etf_close r /\
    etf_return row = e /\ strategy_return row = s /\ buy_hold_return row = e.
Proof.
  intros Hr. rewrite tqqq_final_frame_unfold, lookup_zip_with, Hr. simpl.
  assert (Ht : (t < length rows)%nat) by (eapply lookup_lt_Some; eassumption).
  destruct (lookup_lt_is_Some_2
              (zip (cumprod (map growth_of rows))
                   (cumprod (map hold_growth_of rows))) t) as [[sc bc] ->].
  { rewrite length_zip, !length_cumprod, !length_map. lia. }
  simpl. eexists. split; [reflexivity|]. repeat split.
Qed.

Lemma tqqq_map_zip_with_cumulative {A : Type} (f : A -> Q * Q -> Row)
      (rows : list A) (sc bc : list Q) :
  (forall a x y, strategy_cumulative (f a (x, y)) = x) ->
  length sc = length rows -> length bc = length rows ->
  map strategy_cumulative (zip_with f rows (zip sc bc)) = sc.
Proof.
  intros Hf. revert sc bc. induction rows as [|a rows IH]; intros sc bc Hs Hb.
  - destruct sc; [reflexivity|discriminate].
  - destruct sc as [|x sc], bc as [|y bc]; try discriminate.
    simpl. rewrite Hf. f_equal. apply IH; simpl in *; lia.
Qed.

(** The cumulative column of the final frame. *)
Lemma tqqq_strategy_cumulative_final_frame (cap : Q) (rows : list (SignalRow * Q * Q)) :
  map strategy_cumulative (final_frame cap rows) = cumprod (map growth_of rows).
Proof.
  rewrite tqqq_final_frame_unfold. apply tqqq_map_zip_with_cumulative.
  - intros [[r e] s] x y. reflexivity.
  - now rewrite length_cumprod, length_map.
  - now rewrite length_cumprod, length_map.
Qed.

(** *** Where the rows come from *)

Lemma tqqq_elem_of_aligned_closes (index_close etf_close : IndexedSeries) (b : Bar) :
  b ∈ aligned_closes index_close etf_close ->
  (bar_date b, Some (bar_etf_close b)) ∈ etf_close.
Proof.
  unfold aligned_closes, align2. rewrite list_elem_of_omap.
  intros ([[d i] e] & Hin & Hb).
  apply list_elem_of_fmap in Hin as (d' & [= -> -> ->] & _).
  destruct (at_date d' index_close) as [x|]; [|discriminate].
  destruct (at_date d' etf_close) as [y|] eqn:E; [|discriminate].
  injection Hb as <-. simpl. now apply at_date_elem.
Qed.

Lemma tqqq_elem_of_signal_frame (ma_period : nat) (bars : list Bar) (r : SignalRow) :
  r ∈ signal_frame ma_period bars ->
  (exists b, b ∈ bars /\ sr_date r = bar_date b /\
             sr_etf_close r = bar_etf_close b) /\
  (sr_signal r = 0%Z \/ sr_signal r = 1%Z).
Proof.
  unfold signal_frame. rewrite list_elem_of_omap.
  intros ([b s] & Hin & Hr).
  destruct s as [v|]; [|discriminate]. injection Hr as <-. simpl.
  split.
  - exists b. split; [|split; reflexivity].
    apply elem_of_zip_l in Hin. assumption.
  - destruct (Qlt_bool v (bar_index_close b)); auto.
Qed.

(** Positive fund closes in, positive fund closes and signals 0 or 1
    in the signal range. *)
Lemma tqqq_signal_range_sound (index_close etf_close : IndexedSeries) (ma_period : nat) :
  positive_closes etf_close = true ->
  Forall (fun r => 0 < sr_etf_close r /\ (sr_signal r = 0%Z \/ sr_signal r = 1%Z))
         (signal_frame ma_period (aligned_closes index_close etf_close)).
Proof.
  intros Hpos. rewrite Forall_forall. intros r Hr.
  apply tqqq_elem_of_signal_frame in Hr as ((b & Hb & _ & ->) & Hsig).
  split; [|assumption].
  apply tqqq_elem_of_aligned_closes in Hb. eapply positive_closes_elem; eassumption.
Qed.

(** One plus a lagged return is positive. *)
Lemma tqqq_lagged_growth_pos (previous : SignalRow) (rest : list SignalRow) :
  Forall (fun r => 0 < sr_etf_close r /\ (sr_signal r = 0%Z \/ sr_signal r = 1%Z))
         (previous :: rest) ->
  Forall (fun x => 0 < x) (map growth_of (lagged previous rest)).
Proof.
  revert previous. induction rest as [|r rest IH]; intros previous Hall;
    [constructor|].
  inversion Hall as [|? ? [Hp Hsig] Hrest]; subst.
  pose proof Hrest as Hrest'. inversion Hrest' as [|? ? [Hr _] _]; subst.
  simpl. constructor; [|apply IH; assumption].
  unfold etf_move.
  assert (Hq : 0 < sr_etf_close r / sr_etf_close previous).
  { apply Qlt_shift_div_l; [assumption|]. lra. }
  revert Hq. generalize (sr_etf_close r / sr_etf_close previous). intros q Hq.
  destruct Hsig as [-> | ->].
  - change (inject_Z 0) with 0. lra.
  - change (inject_Z 1) with 1. lra.
Qed.

(** *** The metrics *)

Section WithFloatLib.
Context `{FloatLib}.

Lemma tqqq_annualized_total (total_return : float) (n : nat) :
  (0 < n)%nat -> exists a, annualized total_return (of_nat n / 252) = Ok a.
Proof.
  intros Hn. unfold annualized, py_div_pure.
  destruct (Qeq_bool (of_nat n / 252) 0) eqn:E.
  - apply Qeq_bool_iff in E. pose proof (of_nat_pos n Hn) as Hp.
    assert (0 < of_nat n / 252) by (apply Qlt_shift_div_l; lra). lra.
  - eexists. reflexivity.
Qed.

(** On a frame with at least one row the metrics are computed, the
    largest drawdown from the cumulative column and the trade count
    from the signal column. *)
Lemma tqqq_calculate_metrics_run (data : list Row) (cap : Q) :
  data <> [] ->
  exists m,
    calculate_metrics data cap = Ok m /\
    max_drawdown m =
      fround (fmul (series_min (drawdowns (map strategy_cumulative data)))
                   (Some 100)) 2 /\
    total_trades m = changes (map signal data).
Proof.
  intros Hne. unfold calculate_metrics.
  assert (Hlen : (0 < length data)%nat)
    by (destruct data; [congruence|simpl; lia]).
  assert (Hlast : forall (A : Type) (f : Row -> A),
             exists x, last_or IndexError (map f data) = Ok x).
  { intros A f. unfold last_or.
    destruct (last (map f data)) as [x|] eqn:E; [eauto|].
    apply last_None in E. destruct data; [congruence|discriminate]. }
  destruct (Hlast _ strategy_value) as (fv & ->).
  destruct (Hlast _ buy_hold_value) as (bf & ->).
  cbn [mbind result_bind].
  destruct (tqqq_annualized_total
              (fdiv (Some (fv - cap)) (Some cap)) (length data) Hlen)
    as (ar & ->).
  cbn [mbind result_bind].
  destruct (tqqq_annualized_total
              (fdiv (Some (bf - cap)) (Some cap)) (length data) Hlen)
    as (bar & ->).
  cbn [mbind result_bind].
  destruct data as [|r0 data']; [congruence|].
  cbn [head_or mbind result_bind].
  destruct (Hlast _ (fun r => r)) as (rl & Hrl). rewrite map_id in Hrl.
  rewrite Hrl. cbn [mbind result_bind].
  eexists. split; [reflexivity|]. split; reflexivity.
Qed.

End WithFloatLib.

End BacktestFacts.

(** ** soxl_backtest.py *)

Module SoxlBacktestFacts.
Import SoxlBacktest SoxlBacktestTerms.

(** The first row of the signal range has no return and is dropped. *)
Lemma soxl_returns_frame_cons (has_short : bool) (r0 : SignalRow) (rest : list SignalRow) :
  returns_frame has_short (r0 :: rest) = returns_after has_short r0 rest.
Proof.
  unfold returns_frame, returns_after, strategy_return_column,
    short_return_column, long_return_column, pct_change, shift.
  destruct has_short;
    cbn [map length app replicate take zip_with zip omap];
    rewrite !length_map; reflexivity.
Qed.

Lemma soxl_returns_after_cons (has_short : bool) (previous r : SignalRow)
      (rest : list SignalRow) :
  returns_after has_short previous (r :: rest) =
    match keep (r, pct (long_of r) (long_of previous),
                short_cell has_short previous r,
                where_position (position_of_row previous)
                               (pct (long_of r) (long_of previous))
                               (short_cell has_short previous r)) with
    | Some x => x :: returns_after has_short r rest
    | None => returns_after has_short r rest
    end.
Proof. destruct has_short; reflexivity. Qed.

Lemma where_position_exposure (p : Z) (l s : Q) :
  where_position (Some (inject_Z p)) (Some l) (Some s)
  = Some (exposure_return p l s).
Proof.
  unfold where_position, exposure_return, feq, fcmp, Qeq_bool. simpl.
  rewrite !Z.mul_1_r.
  destruct (p =? 1)%Z; [reflexivity|].
  destruct (p =? -1)%Z; reflexivity.
Qed.

Lemma pct_Some (c p : Q) : 0 < p -> pct (Some c) (Some p) = Some (c / p - 1).
Proof.
  intros Hp. unfold pct, fdiv. destruct (Qeq_bool p 0) eqn:E; [|reflexivity].
  apply Qeq_bool_iff in E. lra.
Qed.

Lemma short_cell_move (has_short : bool) (previous r : SignalRow) :
  priced has_short previous -> priced has_short r ->
  short_cell has_short previous r = Some (short_move has_short previous r).
Proof.
  intros [_ Hp] [_ Hr]. unfold short_cell, short_move.
  destruct has_short; [|reflexivity].
  destruct (Hp eq_refl) as (zp & -> & Hzp).
  destruct (Hr eq_refl) as (zr & -> & _).
  now apply pct_Some.
Qed.

Lemma soxl_returns_after_lagged (has_short : bool) (previous : SignalRow)
      (rest : list SignalRow) :
  Forall (priced has_short) (previous :: rest) ->
  returns_after has_short previous rest = lagged has_short previous rest.
Proof.
  revert previous. induction rest as [|r rest IH]; intros previous Hall;
    [destruct has_short; reflexivity|].
  inversion Hall as [|? ? Hp Hrest]; subst.
  pose proof Hrest as Hrest'. inversion Hrest' as [|? ? Hr _]; subst.
  rewrite soxl_returns_after_cons, (IH r Hrest).
  rewrite (short_cell_move _ _ _ Hp Hr).
  unfold long_of. rewrite pct_Some by apply Hp.
  unfold position_of_row. rewrite where_position_exposure. reflexivity.
Qed.

(** With positive closes, the rows with returns are the rows of the
    signal range after the first, each with the lagged return. *)
Lemma soxl_returns_frame_lagged (has_short : bool) (rows : list SignalRow) :
  Forall (priced has_short) rows ->
  returns_frame has_short rows =
    match rows with
    | [] => []
    | r0 :: rest => lagged has_short r0 rest
    end.
Proof.
  intros Hall. destruct rows as [|r0 rest]; [destruct has_short; reflexivity|].
  rewrite soxl_returns_frame_cons. now apply soxl_returns_after_lagged.
Qed.

Lemma soxl_length_lagged (has_short : bool) (previous : SignalRow)
      (rest : list SignalRow) :
  length (lagged has_short previous rest) = length rest.
Proof.
  revert previous. induction rest as [|r rest IH]; intros previous; simpl;
    [reflexivity|]. now rewrite IH.
Qed.

Lemma soxl_lagged_lookup (has_short : bool) (previous : SignalRow)
      (rest : list SignalRow) (t : nat) (p c : SignalRow) :
  (previous :: rest) !! t = Some p -> rest !! t = Some c ->
  lagged has_short previous rest !! t =
    Some (c, long_move p c, short_move has_short p c,
          exposure_return (sr_position p) (long_move p c)
                          (short_move has_short p c)).
Proof.
  revert previous t. induction rest as [|r rest IH]; intros previous t;
    [intros _; rewrite lookup_nil; discriminate|].
  destruct t as [|t]; simpl.
  - intros [= <-] [= <-]. reflexivity.
  - intros Hp Hc. apply IH; assumption.
Qed.

(** *** The final frame *)

Lemma soxl_final_frame_unfold (cap : Q) (rows : list (SignalRow * Q * Q * Q)) :
  final_frame cap rows =
    zip_with (fun '(r, l, s, st) '(sc, bc) =>
                mkRow r l s st l sc bc (cap * sc) (cap * bc))
             rows (zip (cumprod (map growth_of rows))
                       (cumprod (map hold_growth_of rows))).
Proof. reflexivity. Qed.

Lemma soxl_length_final_frame (cap : Q) (rows : list (SignalRow * Q * Q * Q)) :
  length (final_frame cap rows) = length rows.
Proof.
  rewrite soxl_final_frame_unfold, length_zip_with, length_zip, !length_cumprod,
    !length_map. lia.
Qed.

Lemma soxl_final_frame_lookup (cap : Q) (rows : list (SignalRow * Q * Q * Q))
      (t : nat) (r : SignalRow) (l s st : Q) :
  rows !! t = Some (r, l, s, st) ->
  exists row,
    final_frame cap rows !! t = Some row /\
    row_signal row = r /\ long_return row = l /\ short_return row = s /\
    strategy_return row = st /\ buy_hold_return row = l.
Proof.
  intros Hr. rewrite soxl_final_frame_unfold, lookup_zip_with, Hr. simpl.
  assert (Ht : (t < length rows)%nat) by (eapply lookup_lt_Some; eassumption).
  destruct (lookup_lt_is_Some_2
              (zip (cumprod (map growth_of rows))
                   (cumprod (map hold_growth_of rows))) t) as [[sc bc] ->].
  { rewrite length_zip, !length_cumprod, !length_map. lia. }
  simpl. eexists. split; [reflexivity|]. repeat split.
Qed.

Lemma soxl_map_zip_with_cumulative {A : Type} (f : A -> Q * Q -> Row)
      (rows : list A) (sc bc : list Q) :
  (forall a x y, strategy_cumulative (f a (x, y)) = x) ->
  length sc = length rows -> length bc = length rows ->
  map strategy_cumulative (zip_with f rows (zip sc bc)) = sc.
Proof.
  intros Hf. revert sc bc. induction rows as [|a rows IH]; intros sc bc Hs Hb.
  - destruct sc; [reflexivity|discriminate].
  - destruct sc as [|x sc], bc as [|y bc]; try discriminate.
    simpl. rewrite Hf. f_equal. apply IH; simpl in *; lia.
Qed.

Lemma soxl_strategy_cumulative_final_frame (cap : Q)
      (rows : list (SignalRow * Q * Q * Q)) :
  map strategy_cumulative (final_frame cap rows) = cumprod (map growth_of rows).
Proof.
  rewrite soxl_final_frame_unfold. apply soxl_map_zip_with_cumulative.
  - intros [[[r l] s] st] x y. reflexivity.
  - now rewrite length_cumprod, length_map.
  - now rewrite length_cumprod, length_map.
Qed.

(** *** Where the rows come from *)

Lemma soxl_elem_of_aligned_closes (idx_close long_close : IndexedSeries)
      (short_close : option IndexedSeries) (b : Bar) :
  b ∈ aligned_closes idx_close long_close short_close ->
  (bar_date b, Some (bar_long_close b)) ∈ long_close /\
  match short_close with
  | Some s => exists z, bar_short_close b = Some z /\ (bar_date b, Some z) ∈ s
  | None => bar_short_close b = None
  end.
Proof.
  unfold aligned_closes, align2. rewrite list_elem_of_omap.
  intros ([[d i] l] & Hin & Hb).
  apply list_elem_of_fmap in Hin as (d' & [= -> -> ->] & _).
  destruct (at_date d' idx_close) as [x|]; [|discriminate].
  destruct (at_date d' long_close) as [y|] eqn:E; [|discriminate].
  destruct short_close as [s|].
  - destruct (at_date d' s) as [z|] eqn:Ez; [|discriminate].
    injection Hb as <-. simpl. split; [now apply at_date_elem|].
    exists z. split; [reflexivity|now apply at_date_elem].
  - injection Hb as <-. simpl. split; [now apply at_date_elem|reflexivity].
Qed.

Lemma select_position_range (use_shorts a b c d : bool) :
  let p := select_position use_shorts a b c d in
  (p = 0%Z \/ p = 1%Z \/ (use_shorts = true /\ p = (-1)%Z)).
Proof.
  unfold select_position.
  destruct (a && b && c); [auto|].
  destruct (negb a && negb b && d); [|auto].
  destruct use_shorts; auto.
Qed.

Lemma soxl_elem_of_signal_frame (use_shorts : bool) (bars : list Bar) (r : SignalRow) :
  r ∈ signal_frame use_shorts bars ->
  (exists b, b ∈ bars /\ sr_date r = bar_date b /\
             sr_long_close r = bar_long_close b /\
             sr_short_close r = bar_short_close b) /\
  (sr_position r = 0%Z \/ sr_position r = 1%Z \/
   (use_shorts = true /\ sr_position r = (-1)%Z)).
Proof.
  unfold signal_frame. rewrite list_elem_of_omap.
  intros ([[[b s200] s50] rc] & Hin & Hr).
  destruct s200 as [m200|], s50 as [m50|], rc as [c|]; try discriminate.
  injection Hr as <-. simpl. split.
  - exists b. split; [|repeat split].
    apply elem_of_zip_l, elem_of_zip_l, elem_of_zip_l in Hin. assumption.
  - apply select_position_range.
Qed.

(** Positive closes in, rows that can be lagged and positions among
    -1, 0 and 1 in the signal range. *)
Lemma soxl_signal_range_sound (idx_close long_close : IndexedSeries)
      (short_close : option IndexedSeries) (use_shorts : bool) :
  positive_closes long_close = true -> positive_short short_close = true ->
  Forall (fun r =>
            priced (use_shorts && bool_decide (is_Some short_close)) r /\
            (sr_position r = 0%Z \/ sr_position r = 1%Z \/
             (use_shorts = true /\ sr_position r = (-1)%Z)))
         (signal_frame use_shorts (aligned_closes idx_close long_close short_close)).
Proof.
  intros Hlong Hshort. rewrite Forall_forall. intros r Hr.
  apply soxl_elem_of_signal_frame in Hr as ((b & Hb & _ & El & Es) & Hpos).
  split; [|assumption].
  apply soxl_elem_of_aligned_closes in Hb as [Hl Hs].
  unfold priced. rewrite El, Es. split.
  - eapply positive_closes_elem; eassumption.
  - intros Hhas. destruct short_close as [s|].
    + destruct Hs as (z & -> & Hz). exists z. split; [reflexivity|].
      eapply positive_closes_elem; eassumption.
    + rewrite andb_comm in Hhas. discriminate.
Qed.

Lemma move_gt (c p : Q) : 0 < c -> 0 < p -> 0 < 1 + (c / p - 1).
Proof.
  intros Hc Hp. assert (0 < c / p) by (apply Qlt_shift_div_l; [assumption|lra]).
  lra.
Qed.

Lemma short_move_gt (has_short : bool) (previous r : SignalRow) :
  priced has_short previous -> priced has_short r ->
  0 < 1 + short_move has_short previous r.
Proof.
  intros [_ Hp] [_ Hr]. unfold short_move.
  destruct has_short; [|lra].
  destruct (Hp eq_refl) as (zp & -> & Hzp).
  destruct (Hr eq_refl) as (zr & -> & Hzr).
  now apply move_gt.
Qed.

(** One plus a lagged return is positive. *)
Lemma soxl_lagged_growth_pos (has_short : bool) (previous : SignalRow)
      (rest : list SignalRow) :
  Forall (priced has_short) (previous :: rest) ->
  Forall (fun x => 0 < x) (map growth_of (lagged has_short previous rest)).
Proof.
  revert previous. induction rest as [|r rest IH]; intros previous Hall;
    [constructor|].
  inversion Hall as [|? ? Hp Hrest]; subst.
  pose proof Hrest as Hrest'. inversion Hrest' as [|? ? Hr _]; subst.
  simpl. constructor; [|apply IH; assumption].
  pose proof (short_move_gt _ _ _ Hp Hr) as Hs.
  pose proof (move_gt _ _ (proj1 Hr) (proj1 Hp)) as Hl.
  fold (long_move previous r) in Hl.
  unfold exposure_return.
  destruct (sr_position previous =? 1)%Z; [assumption|].
  destruct (sr_position previous =? -1)%Z; [assumption|lra].
Qed.

(** *** The metrics *)

Section WithFloatLib.
Context `{FloatLib}.

Lemma soxl_annualized_total (total_return : float) (n : nat) :
  (0 < n)%nat -> exists a, annualized total_return (of_nat n / 252) = Ok a.
Proof.
  intros Hn. unfold annualized, py_div_pure.
  pose proof (of_nat_pos n Hn) as Hp.
  assert (Hy : 0 < of_nat n / 252) by (apply Qlt_shift_div_l; lra).
  destruct (Qlt_bool 0 (of_nat n / 252)) eqn:E0.
  - destruct (Qeq_bool (of_nat n / 252) 0) eqn:E.
    + apply Qeq_bool_iff in E. lra.
    + eexists. reflexivity.
  - eexists. reflexivity.
Qed.

(** On a frame with at least one row the metrics are computed, the
    largest drawdown from the cumulative column and the trade count
    from the position column. *)
Lemma soxl_calculate_metrics_run (data : list Row) (cap : Q) (use_shorts : bool) :
  data <> [] ->
  exists m,
    calculate_metrics data cap use_shorts = Ok m /\
    max_drawdown m =
      fround (fmul (series_min (drawdowns (map strategy_cumulative data)))
                   (Some 100)) 2 /\
    total_trades m = changes (map position data).
Proof.
  intros Hne. unfold calculate_metrics.
  assert (Hlen : (0 < length data)%nat)
    by (destruct data; [congruence|simpl; lia]).
  assert (Hlast : forall (A : Type) (f : Row -> A),
             exists x, last_or IndexError (map f data) = Ok x).
  { intros A f. unfold last_or.
    destruct (last (map f data)) as [x|] eqn:E; [eauto|].
    apply last_None in E. destruct data; [congruence|discriminate]. }
  destruct (Hlast _ strategy_value) as (fv & ->).
  destruct (Hlast _ buy_hold_value) as (bf & ->).
  cbn [mbind result_bind].
  destruct (soxl_annualized_total
              (fdiv (Some (fv - cap)) (Some cap)) (length data) Hlen)
    as (ar & ->).
  cbn [mbind result_bind].
  destruct (soxl_annualized_total
              (fdiv (Some (bf - cap)) (Some cap)) (length data) Hlen)
    as (bar & ->).
  cbn [mbind result_bind].
  destruct data as [|r0 data']; [congruence|].
  cbn [head_or mbind result_bind].
  destruct (Hlast _ (fun r => r)) as (rl & Hrl). rewrite map_id in Hrl.
  rewrite Hrl. cbn [mbind result_bind].
  eexists. split; [reflexivity|]. split; reflexivity.
Qed.

End WithFloatLib.

End SoxlBacktestFacts.

(** ** The backtests on a store *)

Module RunFacts.

Lemma same_data_refl (df : DataFrame) : same_data df df.
Proof. split; reflexivity. Qed.

Lemma same_data_trans (a b c : DataFrame) :
  same_data a b -> same_data b c -> same_data a c.
Proof.
  intros [I1 G1] [I2 G2]. split; [congruence|].
  intros k. now rewrite G2, G1.
Qed.

Lemma same_data_relabel (df : DataFrame) : same_data df (relabel df).
Proof.
  split; [reflexivity|]. intros k. unfold getitem, relabel. simpl.
  now destruct (columns df).
Qed.

Lemma relabel_run {A : Type} (h : heap) (l : loc) (df : DataFrame) (k : M A) :
  h !! l = Some df ->
  (c ← df_columns l;
   _ ← (if is_MultiIndex c then df_set_columns l (get_level_values_0 c)
        else mret tt);
   k) h = k (relabelled h l df).
Proof.
  intros Hl. erewrite bind_run; [|apply df_columns_run; eassumption].
  unfold relabelled. destruct (is_MultiIndex (columns df)).
  - erewrite bind_run; [|apply df_set_columns_run; eassumption]. reflexivity.
  - erewrite bind_run; [|reflexivity]. reflexivity.
Qed.

Lemma lookup_relabelled (h : heap) (l l' : loc) (df df' : DataFrame) :
  h !! l = Some df -> h !! l' = Some df' ->
  exists df'', relabelled h l df !! l' = Some df'' /\ same_data df' df''.
Proof.
  intros Hl Hl'. unfold relabelled. destruct (is_MultiIndex (columns df)).
  - destruct (decide (l = l')) as [<-|Hne].
    + rewrite lookup_insert_eq. eexists. split; [reflexivity|].
      assert (df' = df) by congruence. subst. apply same_data_relabel.
    + rewrite lookup_insert_ne by assumption. eauto using same_data_refl.
  - eauto using same_data_refl.
Qed.

Section WithFloatLib.
Context `{FloatLib}.

(** [run_backtest] of [backtest.py]: what it returns is computed from
    the two close columns by [combined_frame] and [calculate_metrics]. *)
Lemma tqqq_run_backtest_result (h : heap) (index_data etf_data : loc)
      (df1 df2 : DataFrame) (c1 c2 : Series) (ma_period : nat) (cap : Q)
      (decay : bool) :
  h !! index_data = Some df1 -> h !! etf_data = Some df2 ->
  getitem df1 "Close" = Some c1 -> getitem df2 "Close" = Some c2 ->
  fst (Backtest.run_backtest index_data etf_data ma_period cap decay h) =
    (let combined :=
       Backtest.combined_frame (zip (index df1) c1) (zip (index df2) c2)
                               ma_period cap in
     m ← Backtest.calculate_metrics combined cap; mret (m, combined)).
Proof.
  intros H1 H2 G1 G2. unfold Backtest.run_backtest.
  rewrite (relabel_run h index_data df1 _ H1).
  destruct (lookup_relabelled h index_data index_data df1 df1 H1 H1)
    as (d1 & Hd1 & S1).
  destruct (lookup_relabelled h index_data etf_data df1 df2 H1 H2)
    as (d2 & Hd2 & S2).
  set (h1 := relabelled h index_data df1) in *.
  rewrite (relabel_run h1 etf_data d2 _ Hd2).
  destruct (lookup_relabelled h1 etf_data index_data d2 d1 Hd2 Hd1)
    as (e1 & He1 & T1).
  destruct (lookup_relabelled h1 etf_data etf_data d2 d2 Hd2 Hd2)
    as (e2 & He2 & T2).
  set (h2 := relabelled h1 etf_data d2) in *.
  destruct (same_data_trans _ _ _ S1 T1) as [I1 K1].
  destruct (same_data_trans _ _ _ S2 T2) as [I2 K2].
  erewrite bind_run;
    [|eapply df_getitem_run; [exact He1|rewrite K1; exact G1]].
  erewrite bind_run; [|unfold df_index; erewrite bind_run;
                       [reflexivity|apply deref_run; exact He1]].
  erewrite bind_run;
    [|eapply df_getitem_run; [exact He2|rewrite K2; exact G2]].
  erewrite bind_run; [|unfold df_index; erewrite bind_run;
                       [reflexivity|apply deref_run; exact He2]].
  rewrite I1, I2. cbv zeta. unfold lift_result, mbind, M_bind, result_bind.
  destruct (Backtest.calculate_metrics _ cap); reflexivity.
Qed.

(** [run_backtest] of [soxl_backtest.py], without a short fund. *)
Lemma soxl_run_backtest_result (h : heap) (index_data long_etf_data : loc)
      (df1 df2 : DataFrame) (c1 c2 : Series) (cap : Q) :
  h !! index_data = Some df1 -> h !! long_etf_data = Some df2 ->
  getitem df1 "Close" = Some c1 -> getitem df2 "Close" = Some c2 ->
  SoxlBacktest.run_backtest index_data long_etf_data None cap false h =
    (let df :=
       SoxlBacktest.backtest_frame (zip (index df1) c1) (zip (index df2) c2)
                                   None cap false in
     m ← SoxlBacktest.calculate_metrics df cap false; mret (m, df),
     h).
Proof.
  intros H1 H2 G1 G2. unfold SoxlBacktest.run_backtest.
  erewrite bind_run; [|eapply df_getitem_run; eassumption].
  erewrite bind_run; [|unfold df_index; erewrite bind_run;
                       [reflexivity|apply deref_run; exact H1]].
  erewrite bind_run; [|eapply df_getitem_run; eassumption].
  erewrite bind_run; [|unfold df_index; erewrite bind_run;
                       [reflexivity|apply deref_run; exact H2]].
  erewrite bind_run; [|reflexivity].
  cbv zeta. unfold lift_result, mbind, M_bind, result_bind.
  destruct (SoxlBacktest.calculate_metrics _ cap false); reflexivity.
Qed.

End WithFloatLib.

End RunFacts.

(* ================================================================== *)
(** * The claims about the signal generators *)

Module SignalClaims.
Import Examples.







(** The dual-MA generator on exactly 200 closes: a signal again, and
    the undefined average of the row before makes it report a
    crossing. *)
Example dual_ma_two_hundred_days :
  exists s h',
    @SoxlStrategy.get_signal example_floatlib 0%nat
      (store1 (price_frame (replicate 199 1 ++ [2])))
      = (Ok (SoxlStrategy.Sig s), h') /\
    SoxlStrategy.signal s = "LONG"%string /\
    SoxlStrategy.crossed_up_200 s = true.
Proof. eexists _, _. split; [vm_compute; reflexivity|]. split; reflexivity. Qed.

(** C10: on every signal that either generator returns, the
    crossed-up and the crossed-down flag are not both set: crossed-up
    goes with the above-MA boolean, crossed-down with its negation. *)
Theorem crossover_flags_exclusive `{FloatLib} (h : heap) (data : loc) (p : nat) :
  (forall s h', Strategy.get_signal data p h = (Ok (Strategy.Sig s), h') ->
     Strategy.crossed_up s && Strategy.crossed_down s = false /\
     (Strategy.crossed_up s = true -> Strategy.above_ma s = true) /\
     (Strategy.crossed_down s = true -> Strategy.above_ma s = false)) /\
  (forall s h', SoxlStrategy.get_signal data h = (Ok (SoxlStrategy.Sig s), h') ->
     SoxlStrategy.crossed_up_200 s && SoxlStrategy.crossed_down_200 s = false /\
     (SoxlStrategy.crossed_up_200 s = true -> SoxlStrategy.above_200_ma s = true) /\
     (SoxlStrategy.crossed_down_200 s = true ->
      SoxlStrategy.above_200_ma s = false)).
Proof.
  split; intros s h' Hrun.
  - apply StrategyFacts.sma_get_signal_flags in Hrun
      as (cp & cs & pp & ps & -> & -> & ->).
    pose proof (fgt_flt_exclusive cp cs) as E.
    destruct (fgt cp cs), (flt cp cs); try discriminate; simpl;
      rewrite ?andb_false_r; repeat split; congruence.
  - apply SoxlStrategyFacts.dual_get_signal_flags in Hrun as (b & -> & ->).
    destruct (SoxlStrategy.above_200_ma s), b; repeat split; simpl; congruence.
Qed.

Lemma crossover_flags_exclusive_witness :
  (exists s h',
     Strategy.get_signal 0%nat 3 (store1 (price_frame [100; 101; 103]))
       = (Ok (Strategy.Sig s), h') /\
     Strategy.crossed_up s && Strategy.crossed_down s = false) /\
  (exists s h',
     @SoxlStrategy.get_signal example_floatlib 0%nat
       (store1 (price_frame (replicate 199 1 ++ [2])))
       = (Ok (SoxlStrategy.Sig s), h') /\
     SoxlStrategy.crossed_up_200 s && SoxlStrategy.crossed_down_200 s = false).
Proof.
  split.
  - eexists _, _. split; [vm_compute; reflexivity|].
    eapply (proj1 (@crossover_flags_exclusive example_floatlib
                     (store1 (price_frame [100; 101; 103])) 0%nat 3%nat)).
    vm_compute. reflexivity.
  - eexists _, _. split; [vm_compute; reflexivity|].
    eapply (proj2 (@crossover_flags_exclusive example_floatlib
                     (store1 (price_frame (replicate 199 1 ++ [2]))) 0%nat 0%nat)).
    vm_compute. reflexivity.
Defined.

End SignalClaims.

(* ================================================================== *)
(** * The claims about the dual-MA policy: shorting and allocation *)

Module DualPolicyClaims.
Import Examples.

(** *** Position sizing *)

Lemma py_min_1 (x : Q) :
  exists y, py_min (Some 1) (Some x) = Some y /\ y == Qmin 1 x.
Proof.
  unfold py_min. destruct (flt (Some x) (Some 1)) eqn:E.
  - apply flt_Some in E. exists x. split; [reflexivity|].
    rewrite Q.min_r; [reflexivity|lra].
  - apply Qlt_bool_false_iff in E. exists 1. split; [reflexivity|].
    rewrite Q.min_l; [reflexivity|lra].
Qed.

Lemma volatility_multiplier (volatility : float) :
  exists m,
    (if fgt volatility (Some 0.50) then Some 0.5
     else if fgt volatility (Some 0.35) then Some 0.75 else Some 1) = Some m /\
    in_band volatility m /\ 0 < m <= 1.
Proof.
  destruct volatility as [v|].
  - destruct (fgt (Some v) (Some 0.50)) eqn:E1.
    + apply fgt_Some in E1. exists 0.5. split; [reflexivity|].
      split; [|lra]. repeat split; intros; lra.
    + apply Qlt_bool_false_iff in E1.
      destruct (fgt (Some v) (Some 0.35)) eqn:E2.
      * apply fgt_Some in E2. exists 0.75. split; [reflexivity|].
        split; [|lra]. repeat split; intros; lra.
      * apply Qlt_bool_false_iff in E2. exists 1. split; [reflexivity|].
        split; [|lra]. repeat split; intros; lra.
  - exists 1. split; [reflexivity|]. split; [reflexivity|lra].
Qed.

(** [calculate_position_size] on a defined trend strength. *)
Lemma calculate_position_size_value (t : Q) (volatility : float) (bullish : bool) :
  exists a m,
    SoxlStrategy.calculate_position_size (Some t) volatility bullish = Some a /\
    a == Qmin 1 (0.5 + 2 * Qabs t) * m /\
    in_band volatility m /\ 0 <= a <= 1.
Proof.
  unfold SoxlStrategy.calculate_position_size.
  destruct (volatility_multiplier volatility) as (m & -> & Hband & Hm).
  cbn [fabs fmul fadd flift2].
  destruct (py_min_1 (0.5 + Qabs t * 2)) as (tm & -> & Htm).
  cbn [fmul flift2].
  destruct (py_min_1 (1 * tm * m)) as (a & -> & Ha).
  pose proof (Qabs_nonneg t) as Habs.
  assert (Htm' : tm == Qmin 1 (0.5 + 2 * Qabs t)).
  { rewrite Htm. apply Q.min_compat; [reflexivity|]. ring. }
  assert (Hrange : 0 < tm <= 1).
  { rewrite Htm. split.
    - apply Q.min_glb_lt; lra.
    - apply Q.le_min_l. }
  assert (Hprod : 0 <= tm * m <= 1) by nra.
  assert (Haeq : a == tm * m).
  { rewrite Ha. rewrite Q.min_r; [ring|]. nra. }
  exists a, m. split; [reflexivity|]. split; [|split; [assumption|]].
  - rewrite Haeq, Htm'. reflexivity.
  - rewrite Haeq. assumption.
Qed.

(** C6: for a LONG or a SHORT signal the allocation is
    [min(1, 0.5 + 2 |trend_strength|)] times the multiplier of the
    volatility band, and it lies between 0 and 1, as does the rounded
    allocation that the signal carries. *)
Theorem allocation_formula
    (price sma_200 sma_50 roc volatility : float) (t : Q)
    (signal position : string) (allocation : float) :
  SoxlStrategy.signal_logic price sma_200 sma_50 roc volatility (Some t)
    = (signal, position, allocation) ->
  signal = "LONG"%string \/ signal = "SHORT"%string ->
  exists a m reported,
    allocation = Some a /\
    a == Qmin 1 (0.5 + 2 * Qabs t) * m /\
    in_band volatility m /\
    0 <= a <= 1 /\
    fround allocation 2 = Some reported /\ 0 <= reported <= 1.
Proof.
  unfold SoxlStrategy.signal_logic. intros Hlogic Hsig.
  assert (Hcps : exists b : bool,
             allocation = SoxlStrategy.calculate_position_size
                            (Some (if b then t else Qabs t)) volatility b).
  { repeat match type of Hlogic with
           | context [if ?c then _ else _] => destruct c
           end; injection Hlogic as <- <- <-.
    - exists true. reflexivity.
    - exists false. reflexivity.
    - destruct Hsig; discriminate. }
  destruct Hcps as (b & ->).
  destruct (calculate_position_size_value (if b then t else Qabs t) volatility b)
    as (a & m & Ha & Heq & Hband & Hrange).
  exists a, m, (py_round a 2). rewrite Ha.
  split; [reflexivity|]. split; [|split; [assumption|split; [assumption|]]].
  - rewrite Heq. destruct b; [reflexivity|].
    rewrite (Qabs_pos (Qabs t)) by apply Qabs_nonneg. reflexivity.
  - split; [reflexivity|]. split.
    + apply (py_round_ge a 2 0). apply Hrange.
    + apply (py_round_le a 2 1). apply Hrange.
Qed.

Lemma allocation_formula_witness :
  exists a m reported,
    Some (160 # 200) = Some a /\
    a == Qmin 1 (0.5 + 2 * Qabs (3 # 20)) * m /\
    in_band (Some 0.2) m /\
    0 <= a <= 1 /\
    fround (Some (160 # 200)) 2 = Some reported /\ 0 <= reported <= 1.
Proof.
  apply (allocation_formula (Some 115) (Some 100) (Some 110) (Some 0.05)
           (Some 0.2) (3 # 20) "LONG" SoxlStrategy.TICKER_LONG (Some (160 # 200))).
  - reflexivity.
  - left. reflexivity.
Defined.

(** The middle and the upper band on two rows. *)
Example allocation_bands :
  (exists a, SoxlStrategy.calculate_position_size (Some 0.4) (Some 0.4) true
             = Some a /\ a == 0.75) /\
  (exists a, SoxlStrategy.calculate_position_size (Some 0.1) (Some 0.6) false
             = Some a /\ a == 0.35).
Proof. split; eexists; (split; [vm_compute; reflexivity|reflexivity]). Qed.

(** *** Shorting *)

(** C5 fails as stated: the signal generator of the dual-MA policy
    takes no shorting flag.  On two hundred closes that end below both
    averages with a rate of change of -50%, it reports SHORT and the
    short instrument, while the configuration has shorting off. *)
Lemma short_collapse_counterexample :
  Config.USE_SHORTS = false /\
  exists s h',
    @SoxlStrategy.get_signal example_floatlib 0%nat
      (store1 (price_frame (replicate 199 1 ++ [1 # 2])))
      = (Ok (SoxlStrategy.Sig s), h') /\
    SoxlStrategy.above_200_ma s = false /\
    SoxlStrategy.above_50_ma s = false /\
    (exists r, SoxlStrategy.roc s = Some r /\ r == - 50) /\
    SoxlStrategy.signal s = "SHORT"%string /\
    SoxlStrategy.position s = SoxlStrategy.TICKER_SHORT.
Proof.
  split; [reflexivity|]. eexists _, _. split; [vm_compute; reflexivity|].
  split; [reflexivity|]. split; [reflexivity|].
  split; [eexists; split; reflexivity|]. split; reflexivity.
Qed.

Lemma position_of_signal_row (use_shorts : bool) (bars : list SoxlBacktest.Bar)
      (r : SoxlBacktest.SignalRow) :
  r ∈ SoxlBacktest.signal_frame use_shorts bars ->
  SoxlBacktest.sr_position r =
    SoxlBacktest.select_position use_shorts
      (Qlt_bool (SoxlBacktest.sr_sma_200 r) (SoxlBacktest.sr_index_close r))
      (Qlt_bool (SoxlBacktest.sr_sma_50 r) (SoxlBacktest.sr_index_close r))
      (Qlt_bool SoxlBacktest.ROC_THRESHOLD (SoxlBacktest.sr_roc r))
      (Qlt_bool (SoxlBacktest.sr_roc r) (- SoxlBacktest.ROC_THRESHOLD)).
Proof.
  unfold SoxlBacktest.signal_frame. rewrite list_elem_of_omap.
  intros ([[[b s200] s50] rc] & _ & Hr).
  destruct s200 as [m200|], s50 as [m50|], rc as [c|]; try discriminate.
  injection Hr as <-. reflexivity.
Qed.

(** C5, as the code has it: in the backtest of the dual-MA policy a
    row that meets the short conditions gets position 0 when
    [use_shorts] is off and -1 when it is on; the signal generator has
    no such flag and answers SHORT with the short instrument. *)
Theorem backtest_short_follows_use_shorts
    (use_shorts : bool) (bars : list SoxlBacktest.Bar) (r : SoxlBacktest.SignalRow)
    (price sma_200 sma_50 roc : Q) (volatility trend_strength : float) :
  (r ∈ SoxlBacktest.signal_frame use_shorts bars ->
   SoxlBacktest.sr_index_close r < SoxlBacktest.sr_sma_200 r ->
   SoxlBacktest.sr_index_close r < SoxlBacktest.sr_sma_50 r ->
   SoxlBacktest.sr_roc r < - SoxlBacktest.ROC_THRESHOLD ->
   SoxlBacktest.sr_position r = if use_shorts then (-1)%Z else 0%Z) /\
  (price < sma_200 -> price < sma_50 -> roc < - SoxlStrategy.ROC_THRESHOLD ->
   exists allocation,
     SoxlStrategy.signal_logic (Some price) (Some sma_200) (Some sma_50)
                               (Some roc) volatility trend_strength
       = ("SHORT"%string, SoxlStrategy.TICKER_SHORT, allocation)).
Proof.
  split.
  - intros Hin H200 H50 Hroc. rewrite (position_of_signal_row _ _ _ Hin).
    unfold SoxlBacktest.select_position.
    assert (E1 : Qlt_bool (SoxlBacktest.sr_sma_200 r)
                          (SoxlBacktest.sr_index_close r) = false)
      by (apply Qlt_bool_false_iff; lra).
    assert (E2 : Qlt_bool (SoxlBacktest.sr_sma_50 r)
                          (SoxlBacktest.sr_index_close r) = false)
      by (apply Qlt_bool_false_iff; lra).
    assert (E3 : Qlt_bool (SoxlBacktest.sr_roc r)
                          (- SoxlBacktest.ROC_THRESHOLD) = true)
      by (apply Qlt_bool_iff; assumption).
    rewrite E1, E2, E3. reflexivity.
  - intros H200 H50 Hroc. unfold SoxlStrategy.signal_logic.
    assert (E1 : fgt (Some price) (Some sma_200) = false)
      by (apply Qlt_bool_false_iff; lra).
    assert (E2 : flt (Some price) (Some sma_200) = true)
      by (apply flt_Some; assumption).
    assert (E3 : flt (Some price) (Some sma_50) = true)
      by (apply flt_Some; assumption).
    assert (E4 : flt (Some roc) (Some (- SoxlStrategy.ROC_THRESHOLD)) = true)
      by (apply flt_Some; assumption).
    rewrite E1, E2, E3, E4. simpl. eexists. reflexivity.
Qed.

Lemma backtest_short_follows_use_shorts_witness :
  SoxlBacktest.sr_position falling_row = 0%Z /\
  exists allocation,
    SoxlStrategy.signal_logic (Some (1 # 2)) (Some 1) (Some 1) (Some (- (1 # 2)))
                              (Some 0.2) (Some (- (1 # 2)))
      = ("SHORT"%string, SoxlStrategy.TICKER_SHORT, allocation).
Proof.
  destruct (backtest_short_follows_use_shorts false falling_bars falling_row
              (1 # 2) 1 1 (- (1 # 2)) (Some 0.2) (Some (- (1 # 2))))
    as [A B].
  split.
  - apply A.
    + vm_compute. constructor.
    + vm_compute. reflexivity.
    + vm_compute. reflexivity.
    + vm_compute. reflexivity.
  - apply B; vm_compute; reflexivity.
Defined.

End DualPolicyClaims.

(* ================================================================== *)
(** * The claim about the reconciliation *)

Module TradeClaims.
Import Examples Config Trade.

(** What [calculate_target_position] returns on a quoted, non-zero
    price. *)
Lemma calculate_target_position_run
      (signal : Strategy.Signal) (portfolio_value price : Q) :
  ~ price == 0 ->
  calculate_target_position signal portfolio_value (Some price)
    = Ok (py_int (portfolio_value * Strategy.allocation signal / price)).
Proof.
  intros Hp. unfold calculate_target_position, py_div_pure, fdiv.
  destruct (Qeq_bool price 0) eqn:E.
  - apply Qeq_bool_iff in E. contradiction.
  - reflexivity.
Qed.

(** C2: close before open.  With a target of LONG while shares of the
    short fund are held, and the long fund's price quoted and not
    zero, the orders start with the sale of the whole holding of the
    short fund, and only orders for the long fund follow; the same
    with the two funds exchanged when the target is SHORT. *)
Theorem close_before_open
    (use_shorts : bool) (signal : Strategy.Signal) (portfolio_value : Q)
    (positions : gmap string Position) (quotes : string -> Series) (price : Q) :
  ~ price == 0 ->
  (Strategy.signal signal = "LONG"%string ->
   last (quotes TICKER_LONG) = Some (Some price) ->
   (0 < held positions TICKER_SHORT)%Z ->
   exists rest,
     reconcile use_shorts signal portfolio_value positions quotes
       = Ok (mkOrder TICKER_SHORT (held positions TICKER_SHORT) sell :: rest) /\
     Forall (fun o => symbol o = TICKER_LONG) rest) /\
  (Strategy.signal signal = "SHORT"%string -> use_shorts = true ->
   last (quotes TICKER_SHORT) = Some (Some price) ->
   (0 < held positions TICKER_LONG)%Z ->
   exists rest,
     reconcile use_shorts signal portfolio_value positions quotes
       = Ok (mkOrder TICKER_LONG (held positions TICKER_LONG) sell :: rest) /\
     Forall (fun o => symbol o = TICKER_SHORT) rest).
Proof.
  intros Hprice. split.
  - intros Hsig Hquote Hheld. unfold reconcile. rewrite Hsig. simpl.
    unfold last_or. rewrite Hquote. simpl.
    rewrite (calculate_target_position_run _ _ _ Hprice). simpl.
    destruct (Z.ltb_spec 0 (held positions TICKER_SHORT)) as [_|]; [|lia].
    eexists. split; [reflexivity|].
    repeat match goal with
           | |- context [if ?c then _ else _] => destruct c
           end; repeat constructor.
  - intros Hsig -> Hquote Hheld. unfold reconcile. rewrite Hsig. simpl.
    unfold last_or. rewrite Hquote. simpl.
    rewrite (calculate_target_position_run _ _ _ Hprice). simpl.
    destruct (Z.ltb_spec 0 (held positions TICKER_LONG)) as [_|]; [|lia].
    eexists. split; [reflexivity|].
    repeat match goal with
           | |- context [if ?c then _ else _] => destruct c
           end; repeat constructor.
Qed.

Lemma close_before_open_witness :
  (exists rest,
     reconcile true long_signal 1000
               (<[ TICKER_LONG := holding 40 ]> {[ TICKER_SHORT := holding 7 ]})
               quotes_at_10
       = Ok (mkOrder TICKER_SHORT 7 sell :: rest) /\
     Forall (fun o => symbol o = TICKER_LONG) rest) /\
  (exists rest,
     reconcile true short_signal 1000
               (<[ TICKER_LONG := holding 40 ]> {[ TICKER_SHORT := holding 7 ]})
               quotes_at_10
       = Ok (mkOrder TICKER_LONG 40 sell :: rest) /\
     Forall (fun o => symbol o = TICKER_SHORT) rest).
Proof.
  split.
  - apply (proj1 (close_before_open true long_signal 1000
                    (<[ TICKER_LONG := holding 40 ]> {[ TICKER_SHORT := holding 7 ]})
                    quotes_at_10 10 ltac:(vm_compute; discriminate)));
      [reflexivity|reflexivity|vm_compute; reflexivity].
  - apply (proj2 (close_before_open true short_signal 1000
                    (<[ TICKER_LONG := holding 40 ]> {[ TICKER_SHORT := holding 7 ]})
                    quotes_at_10 10 ltac:(vm_compute; discriminate)));
      [reflexivity|reflexivity|reflexivity|vm_compute; reflexivity].
Defined.

(** The orders of the two runs of the witness, and of a CASH target. *)
Example reconcile_runs :
  reconcile true long_signal 1000
            (<[ TICKER_LONG := holding 40 ]> {[ TICKER_SHORT := holding 7 ]})
            quotes_at_10
    = Ok [mkOrder TICKER_SHORT 7 sell; mkOrder TICKER_LONG 60 buy] /\
  reconcile true short_signal 1000
            (<[ TICKER_LONG := holding 40 ]> {[ TICKER_SHORT := holding 7 ]})
            quotes_at_10
    = Ok [mkOrder TICKER_LONG 40 sell; mkOrder TICKER_SHORT 93 buy] /\
  reconcile false short_signal 1000
            (<[ TICKER_LONG := holding 40 ]> {[ TICKER_SHORT := holding 7 ]})
            quotes_at_10
    = Ok [mkOrder TICKER_LONG 40 sell; mkOrder TICKER_SHORT 7 sell].
Proof. repeat split; vm_compute; reflexivity. Qed.

End TradeClaims.

(* ================================================================== *)
(** * The claims about the metrics of the backtests *)

Module MetricClaims.
Import Examples.

(** *** Trade count *)

Lemma fne_inject_Z (a b : Z) :
  fne (Some (inject_Z a)) (Some (inject_Z b)) = negb (a =? b)%Z.
Proof.
  unfold fne, feq, fcmp, Qeq_bool. simpl. now rewrite !Z.mul_1_r.
Qed.

Lemma count_if_cons {A : Type} (p : A -> bool) (x : A) (l : list A) :
  count_if p (x :: l) = ((if p x then 1 else 0) + count_if p l)%nat.
Proof.
  unfold count_if. rewrite filter_cons.
  destruct (decide (p x = true)) as [E|E].
  - rewrite E. reflexivity.
  - destruct (p x); [congruence|reflexivity].
Qed.

Lemma changes_after (previous : Z) (s : list Z) :
  let f := fun z : Z => Some (inject_Z z) in
  count_if id (zip_with fne (map f s) (take (length s) (f previous :: map f s)))
  = flips_after previous s.
Proof.
  simpl. revert previous. induction s as [|x s IH]; intros previous; [reflexivity|].
  cbn [map length take zip_with].
  rewrite count_if_cons, fne_inject_Z, IH. simpl.
  destruct (x =? previous)%Z; reflexivity.
Qed.

(** The count of the code is the count of the specification plus one:
    the comparison of the first row with the NaN that [shift] puts
    before it holds. *)
Lemma changes_flips (x : Z) (s : list Z) :
  changes (x :: s) = S (flips (x :: s)).
Proof.
  unfold changes, shift.
  cbn [map length app replicate take zip_with].
  rewrite count_if_cons. cbn [id fne feq fcmp negb].
  rewrite length_map, changes_after. reflexivity.
Qed.

(** C3 on the code: the frame handed to [calculate_metrics] holds the
    positions LONG, CASH, LONG, which flip twice, and the reported
    trade count is 3; whatever the positions, the count that both
    backtests report ([changes]) is one more than the number of flips. *)
Theorem trade_count_is_flips_plus_one `{FloatLib} :
  map Backtest.signal five_days = [1; 0; 1]%Z /\
  flips [1; 0; 1]%Z = 2%nat /\
  (exists m, Backtest.calculate_metrics five_days 100000 = Ok m /\
             Backtest.total_trades m = 3%nat) /\
  (forall (x : Z) (s : list Z), changes (x :: s) = S (flips (x :: s))).
Proof.
  split; [vm_compute; reflexivity|]. split; [reflexivity|].
  split; [|apply changes_flips].
  eexists. split; [vm_compute; reflexivity|reflexivity].
Qed.

(** *** Annualised return over zero periods *)

(** C8 on the code: the annualised return of [backtest.py] has no
    guard and divides by zero years, the one of [soxl_backtest.py] is
    guarded and answers 0; neither comes into play for an empty range,
    where both [calculate_metrics] have already raised [IndexError] on
    the last portfolio value; so does [run_backtest] on two days of
    closes and a two-day average, which leave no period. *)
Theorem annualized_return_zero_periods `{FloatLib} (total_return : float) (cap : Q) :
  Backtest.annualized total_return 0 = Raise ZeroDivisionError /\
  SoxlBacktest.annualized total_return 0 = Ok (Some 0) /\
  Backtest.calculate_metrics [] cap = Raise IndexError /\
  SoxlBacktest.calculate_metrics [] cap false = Raise IndexError /\
  Backtest.combined_frame (dated [10; 11]) (dated [100; 103]) 2 cap = [] /\
  fst (Backtest.run_backtest 0%nat 1%nat 2 cap true
         (store2 (price_frame [10; 11]) (price_frame [100; 103])))
    = Raise IndexError.
Proof.
  split; [reflexivity|]. split; [reflexivity|].
  split; [reflexivity|]. split; [reflexivity|].
  split; [reflexivity|]. vm_compute. reflexivity.
Qed.

End MetricClaims.

(* ================================================================== *)
(** * The claim about the caller's frames *)

Module FrameClaims.
Import Examples.

Lemma frame_lift_result {A : Type} (S : gset loc) (r : result A) :
  frame_ok S (lift_result r) (fun _ => True).
Proof.
  intros h HS r' h' [= <- <-]. split; [assumption|split; [reflexivity|auto]].
Qed.

(** The backtest of the dual-MA policy only reads its frames. *)
Lemma soxl_run_backtest_frame_ok `{FloatLib} (S : gset loc)
      (index_data long_etf_data : loc) (short_etf_data : option loc)
      (cap : Q) (use_shorts : bool) :
  frame_ok S (SoxlBacktest.run_backtest index_data long_etf_data short_etf_data
                                        cap use_shorts)
           (fun _ => True).
Proof.
  unfold SoxlBacktest.run_backtest.
  eapply frame_bind; [apply frame_df_getitem|]. intros idx_close _.
  eapply frame_bind; [eapply frame_bind; [apply frame_deref|];
                      intros; apply frame_ret_True|]. intros idx_dates _.
  eapply frame_bind; [apply frame_df_getitem|]. intros long_close _.
  eapply frame_bind; [eapply frame_bind; [apply frame_deref|];
                      intros; apply frame_ret_True|]. intros long_dates _.
  eapply frame_bind with (P := fun _ => True).
  - destruct short_etf_data as [short_data|]; [|apply frame_ret_True].
    destruct use_shorts; [|apply frame_ret_True].
    eapply frame_bind; [apply frame_df_getitem|]. intros s _.
    eapply frame_bind; [eapply frame_bind; [apply frame_deref|];
                        intros; apply frame_ret_True|]. intros d _.
    apply frame_ret_True.
  - intros short_close _.
    eapply frame_bind; [apply frame_lift_result|]. intros results _.
    apply frame_ret_True.
Qed.

Lemma reads_only_bind {A B : Type} (m : M A) (f : A -> M B) :
  reads_only m -> (forall a, reads_only (f a)) -> reads_only (m ≫= f).
Proof.
  intros Hm Hf h h' r Hrun. unfold mbind, M_bind in Hrun.
  destruct (m h) as [[a|e] h1] eqn:E.
  - apply Hm in E. subst h1. eapply Hf; eassumption.
  - injection Hrun as _ <-. eapply Hm; eassumption.
Qed.

Lemma reads_only_ret {A : Type} (a : A) : reads_only (mret a).
Proof. intros h h' r [= _ <-]. reflexivity. Qed.

Lemma reads_only_lift_option {A : Type} (e : exn) (o : option A) :
  reads_only (lift_option e o).
Proof. destruct o; intros h h' r [= _ <-]; reflexivity. Qed.

Lemma reads_only_lift_result {A : Type} (x : result A) :
  reads_only (lift_result x).
Proof. intros h h' r [= _ <-]. reflexivity. Qed.

Lemma reads_only_deref (l : loc) : reads_only (deref l).
Proof.
  intros h h' r Hrun. unfold deref in Hrun.
  destruct (h !! l); injection Hrun as _ <-; reflexivity.
Qed.

Lemma reads_only_df_getitem (l : loc) (k : string) : reads_only (df_getitem l k).
Proof.
  apply reads_only_bind; [apply reads_only_deref|].
  intros. apply reads_only_lift_option.
Qed.

Lemma reads_only_df_index (l : loc) : reads_only (df_index l).
Proof.
  apply reads_only_bind; [apply reads_only_deref|].
  intros. apply reads_only_ret.
Qed.

(** The backtest of the single-MA policy leaves the store as it was
    when the labels of both frames are flat. *)
Lemma run_backtest_flat_columns `{FloatLib} (h h' : heap)
      (index_data etf_data : loc) (df1 df2 : DataFrame) (ma_period : nat)
      (cap : Q) (decay : bool) (r : result (Backtest.Metrics * list Backtest.Row)) :
  h !! index_data = Some df1 -> h !! etf_data = Some df2 ->
  is_MultiIndex (columns df1) = false -> is_MultiIndex (columns df2) = false ->
  Backtest.run_backtest index_data etf_data ma_period cap decay h = (r, h') ->
  h' = h.
Proof.
  intros H1 H2 F1 F2. unfold Backtest.run_backtest.
  erewrite bind_run; [|apply df_columns_run; eassumption]. rewrite F1.
  erewrite bind_run; [|reflexivity].
  erewrite bind_run; [|apply df_columns_run; eassumption]. rewrite F2.
  erewrite bind_run; [|reflexivity].
  intros Hrun.
  match type of Hrun with ?m h = _ => assert (R : reads_only m) end.
  { repeat first
      [ apply reads_only_df_getitem | apply reads_only_df_index
      | apply reads_only_lift_result | apply reads_only_ret
      | apply reads_only_bind; [|intros ?] ]. }
  exact (R _ _ _ Hrun).
Qed.

(** C9 on the code: the backtest of the single-MA policy is handed
    two frames labelled as the price provider labels a download, and
    after the call the caller's frames carry other column labels; the
    two signal generators and the backtest of the dual-MA policy leave
    every frame of the caller's store as it was. *)
Theorem run_backtest_relabels_the_callers_frames `{FloatLib} :
  let h := store2 (downloaded_frame "^NDX" five_index_closes)
                  (downloaded_frame "TQQQ" five_etf_closes) in
  let h' := snd (Backtest.run_backtest 0%nat 1%nat 2 100000 true h) in
  columns <$> h !! 0%nat = Some (MultiIndex [("Close", "^NDX")]%string) /\
  columns <$> h' !! 0%nat = Some (Index ["Close"]%string) /\
  columns <$> h !! 1%nat = Some (MultiIndex [("Close", "TQQQ")]%string) /\
  columns <$> h' !! 1%nat = Some (Index ["Close"]%string) /\
  h' !! 0%nat <> h !! 0%nat /\
  (forall (S : gset loc) (data : loc) (p : nat),
     frame_ok S (Strategy.get_signal data p) (fun _ => True)) /\
  (forall (S : gset loc) (data : loc),
     frame_ok S (SoxlStrategy.get_signal data) (fun _ => True)) /\
  (forall (S : gset loc) (i l : loc) (s : option loc) (cap : Q) (us : bool),
     frame_ok S (SoxlBacktest.run_backtest i l s cap us) (fun _ => True)).
Proof.
  cbv zeta.
  split; [reflexivity|]. split; [vm_compute; reflexivity|].
  split; [reflexivity|]. split; [vm_compute; reflexivity|].
  split; [vm_compute; discriminate|].
  split; [apply StrategyFacts.sma_get_signal_frame_ok|].
  split; [apply SoxlStrategyFacts.dual_get_signal_frame_ok|].
  apply soxl_run_backtest_frame_ok.
Qed.

End FrameClaims.

(* ================================================================== *)
(** * The claims about the simulated returns *)

Module BacktestClaims.
Import Examples.
Import BacktestTerms SoxlBacktestTerms.

(** *** The one-period lag *)

Lemma tqqq_lag (index_close etf_close : IndexedSeries) (ma_period : nat) (cap : Q) :
  positive_closes etf_close = true ->
  tqqq_lag_rule
    (Backtest.signal_frame ma_period (Backtest.aligned_closes index_close etf_close))
    (Backtest.combined_frame index_close etf_close ma_period cap).
Proof.
  intros Hpos. unfold Backtest.combined_frame.
  pose proof (BacktestFacts.tqqq_signal_range_sound index_close etf_close ma_period Hpos)
    as Hsound.
  set (rows := Backtest.signal_frame ma_period
                 (Backtest.aligned_closes index_close etf_close)) in *.
  assert (Hprice : Forall (fun r => 0 < Backtest.sr_etf_close r) rows).
  { eapply Forall_impl; [exact Hsound|]. intros r [Hr _]. exact Hr. }
  rewrite (BacktestFacts.tqqq_returns_frame_lagged rows Hprice).
  split.
  - rewrite BacktestFacts.tqqq_length_final_frame.
    destruct rows as [|r0 rest]; [reflexivity|].
    now rewrite BacktestFacts.tqqq_length_lagged.
  - intros t p c Hp Hc. destruct rows as [|r0 rest];
      [rewrite lookup_nil in Hp; discriminate|].
    simpl in Hc.
    pose proof (BacktestFacts.tqqq_lagged_lookup r0 rest t p c Hp Hc) as Hl.
    destruct (BacktestFacts.tqqq_final_frame_lookup cap _ _ _ _ _ Hl)
      as (row & Hrow & Hd & Hs & _ & He & Hst & _).
    exists row. split; [assumption|]. split; [assumption|]. split; [assumption|].
    split; [exact He|]. rewrite Hst, He. reflexivity.
Qed.

Lemma tqqq_flip (sig : list Backtest.SignalRow) (data : list Backtest.Row) :
  tqqq_lag_rule sig data -> tqqq_flip_rule sig data.
Proof.
  intros [Hlen Hlag] k pk Hcash Hk Hlong.
  assert (Hrow : forall t row, data !! t = Some row ->
            exists p, sig !! t = Some p /\
              Backtest.strategy_return row
                = inject_Z (Backtest.sr_signal p) * Backtest.etf_return row).
  { intros t row Hrow.
    assert (Ht : (t < length data)%nat) by (eapply lookup_lt_Some; eassumption).
    destruct (lookup_lt_is_Some_2 sig t) as [p Hp]; [lia|].
    destruct (lookup_lt_is_Some_2 sig (S t)) as [c Hc]; [lia|].
    destruct (Hlag t p c Hp Hc) as (row' & Hrow' & _ & _ & _ & Hst).
    assert (row' = row) by congruence. subst row'. eauto. }
  split.
  - intros t row Ht Hdata. destruct (Hrow t row Hdata) as (p & Hp & ->).
    rewrite (Hcash t p Ht Hp). change (inject_Z 0) with 0. ring.
  - intros row Hdata. destruct (Hrow k row Hdata) as (p & Hp & ->).
    assert (p = pk) by congruence. subst p. rewrite Hlong.
    change (inject_Z 1) with 1.
    split; [ring|]. intros Hnz Hz. apply Hnz. rewrite <- Hz. ring.
Qed.

Lemma soxl_lag (idx_close long_close : IndexedSeries)
      (short_close : option IndexedSeries) (cap : Q) (use_shorts : bool) :
  positive_closes long_close = true ->
  SoxlBacktestTerms.positive_short short_close = true ->
  soxl_lag_rule
    (use_shorts && bool_decide (is_Some short_close))
    (SoxlBacktest.signal_frame use_shorts
       (SoxlBacktest.aligned_closes idx_close long_close short_close))
    (SoxlBacktest.backtest_frame idx_close long_close short_close cap use_shorts).
Proof.
  intros Hlong Hshort. unfold SoxlBacktest.backtest_frame.
  pose proof (SoxlBacktestFacts.soxl_signal_range_sound idx_close long_close
                short_close use_shorts Hlong Hshort) as Hsound.
  set (hs := use_shorts && bool_decide (is_Some short_close)) in *.
  set (rows := SoxlBacktest.signal_frame use_shorts
                 (SoxlBacktest.aligned_closes idx_close long_close short_close))
    in *.
  assert (Hprice : Forall (SoxlBacktestTerms.priced hs) rows).
  { eapply Forall_impl; [exact Hsound|]. intros r [Hr _]. exact Hr. }
  rewrite (SoxlBacktestFacts.soxl_returns_frame_lagged hs rows Hprice).
  split.
  - rewrite SoxlBacktestFacts.soxl_length_final_frame.
    destruct rows as [|r0 rest]; [reflexivity|].
    now rewrite SoxlBacktestFacts.soxl_length_lagged.
  - intros t p c Hp Hc. destruct rows as [|r0 rest];
      [rewrite lookup_nil in Hp; discriminate|].
    simpl in Hc.
    pose proof (SoxlBacktestFacts.soxl_lagged_lookup hs r0 rest t p c Hp Hc) as Hl.
    destruct (SoxlBacktestFacts.soxl_final_frame_lookup cap _ _ _ _ _ _ Hl)
      as (row & Hrow & Hr & Hlr & Hsr & Hst & _).
    assert (Hpp : SoxlBacktestTerms.priced hs p)
      by (eapply Forall_lookup_1; eassumption).
    assert (Hpc : SoxlBacktestTerms.priced hs c).
    { eapply (Forall_lookup_1 _ _ (S t)); [exact Hprice|exact Hc]. }
    exists row. split; [assumption|]. split; [assumption|].
    split; [exact Hlr|]. split; [|split; [|split]].
    + intros Hhs. rewrite Hsr. unfold SoxlBacktestTerms.short_move.
      now rewrite Hhs.
    + intros Hhs. destruct Hpp as [_ Hzp], Hpc as [_ Hzc].
      destruct (Hzp Hhs) as (zp & Ezp & _).
      destruct (Hzc Hhs) as (zc & Ezc & _).
      exists zc, zp. split; [assumption|]. split; [assumption|].
      rewrite Hsr. unfold SoxlBacktestTerms.short_move.
      now rewrite Hhs, Ezc, Ezp.
    + rewrite Hst, Hlr, Hsr. reflexivity.
    + rewrite Hst, Hlr. unfold SoxlBacktestTerms.exposure_return.
      intros [-> | ->]; simpl.
      * change (inject_Z 0) with 0. ring.
      * change (inject_Z 1) with 1. ring.
Qed.

Lemma soxl_flip (has_short : bool) (sig : list SoxlBacktest.SignalRow)
      (data : list SoxlBacktest.Row) :
  soxl_lag_rule has_short sig data -> soxl_flip_rule sig data.
Proof.
  intros [Hlen Hlag] k pk Hcash Hk Hlong.
  assert (Hrow : forall t row, data !! t = Some row ->
            exists p, sig !! t = Some p /\
              (SoxlBacktest.sr_position p = 0%Z \/
               SoxlBacktest.sr_position p = 1%Z ->
               SoxlBacktest.strategy_return row
                 == inject_Z (SoxlBacktest.sr_position p)
                    * SoxlBacktest.long_return row)).
  { intros t row Hrow.
    assert (Ht : (t < length data)%nat) by (eapply lookup_lt_Some; eassumption).
    destruct (lookup_lt_is_Some_2 sig t) as [p Hp]; [lia|].
    destruct (lookup_lt_is_Some_2 sig (S t)) as [c Hc]; [lia|].
    destruct (Hlag t p c Hp Hc) as (row' & Hrow' & _ & _ & _ & _ & _ & Hst).
    assert (row' = row) by congruence. subst row'. eauto. }
  split.
  - intros t row Ht Hdata. destruct (Hrow t row Hdata) as (p & Hp & Hst).
    rewrite Hst by (left; eauto). rewrite (Hcash t p Ht Hp).
    change (inject_Z 0) with 0. ring.
  - intros row Hdata. destruct (Hrow k row Hdata) as (p & Hp & Hst).
    assert (p = pk) by congruence. subst p.
    rewrite Hst by (right; assumption). rewrite Hlong.
    change (inject_Z 1) with 1.
    split; [ring|]. intros Hnz Hz. apply Hnz. rewrite <- Hz. ring.
Qed.

(** C1: in both backtests the strategy return of a day is the position
    decided the day before applied to the fund's return over the day,
    and after a flip from CASH to LONG on day [k] the first strategy
    return that can differ from zero is the one of day [k + 1]. *)
Theorem no_look_ahead
    (index_close etf_close : IndexedSeries) (ma_period : nat) (cap : Q)
    (idx_close long_close : IndexedSeries) (short_close : option IndexedSeries)
    (cap' : Q) (use_shorts : bool) :
  positive_closes etf_close = true ->
  positive_closes idx_close = true ->
  positive_closes long_close = true ->
  SoxlBacktestTerms.positive_short short_close = true ->
  let sig :=
    Backtest.signal_frame ma_period
      (Backtest.aligned_closes index_close etf_close) in
  let data := Backtest.combined_frame index_close etf_close ma_period cap in
  let sig' :=
    SoxlBacktest.signal_frame use_shorts
      (SoxlBacktest.aligned_closes idx_close long_close short_close) in
  let data' :=
    SoxlBacktest.backtest_frame idx_close long_close short_close cap' use_shorts in
  tqqq_lag_rule sig data /\ tqqq_flip_rule sig data /\
  soxl_lag_rule (use_shorts && bool_decide (is_Some short_close)) sig' data' /\
  soxl_flip_rule sig' data'.
Proof.
  intros Hetf _ Hlong Hshort. cbv zeta.
  pose proof (tqqq_lag index_close etf_close ma_period cap Hetf) as H1.
  pose proof (soxl_lag idx_close long_close short_close cap' use_shorts
                Hlong Hshort) as H2.
  split; [exact H1|]. split; [now apply tqqq_flip|].
  split; [exact H2|]. eapply soxl_flip. exact H2.
Qed.

Lemma no_look_ahead_witness :
  let sig :=
    Backtest.signal_frame 2
      (Backtest.aligned_closes (dated five_index_closes) (dated five_etf_closes)) in
  let data :=
    Backtest.combined_frame (dated five_index_closes) (dated five_etf_closes)
                            2 100000 in
  let sig' :=
    SoxlBacktest.signal_frame false
      (SoxlBacktest.aligned_closes (dated rising_closes) (dated rising_closes) None) in
  let data' :=
    SoxlBacktest.backtest_frame (dated rising_closes) (dated rising_closes) None
                                100000 false in
  tqqq_lag_rule sig data /\ tqqq_flip_rule sig data /\
  soxl_lag_rule (false && bool_decide (is_Some (@None IndexedSeries))) sig' data' /\
  soxl_flip_rule sig' data'.
Proof.
  apply (no_look_ahead (dated five_index_closes) (dated five_etf_closes) 2 100000
           (dated rising_closes) (dated rising_closes) None 100000 false).
  - vm_compute. reflexivity.
  - vm_compute. reflexivity.
  - vm_compute. reflexivity.
  - reflexivity.
Defined.

(** The two runs of the witness, day by day: date, position and
    strategy return. *)
Example five_days_returns :
  map (fun r => (Backtest.sr_date r, Backtest.sr_signal r))
      (Backtest.signal_frame 2
         (Backtest.aligned_closes (dated five_index_closes)
                                  (dated five_etf_closes)))
    = [(1, 1); (2, 1); (3, 0); (4, 1)]%Z /\
  map (fun r => (Backtest.date r, Qred (Backtest.etf_return r),
                 Qred (Backtest.strategy_return r)))
      (Backtest.combined_frame (dated five_index_closes) (dated five_etf_closes)
                               2 100000)
    = [(2%Z, 3 # 103, 3 # 103); (3%Z, - 3 # 106, - 3 # 106); (4%Z, 3 # 103, 0)].
Proof. split; vm_compute; reflexivity. Qed.

Example rising_days_returns :
  map (fun r => (SoxlBacktest.sr_date r, SoxlBacktest.sr_position r))
      (SoxlBacktest.signal_frame false
         (SoxlBacktest.aligned_closes (dated rising_closes) (dated rising_closes)
                                      None))
    = [(199, 0); (200, 1); (201, 1)]%Z /\
  map (fun r => (SoxlBacktest.date r, Qred (SoxlBacktest.long_return r),
                 Qred (SoxlBacktest.strategy_return r)))
      (SoxlBacktest.backtest_frame (dated rising_closes) (dated rising_closes)
                                   None 100000 false)
    = [(200%Z, 1, 0); (201%Z, 1 # 2, 1 # 2)].
Proof. split; vm_compute; reflexivity. Qed.

(** With the short fund in use: the index falls by half on each of the
    last two of 201 days while the short fund doubles; the position of
    day 199 is SHORT and the strategy return of day 200 is the short
    fund's. *)
Example short_days_returns :
  let index := dated (replicate 199 1 ++ [1 # 2; 1 # 4]) in
  let short := dated (replicate 199 1 ++ [2; 4]) in
  map (fun r => (SoxlBacktest.sr_date r, SoxlBacktest.sr_position r))
      (SoxlBacktest.signal_frame true
         (SoxlBacktest.aligned_closes index index (Some short)))
    = [(199, -1); (200, -1)]%Z /\
  map (fun r => (SoxlBacktest.date r, Qred (SoxlBacktest.long_return r),
                 Qred (SoxlBacktest.short_return r),
                 Qred (SoxlBacktest.strategy_return r)))
      (SoxlBacktest.backtest_frame index index (Some short) 100000 true)
    = [(200%Z, - 1 # 2, 1, 1)].
Proof. split; vm_compute; reflexivity. Qed.

(** *** The largest drawdown *)

Lemma tqqq_cumulative_pos (index_close etf_close : IndexedSeries)
      (ma_period : nat) (cap : Q) :
  positive_closes etf_close = true ->
  Forall (fun x => 0 < x)
         (map Backtest.strategy_cumulative
              (Backtest.combined_frame index_close etf_close ma_period cap)).
Proof.
  intros Hpos. unfold Backtest.combined_frame.
  rewrite BacktestFacts.tqqq_strategy_cumulative_final_frame.
  apply cumprod_pos.
  pose proof (BacktestFacts.tqqq_signal_range_sound index_close etf_close ma_period Hpos)
    as Hsound.
  set (rows := Backtest.signal_frame ma_period
                 (Backtest.aligned_closes index_close etf_close)) in *.
  assert (Hprice : Forall (fun r => 0 < Backtest.sr_etf_close r) rows).
  { eapply Forall_impl; [exact Hsound|]. intros r [Hr _]. exact Hr. }
  rewrite (BacktestFacts.tqqq_returns_frame_lagged rows Hprice).
  destruct rows as [|r0 rest]; [constructor|].
  now apply BacktestFacts.tqqq_lagged_growth_pos.
Qed.

Lemma soxl_cumulative_pos (idx_close long_close : IndexedSeries)
      (short_close : option IndexedSeries) (cap : Q) (use_shorts : bool) :
  positive_closes long_close = true ->
  SoxlBacktestTerms.positive_short short_close = true ->
  Forall (fun x => 0 < x)
         (map SoxlBacktest.strategy_cumulative
              (SoxlBacktest.backtest_frame idx_close long_close short_close
                                           cap use_shorts)).
Proof.
  intros Hlong Hshort. unfold SoxlBacktest.backtest_frame.
  rewrite SoxlBacktestFacts.soxl_strategy_cumulative_final_frame.
  apply cumprod_pos.
  pose proof (SoxlBacktestFacts.soxl_signal_range_sound idx_close long_close
                short_close use_shorts Hlong Hshort) as Hsound.
  set (hs := use_shorts && bool_decide (is_Some short_close)) in *.
  set (rows := SoxlBacktest.signal_frame use_shorts
                 (SoxlBacktest.aligned_closes idx_close long_close short_close))
    in *.
  assert (Hprice : Forall (SoxlBacktestTerms.priced hs) rows).
  { eapply Forall_impl; [exact Hsound|]. intros r [Hr _]. exact Hr. }
  rewrite (SoxlBacktestFacts.soxl_returns_frame_lagged hs rows Hprice).
  destruct rows as [|r0 rest]; [constructor|].
  now apply SoxlBacktestFacts.soxl_lagged_growth_pos.
Qed.

(** C4: on price series with positive closes, whenever the simulated
    range has a period the metrics are computed, and the largest
    drawdown (the least of (cumulative - running maximum) / running
    maximum) is at most zero, as computed and as reported (in percent,
    rounded), in both backtests. *)
Theorem max_drawdown_nonpositive `{FloatLib}
    (index_close etf_close : IndexedSeries) (ma_period : nat) (cap : Q)
    (idx_close long_close : IndexedSeries) (short_close : option IndexedSeries)
    (cap' : Q) (use_shorts : bool) :
  positive_closes etf_close = true ->
  positive_closes idx_close = true ->
  positive_closes long_close = true ->
  SoxlBacktestTerms.positive_short short_close = true ->
  let data := Backtest.combined_frame index_close etf_close ma_period cap in
  let data' :=
    SoxlBacktest.backtest_frame idx_close long_close short_close cap' use_shorts in
  (data <> [] ->
   exists m raw reported,
     Backtest.calculate_metrics data cap = Ok m /\
     series_min (drawdowns (map Backtest.strategy_cumulative data)) = Some raw /\
     raw <= 0 /\
     Backtest.max_drawdown m = Some reported /\ reported <= 0) /\
  (data' <> [] ->
   exists m raw reported,
     SoxlBacktest.calculate_metrics data' cap' use_shorts = Ok m /\
     series_min (drawdowns (map SoxlBacktest.strategy_cumulative data')) = Some raw /\
     raw <= 0 /\
     SoxlBacktest.max_drawdown m = Some reported /\ reported <= 0).
Proof.
  intros Hetf _ Hlong Hshort. cbv zeta. split; intros Hne.
  - destruct (BacktestFacts.tqqq_calculate_metrics_run _ cap Hne) as (m & Hm & Hdd & _).
    destruct (max_drawdown_nonpos
                (map Backtest.strategy_cumulative
                     (Backtest.combined_frame index_close etf_close ma_period cap)))
      as (raw & Hraw & Hle).
    { intros E. apply Hne. destruct (Backtest.combined_frame _ _ _ _);
        [reflexivity|discriminate]. }
    { now apply tqqq_cumulative_pos. }
    destruct (reported_drawdown_nonpos (Some raw)) as (rep & Hrep & Hrle);
      [eauto|].
    exists m, raw, rep. rewrite Hdd, Hraw. auto.
  - destruct (SoxlBacktestFacts.soxl_calculate_metrics_run _ cap' use_shorts Hne)
      as (m & Hm & Hdd & _).
    destruct (max_drawdown_nonpos
                (map SoxlBacktest.strategy_cumulative
                     (SoxlBacktest.backtest_frame idx_close long_close short_close
                                                  cap' use_shorts)))
      as (raw & Hraw & Hle).
    { intros E. apply Hne. destruct (SoxlBacktest.backtest_frame _ _ _ _ _);
        [reflexivity|discriminate]. }
    { now apply soxl_cumulative_pos. }
    destruct (reported_drawdown_nonpos (Some raw)) as (rep & Hrep & Hrle);
      [eauto|].
    exists m, raw, rep. rewrite Hdd, Hraw. auto.
Qed.

Lemma max_drawdown_nonpositive_witness :
  (exists m raw reported,
     @Backtest.calculate_metrics example_floatlib
       (Backtest.combined_frame (dated five_index_closes) (dated five_etf_closes)
                                2 100000) 100000 = Ok m /\
     series_min (drawdowns
                   (map Backtest.strategy_cumulative
                        (Backtest.combined_frame (dated five_index_closes)
                           (dated five_etf_closes) 2 100000))) = Some raw /\
     raw <= 0 /\
     Backtest.max_drawdown m = Some reported /\ reported <= 0) /\
  (exists m raw reported,
     @SoxlBacktest.calculate_metrics example_floatlib
       (SoxlBacktest.backtest_frame (dated rising_closes) (dated rising_closes)
                                    None 100000 false) 100000 false = Ok m /\
     series_min (drawdowns
                   (map SoxlBacktest.strategy_cumulative
                        (SoxlBacktest.backtest_frame (dated rising_closes)
                           (dated rising_closes) None 100000 false))) = Some raw /\
     raw <= 0 /\
     SoxlBacktest.max_drawdown m = Some reported /\ reported <= 0).
Proof.
  destruct (@max_drawdown_nonpositive example_floatlib
              (dated five_index_closes) (dated five_etf_closes) 2 100000
              (dated rising_closes) (dated rising_closes) None 100000 false)
    as [A B].
  - vm_compute. reflexivity.
  - vm_compute. reflexivity.
  - vm_compute. reflexivity.
  - reflexivity.
  - split; [apply A|apply B]; vm_compute; discriminate.
Defined.

(** The drawdown of the five example days: the fund falls by 3/106
    while the strategy is LONG. *)
Example five_days_drawdown :
  exists raw,
    series_min (drawdowns
                  (map Backtest.strategy_cumulative
                       (Backtest.combined_frame (dated five_index_closes)
                          (dated five_etf_closes) 2 100000))) = Some raw /\
    raw == - 3 # 106.
Proof. eexists. split; [vm_compute; reflexivity|reflexivity]. Qed.

End BacktestClaims.
(* ================================================================== *)
(** * Further properties of the reconciliation *)

Module TradeFacts.
Import Config Trade TradeSession TradeTerms.


(** The three branches of [reconcile]. *)
Lemma reconcile_long (use_shorts : bool) (signal : Strategy.Signal)
      (portfolio_value : Q) (positions : gmap string Position)
      (quotes : string -> Series) :
  Strategy.signal signal = "LONG"%string ->
  reconcile use_shorts signal portfolio_value positions quotes =
    (tqqq_price ← last_or IndexError (quotes TICKER_LONG);
     target_shares ← calculate_target_position signal portfolio_value tqqq_price;
     let shares_to_trade := (target_shares - held positions TICKER_LONG)%Z in
     Ok ((if (0 <? held positions TICKER_SHORT)%Z
          then [mkOrder TICKER_SHORT (held positions TICKER_SHORT) sell] else [])
         ++ (if (0 <? shares_to_trade)%Z
             then [mkOrder TICKER_LONG shares_to_trade buy]
             else if (shares_to_trade <? 0)%Z
                  then [mkOrder TICKER_LONG (Z.abs shares_to_trade) sell]
                  else []))).
Proof. intros Hsig. unfold reconcile. rewrite Hsig. reflexivity. Qed.

Lemma reconcile_short (signal : Strategy.Signal)
      (portfolio_value : Q) (positions : gmap string Position)
      (quotes : string -> Series) :
  Strategy.signal signal = "SHORT"%string ->
  reconcile true signal portfolio_value positions quotes =
    (sqqq_price ← last_or IndexError (quotes TICKER_SHORT);
     target_shares ← calculate_target_position signal portfolio_value sqqq_price;
     let shares_to_trade := (target_shares - held positions TICKER_SHORT)%Z in
     Ok ((if (0 <? held positions TICKER_LONG)%Z
          then [mkOrder TICKER_LONG (held positions TICKER_LONG) sell] else [])
         ++ (if (0 <? shares_to_trade)%Z
             then [mkOrder TICKER_SHORT shares_to_trade buy] else []))).
Proof. intros Hsig. unfold reconcile. rewrite Hsig. reflexivity. Qed.

Lemma reconcile_cash (use_shorts : bool) (signal : Strategy.Signal)
      (portfolio_value : Q) (positions : gmap string Position)
      (quotes : string -> Series) :
  targets_cash use_shorts signal ->
  reconcile use_shorts signal portfolio_value positions quotes =
    Ok ((if (0 <? held positions TICKER_LONG)%Z
         then [mkOrder TICKER_LONG (held positions TICKER_LONG) sell] else [])
        ++ (if (0 <? held positions TICKER_SHORT)%Z
            then [mkOrder TICKER_SHORT (held positions TICKER_SHORT) sell] else [])).
Proof.
  intros [Hl Hs]. unfold reconcile.
  destruct (String.eqb_spec (Strategy.signal signal) "LONG"); [contradiction|].
  destruct (String.eqb_spec (Strategy.signal signal) "SHORT") as [E|E].
  - rewrite (Hs E). reflexivity.
  - reflexivity.
Qed.

(** Every signal has one of the three targets. *)
Lemma target_cases (use_shorts : bool) (signal : Strategy.Signal) :
  Strategy.signal signal = "LONG"%string \/
  (Strategy.signal signal = "SHORT"%string /\ use_shorts = true) \/
  targets_cash use_shorts signal.
Proof.
  destruct (String.eqb_spec (Strategy.signal signal) "LONG") as [E|E]; [now left|].
  right.
  destruct (String.eqb_spec (Strategy.signal signal) "SHORT") as [E'|E'].
  - destruct use_shorts; [now left|]. right. split; [assumption|reflexivity].
  - right. split; [assumption|]. intros; contradiction.
Qed.

(** The orders of a run are never raised by its own code. *)
Lemma submit_each_raises `{Alpaca B E} (client : TradingClient)
      (orders : list Order) (b : B) (e : exn) :
  fst (submit_each client orders b) <> inl (Python e).
Proof.
  revert b. induction orders as [|o rest IH]; intros b; cbn; [discriminate|].
  destruct (submit_order client (request o) b) as [[x|reply] b1];
    [cbn; discriminate|].
  specialize (IH b1).
  destruct (submit_each client rest b1) as [[x|reports] b2]; cbn in *;
    [assumption|discriminate].
Qed.

Ltac run_orders :=
  unfold execute_trade, call;
  unfold mbind, T_bind, mret, T_ret; cbn; unfold request; cbn;
  repeat match goal with
         | |- context [submit_order ?c ?r ?b] =>
             destruct (submit_order c r b) as [[?|?] ?]; cbn
         end;
  rewrite ?app_nil_r; reflexivity.

(** A run with a client is the reconciliation, each of its orders
    handed to [execute_trade]. *)
Lemma session_run `{Alpaca B E} (use_shorts paper dry_run : bool)
      (s : Strategy.Signal)
      (alpaca_available : bool) (environ : gmap string string)
      (portfolio_value : Q) (positions : gmap string Position)
      (quotes : string -> Series) (b : B) :
  session use_shorts paper dry_run (Strategy.Sig s) alpaca_available environ
          portfolio_value positions quotes b =
    match get_alpaca_client alpaca_available environ paper with
    | inl _ => (inr [], b)
    | inr client =>
        match reconcile use_shorts s portfolio_value positions quotes with
        | Ok orders =>
            if dry_run then (inr (map dry_report orders), b)
            else submit_each client orders b
        | Raise e => (inl (Python e), b)
        end
    end.
Proof.
  unfold session.
  destruct (get_alpaca_client alpaca_available environ paper) as [e|client];
    [reflexivity|].
  destruct (target_cases use_shorts s) as [Hl|[[Hs ->]|Hc]].
  - rewrite (reconcile_long _ _ _ _ _ Hl), Hl.
    replace (String.eqb "LONG" "SHORT") with false by reflexivity.
    cbn [andb]. rewrite bool_decide_eq_true_2 by reflexivity.
    unfold mbind at 1, T_bind, lift.
    destruct (last_or IndexError (quotes TICKER_LONG)) as [p|]; [|reflexivity].
    cbn [mbind result_bind]. unfold mbind at 1, T_bind.
    destruct (calculate_target_position s portfolio_value p) as [t|];
      [|reflexivity].
    cbn [mbind result_bind].
    destruct (0 <? held positions TICKER_SHORT)%Z;
      destruct (0 <? t - held positions TICKER_LONG)%Z;
      try destruct (t - held positions TICKER_LONG <? 0)%Z;
      destruct dry_run; run_orders.
  - rewrite (reconcile_short _ _ _ _ Hs), Hs.
    replace (String.eqb "SHORT" "LONG") with false by reflexivity.
    replace (String.eqb "SHORT" "SHORT") with true by reflexivity.
    cbn [andb]. rewrite bool_decide_eq_false_2 by discriminate.
    rewrite bool_decide_eq_true_2 by reflexivity.
    unfold mbind at 1, T_bind, lift.
    destruct (last_or IndexError (quotes TICKER_SHORT)) as [p|]; [|reflexivity].
    cbn [mbind result_bind]. unfold mbind at 1, T_bind.
    destruct (calculate_target_position s portfolio_value p) as [t|];
      [|reflexivity].
    cbn [mbind result_bind].
    destruct (0 <? held positions TICKER_LONG)%Z;
      destruct (0 <? t - held positions TICKER_SHORT)%Z;
      destruct dry_run; run_orders.
  - rewrite (reconcile_cash _ _ _ _ _ Hc). destruct Hc as [Hl Hs].
    destruct (String.eqb_spec (Strategy.signal s) "LONG"); [contradiction|].
    assert (Hno : String.eqb (Strategy.signal s) "SHORT" && use_shorts = false).
    { destruct (String.eqb_spec (Strategy.signal s) "SHORT") as [Hx|Hx];
        [rewrite (Hs Hx)|]; reflexivity. }
    rewrite Hno. rewrite !bool_decide_eq_false_2 by discriminate.
    destruct (0 <? held positions TICKER_LONG)%Z;
      destruct (0 <? held positions TICKER_SHORT)%Z;
      destruct dry_run; run_orders.
Qed.

(** The orders of a CASH target are sales. *)
Lemma cash_target_liquidates_aux (use_shorts : bool) (signal : Strategy.Signal)
      (portfolio_value : Q) (positions : gmap string Position)
      (quotes : string -> Series) :
  targets_cash use_shorts signal ->
  exists orders,
    reconcile use_shorts signal portfolio_value positions quotes = Ok orders /\
    Forall (fun o => side o = sell) orders.
Proof.
  intros Hc. eexists. split; [apply (reconcile_cash _ _ _ _ _ Hc)|].
  destruct (Z.ltb_spec 0 (held positions TICKER_LONG));
    destruct (Z.ltb_spec 0 (held positions TICKER_SHORT));
    repeat constructor.
Qed.

End TradeFacts.

Module TradeExtras.
Import Examples MoreExamples.
Import Config Trade TradeSession TradeTerms TradeFacts.

(** X1: the orders of a reconciliation are well formed.  Whatever the
    signal, the holdings and the quotes, [reconcile] emits at most two
    orders, each for a positive quantity of one of the two funds, and
    never two orders for the same fund. *)
Theorem orders_are_well_formed
    (use_shorts : bool) (signal : Strategy.Signal) (portfolio_value : Q)
    (positions : gmap string Position) (quotes : string -> Series)
    (orders : list Order) :
  reconcile use_shorts signal portfolio_value positions quotes = Ok orders ->
  (length orders <= 2)%nat /\
  Forall (fun o => (0 < order_qty o)%Z /\
                   (symbol o = TICKER_LONG \/ symbol o = TICKER_SHORT)) orders /\
  NoDup (map symbol orders).
Proof.
  intros Hrun.
  destruct (target_cases use_shorts signal) as [Hl|[[Hs ->]|Hc]].
  - rewrite (reconcile_long _ _ _ _ _ Hl) in Hrun.
    destruct (last_or IndexError (quotes TICKER_LONG)) as [p|]; [|discriminate].
    cbn in Hrun.
    destruct (calculate_target_position signal portfolio_value p) as [t|];
      [|discriminate].
    cbn in Hrun. injection Hrun as <-.
    destruct (Z.ltb_spec 0 (held positions TICKER_SHORT));
      destruct (Z.ltb_spec 0 (t - held positions TICKER_LONG));
      try destruct (Z.ltb_spec (t - held positions TICKER_LONG) 0);
      cbn; (split; [lia|]);
      (split; [repeat constructor; cbn; try lia; auto|]);
      apply (bool_decide_unpack _); vm_compute; exact I.
  - rewrite (reconcile_short _ _ _ _ Hs) in Hrun.
    destruct (last_or IndexError (quotes TICKER_SHORT)) as [p|]; [|discriminate].
    cbn in Hrun.
    destruct (calculate_target_position signal portfolio_value p) as [t|];
      [|discriminate].
    cbn in Hrun. injection Hrun as <-.
    destruct (Z.ltb_spec 0 (held positions TICKER_LONG));
      destruct (Z.ltb_spec 0 (t - held positions TICKER_SHORT));
      cbn; (split; [lia|]);
      (split; [repeat constructor; cbn; try lia; auto|]);
      apply (bool_decide_unpack _); vm_compute; exact I.
  - rewrite (reconcile_cash _ _ _ _ _ Hc) in Hrun. injection Hrun as <-.
    destruct (Z.ltb_spec 0 (held positions TICKER_LONG));
      destruct (Z.ltb_spec 0 (held positions TICKER_SHORT));
      cbn; (split; [lia|]);
      (split; [repeat constructor; cbn; try lia; auto|]);
      apply (bool_decide_unpack _); vm_compute; exact I.
Qed.

Lemma orders_are_well_formed_witness :
  (length [mkOrder TICKER_SHORT 7 sell; mkOrder TICKER_LONG 60 buy] <= 2)%nat /\
  Forall (fun o => (0 < order_qty o)%Z /\
                   (symbol o = TICKER_LONG \/ symbol o = TICKER_SHORT))
         [mkOrder TICKER_SHORT 7 sell; mkOrder TICKER_LONG 60 buy] /\
  NoDup (map symbol [mkOrder TICKER_SHORT 7 sell; mkOrder TICKER_LONG 60 buy]).
Proof.
  apply (orders_are_well_formed true long_signal 1000 both_held quotes_at_10).
  vm_compute. reflexivity.
Defined.

(** X2: a CASH target liquidates and needs no price.  When the signal
    targets neither fund (it is not LONG, and not SHORT with shorting
    enabled), [reconcile] returns without raising, whatever the
    portfolio value and the quotes; every order is a sale, and a
    positive holding of either fund is sold entirely while a holding
    that is not positive is left as it is. *)
Theorem cash_target_liquidates
    (use_shorts : bool) (signal : Strategy.Signal) (portfolio_value : Q)
    (positions : gmap string Position) (quotes : string -> Series) :
  targets_cash use_shorts signal ->
  exists orders,
    reconcile use_shorts signal portfolio_value positions quotes = Ok orders /\
    (forall portfolio_value' quotes',
       reconcile use_shorts signal portfolio_value' positions quotes' = Ok orders) /\
    Forall (fun o => side o = sell) orders /\
    (held positions TICKER_LONG + net TICKER_LONG orders
     = Z.min (held positions TICKER_LONG) 0)%Z /\
    (held positions TICKER_SHORT + net TICKER_SHORT orders
     = Z.min (held positions TICKER_SHORT) 0)%Z.
Proof.
  intros Hc. eexists. split; [apply (reconcile_cash _ _ _ _ _ Hc)|].
  split; [intros; apply (reconcile_cash _ _ _ _ _ Hc)|].
  destruct (Z.ltb_spec 0 (held positions TICKER_LONG));
    destruct (Z.ltb_spec 0 (held positions TICKER_SHORT));
    cbn; (split; [repeat constructor|]); lia.
Qed.

Lemma cash_target_liquidates_witness :
  exists orders,
    reconcile false short_signal 1000 both_held quotes_at_10 = Ok orders /\
    (forall portfolio_value' quotes',
       reconcile false short_signal portfolio_value' both_held quotes' = Ok orders) /\
    Forall (fun o => side o = sell) orders /\
    (held both_held TICKER_LONG + net TICKER_LONG orders
     = Z.min (held both_held TICKER_LONG) 0)%Z /\
    (held both_held TICKER_SHORT + net TICKER_SHORT orders
     = Z.min (held both_held TICKER_SHORT) 0)%Z.
Proof.
  apply (cash_target_liquidates false short_signal 1000 both_held quotes_at_10).
  split; [vm_compute; discriminate|reflexivity].
Defined.



(** X4: a SHORT target only ever adds to the short fund.  With a SHORT
    signal and shorting enabled, no order of [reconcile] sells the
    short fund: a holding below the target is raised to it, a holding
    above the target stays as it is (the LONG branch sells such an
    excess, this branch has no sale). *)
Theorem short_target_never_sells_the_short_fund
    (signal : Strategy.Signal) (portfolio_value : Q)
    (positions : gmap string Position) (quotes : string -> Series)
    (orders : list Order) :
  Strategy.signal signal = "SHORT"%string ->
  reconcile true signal portfolio_value positions quotes = Ok orders ->
  Forall (fun o => symbol o = TICKER_SHORT -> side o = buy) orders /\
  exists (price : float) (target : Z),
    last (quotes TICKER_SHORT) = Some price /\
    calculate_target_position signal portfolio_value price = Ok target /\
    (held positions TICKER_SHORT + net TICKER_SHORT orders
     = Z.max (held positions TICKER_SHORT) target)%Z.
Proof.
  intros Hsig Hrun. rewrite (reconcile_short _ _ _ _ Hsig) in Hrun.
  unfold last_or in Hrun.
  destruct (last (quotes TICKER_SHORT)) as [p|] eqn:Hp; [|discriminate].
  cbn in Hrun.
  destruct (calculate_target_position signal portfolio_value p) as [t|] eqn:Ht;
    [|discriminate].
  cbn in Hrun. injection Hrun as <-.
  split.
  - destruct (Z.ltb_spec 0 (held positions TICKER_LONG));
      destruct (Z.ltb_spec 0 (t - held positions TICKER_SHORT));
      repeat constructor; cbn; intros; try discriminate; reflexivity.
  - exists p, t. split; [reflexivity|]. split; [exact Ht|].
    destruct (Z.ltb_spec 0 (held positions TICKER_LONG));
      destruct (Z.ltb_spec 0 (t - held positions TICKER_SHORT));
      cbn; lia.
Qed.

Lemma short_target_never_sells_the_short_fund_witness :
  Forall (fun o => symbol o = TICKER_SHORT -> side o = buy)
         [mkOrder TICKER_LONG 40 sell] /\
  exists (price : float) (target : Z),
    last (quotes_at_10 TICKER_SHORT) = Some price /\
    calculate_target_position short_signal 1000 price = Ok target /\
    (held (<[ TICKER_LONG := holding 40 ]> {[ TICKER_SHORT := holding 120 ]})
          TICKER_SHORT
     + net TICKER_SHORT [mkOrder TICKER_LONG 40 sell]
     = Z.max (held (<[ TICKER_LONG := holding 40 ]>
                      {[ TICKER_SHORT := holding 120 ]}) TICKER_SHORT)
             target)%Z.
Proof.
  apply (short_target_never_sells_the_short_fund
           short_signal 1000
           (<[ TICKER_LONG := holding 40 ]> {[ TICKER_SHORT := holding 120 ]})
           quotes_at_10);
    [reflexivity|vm_compute; reflexivity].
Defined.

(** X5: a price that cannot be used stops the reconciliation before
    any order.  When a fund is targeted, [reconcile] raises
    [IndexError] if no quote of the fund was fetched, [ValueError] if
    its last price is NaN, and [ZeroDivisionError] if it is zero; in
    none of these cases is there a list of orders. *)
Theorem unusable_price_raises
    (use_shorts : bool) (signal : Strategy.Signal) (portfolio_value : Q)
    (positions : gmap string Position) (quotes : string -> Series)
    (ticker : string) :
  targets use_shorts signal ticker ->
  (quotes ticker = [] ->
   reconcile use_shorts signal portfolio_value positions quotes
     = Raise IndexError) /\
  (last (quotes ticker) = Some NaN ->
   reconcile use_shorts signal portfolio_value positions quotes
     = Raise ValueError) /\
  (forall price, last (quotes ticker) = Some (Some price) -> price == 0 ->
   reconcile use_shorts signal portfolio_value positions quotes
     = Raise ZeroDivisionError).
Proof.
  intros [[-> Hsig]|[-> [Hsig ->]]].
  - rewrite (reconcile_long _ _ _ _ _ Hsig). unfold last_or.
    split; [intros ->; reflexivity|].
    split; [intros ->; reflexivity|].
    intros price -> Hz. cbn.
    unfold calculate_target_position, py_div_pure.
    apply Qeq_bool_iff in Hz. rewrite Hz. reflexivity.
  - rewrite (reconcile_short _ _ _ _ Hsig). unfold last_or.
    split; [intros ->; reflexivity|].
    split; [intros ->; reflexivity|].
    intros price -> Hz. cbn.
    unfold calculate_target_position, py_div_pure.
    apply Qeq_bool_iff in Hz. rewrite Hz. reflexivity.
Qed.

Lemma unusable_price_raises_witness :
  reconcile false long_signal 1000 both_held (fun _ => []) = Raise IndexError /\
  reconcile false long_signal 1000 both_held (fun _ => [Some 10; NaN])
    = Raise ValueError /\
  reconcile false long_signal 1000 both_held (fun _ => [Some 10; Some 0])
    = Raise ZeroDivisionError.
Proof.
  assert (Ht : targets false long_signal TICKER_LONG)
    by (left; split; reflexivity).
  split; [|split].
  - apply (proj1 (unusable_price_raises false long_signal 1000 both_held
                    (fun _ => []) TICKER_LONG Ht)).
    reflexivity.
  - apply (proj1 (proj2 (unusable_price_raises false long_signal 1000 both_held
                           (fun _ => [Some 10; NaN]) TICKER_LONG Ht))).
    reflexivity.
  - apply (proj2 (proj2 (unusable_price_raises false long_signal 1000 both_held
                           (fun _ => [Some 10; Some 0]) TICKER_LONG Ht)) 0);
      reflexivity.
Defined.

(** X6: as configured, a run never buys the short fund.  With the
    constant [USE_SHORTS] of [config.py], [run_strategy] emits no
    purchase of the short fund whatever the signal says; a SHORT
    signal is handled as CASH, without a price, and every order it
    causes is a sale. *)
Theorem configured_run_never_buys_the_short_fund
    (signal : Strategy.SignalDict) (portfolio_value : Q)
    (positions : gmap string Position) (quotes : string -> Series) :
  (forall orders,
     Trade.run_strategy signal portfolio_value positions quotes = Ok orders ->
     Forall (fun o => symbol o = TICKER_SHORT -> side o = sell) orders) /\
  (forall s, signal = Strategy.Sig s -> Strategy.signal s = "SHORT"%string ->
     exists orders,
       Trade.run_strategy signal portfolio_value positions quotes = Ok orders /\
       Forall (fun o => side o = sell) orders).
Proof.
  split.
  - intros orders Hrun. destruct signal as [n|s]; cbn in Hrun.
    { injection Hrun as <-. constructor. }
    destruct (target_cases USE_SHORTS s) as [Hl|[[_ Hu]|Hc]].
    + rewrite (reconcile_long _ _ _ _ _ Hl) in Hrun.
      destruct (last_or IndexError (quotes TICKER_LONG)) as [p|]; [|discriminate].
      cbn in Hrun.
      destruct (calculate_target_position s portfolio_value p) as [t|];
        [|discriminate].
      cbn in Hrun. injection Hrun as <-.
      destruct (Z.ltb_spec 0 (held positions TICKER_SHORT));
        destruct (Z.ltb_spec 0 (t - held positions TICKER_LONG));
        try destruct (Z.ltb_spec (t - held positions TICKER_LONG) 0);
        repeat constructor; cbn; intros; try discriminate; reflexivity.
    + discriminate.
    + rewrite (reconcile_cash _ _ _ _ _ Hc) in Hrun. injection Hrun as <-.
      destruct (Z.ltb_spec 0 (held positions TICKER_LONG));
        destruct (Z.ltb_spec 0 (held positions TICKER_SHORT));
        repeat constructor.
  - intros s -> Hs. cbn.
    assert (Hc : targets_cash USE_SHORTS s).
    { split; [rewrite Hs; discriminate|reflexivity]. }
    destruct (cash_target_liquidates_aux USE_SHORTS s portfolio_value positions
                quotes Hc) as (orders & Hrun & Hsell).
    exists orders. split; assumption.
Qed.

(** X7: a live run submits the reconciled orders in turn and stops at
    the first refusal; a dry run only reports them.  With the
    broker's library installed and both credentials set: a dry run
    returns a DRY_RUN report for each order of the reconciliation, in
    their order, and leaves the broker as it was.  A live run calls
    [submit_order] for these orders one by one and in their order,
    each as a market order for the day, every call on the state in
    which the one before left the broker; when no call raises, the
    reports are those of the broker's replies.  A call that raises
    ends the run with the broker's exception: the orders before it
    stay submitted and the ones after it are never sent, so a refused
    second order leaves the first one in place. *)
Theorem run_submits_the_reconciled_orders `{Alpaca B E}
    (use_shorts paper : bool) (s : Strategy.Signal)
    (environ : gmap string string) (client : TradingClient)
    (portfolio_value : Q) (positions : gmap string Position)
    (quotes : string -> Series) (orders : list Order) (b : B) :
  get_alpaca_client true environ paper = inr client ->
  reconcile use_shorts s portfolio_value positions quotes = Ok orders ->
  let dry :=
    session use_shorts paper true (Strategy.Sig s) true environ
            portfolio_value positions quotes b in
  let live :=
    session use_shorts paper false (Strategy.Sig s) true environ
            portfolio_value positions quotes b in
  dry = (inr (map dry_report orders), b) /\
  live = submit_each client orders b /\
  (forall first rest e b1,
     orders = first :: rest ->
     submit_order client (request first) b = (inl e, b1) ->
     live = (inl (Library e), b1)) /\
  (forall first second rest reply b1 e b2,
     orders = first :: second :: rest ->
     submit_order client (request first) b = (inr reply, b1) ->
     submit_order client (request second) b1 = (inl e, b2) ->
     live = (inl (Library e), b2)) /\
  (forall first second reply1 b1 reply2 b2,
     orders = [first; second] ->
     submit_order client (request first) b = (inr reply1, b1) ->
     submit_order client (request second) b1 = (inr reply2, b2) ->
     live = (inr [submitted reply1; submitted reply2], b2)).
Proof.
  intros Hc Hr dry live. subst dry live.
  rewrite !session_run, Hc, Hr.
  split; [reflexivity|]. split; [reflexivity|]. split; [|split].
  - intros first rest e b1 -> Hfirst. cbn. rewrite Hfirst. reflexivity.
  - intros first second rest reply b1 e b2 -> Hfirst Hsecond. cbn.
    rewrite Hfirst, Hsecond. reflexivity.
  - intros first second reply1 b1 reply2 b2 -> Hfirst Hsecond. cbn.
    rewrite Hfirst, Hsecond. reflexivity.
Qed.

Lemma run_submits_the_reconciled_orders_witness :
  @session _ _ (example_broker 50) true true true (Strategy.Sig long_signal)
           true credentials 1000 both_held quotes_at_10 []
    = (inr (map dry_report
                [mkOrder TICKER_SHORT 7 sell; mkOrder TICKER_LONG 60 buy]), []) /\
  @session _ _ (example_broker 50) true true false (Strategy.Sig long_signal)
           true credentials 1000 both_held quotes_at_10 []
    = @submit_each _ _ (example_broker 50) (mkTradingClient "key" "secret" true)
                   [mkOrder TICKER_SHORT 7 sell; mkOrder TICKER_LONG 60 buy] [] /\
  @session _ _ (example_broker 50) true true false (Strategy.Sig long_signal)
           true credentials 1000 both_held quotes_at_10 []
    = (inl (Library "insufficient buying power"%string),
       [mkMarketOrderRequest TICKER_SHORT 7 SELL DAY]).
Proof.
  destruct (@run_submits_the_reconciled_orders _ _ (example_broker 50)
              true true long_signal credentials
              (mkTradingClient "key" "secret" true) 1000 both_held quotes_at_10
              [mkOrder TICKER_SHORT 7 sell; mkOrder TICKER_LONG 60 buy] []
              eq_refl ltac:(vm_compute; reflexivity))
    as (Hdry & Hlive & _ & Hsecond & _).
  split; [exact Hdry|]. split; [exact Hlive|].
  eapply Hsecond; [reflexivity| |]; vm_compute; reflexivity.
Defined.

(** X8: a dry run, a run that fails on a price and a run without a
    client submit nothing.  Whatever the signal, the holdings, the
    quotes and the broker: with [dry_run] on, the broker is after
    [run_strategy] in the state it was in before; so it is when the
    run raises an exception of its own code (every price is read and
    every target computed before the first order), an exception of
    the broker's library being the only one that can leave a run
    with a part of its orders submitted; and when the signal is an
    error, the broker's library is missing, or one of the two
    credentials is unset or empty, the run returns without any
    report and with the broker untouched. *)
Theorem dry_or_failed_run_submits_nothing `{Alpaca B E}
    (use_shorts paper dry_run : bool) (signal : Strategy.SignalDict)
    (alpaca_available : bool) (environ : gmap string string)
    (portfolio_value : Q) (positions : gmap string Position)
    (quotes : string -> Series) (b : B) :
  let run := session use_shorts paper dry_run signal alpaca_available environ
                     portfolio_value positions quotes b in
  (dry_run = true -> snd run = b) /\
  (forall e, fst run = inl (Python e) -> snd run = b) /\
  (forall s e client,
     signal = Strategy.Sig s ->
     get_alpaca_client alpaca_available environ paper = inr client ->
     reconcile use_shorts s portfolio_value positions quotes = Raise e ->
     run = (inl (Python e), b)) /\
  ((exists n, signal = Strategy.Error n) -> run = (inr [], b)) /\
  (alpaca_available = false \/
   falsy (environ !! "ALPACA_API_KEY"%string) = true \/
   falsy (environ !! "ALPACA_SECRET_KEY"%string) = true ->
   run = (inr [], b)).
Proof.
  cbv zeta.
  assert (Hclient :
            alpaca_available = false \/
            falsy (environ !! "ALPACA_API_KEY"%string) = true \/
            falsy (environ !! "ALPACA_SECRET_KEY"%string) = true ->
            exists e, get_alpaca_client alpaca_available environ paper = inl e).
  { unfold get_alpaca_client. intros [->|[Hk|Hk]].
    - eexists. reflexivity.
    - destruct alpaca_available; cbn [negb]; [|eexists; reflexivity].
      rewrite Hk. eexists. reflexivity.
    - destruct alpaca_available; cbn [negb]; [|eexists; reflexivity].
      rewrite Hk, orb_true_r. eexists. reflexivity. }
  destruct signal as [n|s].
  { cbn. repeat split; try reflexivity; intros; discriminate. }
  rewrite session_run.
  destruct (get_alpaca_client alpaca_available environ paper) as [x|client] eqn:Hc.
  { cbn. repeat split; try reflexivity; intros; discriminate. }
  destruct (reconcile use_shorts s portfolio_value positions quotes)
    as [orders|e] eqn:Hr.
  - split; [intros ->; reflexivity|].
    split.
    { destruct dry_run; [reflexivity|]. intros e He.
      destruct (submit_each_raises client orders b e He). }
    split; [intros s' e client' Hs _ Hr'; injection Hs as <-; congruence|].
    split; [intros [n Hn]; discriminate|].
    intros Hno. destruct (Hclient Hno) as [x Hx]. discriminate.
  - split; [reflexivity|]. split; [reflexivity|].
    split; [intros s' e' client' Hs _ Hr'; injection Hs as <-; congruence|].
    split; [intros [n Hn]; discriminate|].
    intros Hno. destruct (Hclient Hno) as [x Hx]. discriminate.
Qed.

(** The runs of the witness in the other modes: a dry run, a missing
    credential, a price of zero, and a broker that books both
    orders. *)
Example session_runs :
  @session _ _ (example_broker 50) true true true (Strategy.Sig long_signal)
           true credentials 1000 both_held quotes_at_10 []
    = (inr [DRY_RUN TICKER_SHORT 7 sell; DRY_RUN TICKER_LONG 60 buy], []) /\
  @session _ _ (example_broker 50) true true false (Strategy.Sig long_signal)
           true (<[ "ALPACA_SECRET_KEY"%string := EmptyString ]> credentials)
           1000 both_held quotes_at_10 []
    = (inr [], []) /\
  @session _ _ (example_broker 50) true true false (Strategy.Sig long_signal)
           true credentials 1000 both_held (fun _ => [Some 0]) []
    = (inl (Python ZeroDivisionError), []) /\
  @session _ _ (example_broker 100) true true false (Strategy.Sig long_signal)
           true credentials 1000 both_held quotes_at_10 []
    = (inr [SUBMITTED "order for SQQQ" TICKER_SHORT 7 SELL MARKET;
            SUBMITTED "order for TQQQ" TICKER_LONG 60 BUY MARKET],
       [mkMarketOrderRequest TICKER_SHORT 7 SELL DAY;
        mkMarketOrderRequest TICKER_LONG 60 BUY DAY]).
Proof. repeat split; vm_compute; reflexivity. Qed.

End TradeExtras.
(* ================================================================== *)
(** * Further properties of the single moving-average signal *)

Module SingleMaFacts.
Import Config Strategy StrategyFacts.

(** What goes together in a signal of [get_signal]. *)
Lemma sma_get_signal_outcome (h h' : heap) (data : loc) (p : nat) (s : Signal) :
  get_signal data p h = (Ok (Sig s), h') ->
  ticker s = TICKER_INDEX /\ ma_period s = p /\
  (signal s, position s, allocation s) =
    (if above_ma s then ("LONG"%string, TICKER_LONG, 1)
     else ("CASH"%string, "CASH"%string, 0)).
Proof.
  intros H. unfold get_signal in H.
  apply bind_Ok_inv in H as (n & h1 & _ & H).
  destruct (n <? p)%nat; [discriminate|].
  minv H.
  match type of H with
  | context [fgt ?x ?y] => destruct (fgt x y) eqn:Habove
  end; minv H; injection H as <- <-; simpl;
    rewrite ?Habove; repeat split; reflexivity.
Qed.

(** The length of a column of a well-formed frame. *)
Lemma wf_getitem_length (df : DataFrame) (k : string) (c : Series) :
  wf_frame df -> getitem df k = Some c -> length c = length (index df).
Proof.
  intros [_ Hall] Hc. unfold getitem in Hc.
  destruct (find_label k (level0 (columns df))); [|discriminate].
  rewrite Forall_lookup in Hall. eapply Hall; eauto.
Qed.

(** The window that ends at the last row. *)
Lemma window_at (w i : nat) (qs : list Q) :
  (i < length qs)%nat -> (w <= S i)%nat ->
  window w i (map Some qs) = map Some (take w (drop (S i - w) qs)).
Proof.
  intros Hi Hw. unfold window.
  rewrite firstn_map, skipn_map. f_equal.
  rewrite take_drop_commute. f_equal. f_equal. lia.
Qed.

(** The moving average at a row that has a whole window. *)
Lemma rolling_mean_at (w i : nat) (qs : list Q) :
  (i < length qs)%nat -> (1 <= w)%nat -> (w <= S i)%nat ->
  rolling_mean w (map Some qs) !! i
    = Some (Some (Qsum (take w (drop (S i - w) qs)) / of_nat w)).
Proof.
  intros Hi H1 Hw. unfold rolling_mean.
  rewrite rolling_lookup by (now rewrite length_map).
  rewrite length_window by (now rewrite length_map).
  destruct (Nat.ltb_spec (Nat.min w (S i)) w) as [E|_]; [lia|].
  rewrite (window_at _ _ _ Hi Hw), observations_Some.
  unfold mean, fdiv.
  assert (Hl : length (take w (drop (S i - w) qs)) = w).
  { rewrite length_take, length_drop. lia. }
  rewrite Hl.
  destruct (Qeq_bool (of_nat w) 0) eqn:E; [|reflexivity].
  apply Qeq_bool_iff in E. pose proof (of_nat_pos w ltac:(lia)). lra.
Qed.

(** A moving average over positive closes is positive. *)
Lemma rolling_mean_pos (w i : nat) (qs : list Q) (m : Q) :
  Forall (fun x => 0 < x) qs ->
  rolling_mean w (map Some qs) !! i = Some (Some m) -> 0 < m.
Proof.
  intros Hpos Hm.
  assert (Hi : (i < length qs)%nat).
  { apply lookup_lt_Some in Hm. unfold rolling_mean in Hm.
    now rewrite length_rolling, length_map in Hm. }
  unfold rolling_mean in Hm.
  rewrite rolling_lookup in Hm by (now rewrite length_map).
  injection Hm as Hm.
  destruct (length (window w i (map Some qs)) <? w)%nat; [discriminate|].
  unfold window in Hm. rewrite firstn_map, skipn_map, observations_Some in Hm.
  set (obs := drop (S i - w) (take (S i) qs)) in *.
  assert (Hne : obs <> []).
  { intros E. rewrite E in Hm. unfold mean, fdiv in Hm. simpl in Hm. discriminate. }
  assert (Hobs : Forall (fun x => 0 < x) obs).
  { unfold obs. apply Forall_drop, Forall_take. assumption. }
  destruct (mean_pos obs Hne Hobs) as (m' & Hm' & Hp). congruence.
Qed.

End SingleMaFacts.

Module SingleMaExtras.
Import Examples MoreExamples.
Import Config Strategy StrategyFacts SingleMaFacts.

(** X9: the signal is the comparison of the last close with the mean
    of the last [ma_period] closes.  On a well-formed frame whose Close
    column holds at least [ma_period] and at least two positive
    closes, [get_signal] returns a signal (it does not raise), leaves
    the caller's frame as it was, reports the last close and the mean
    rounded to two decimals, and says LONG exactly when the last close
    is strictly above that mean, CASH otherwise (a close equal to the
    mean is CASH). *)
Theorem signal_is_long_iff_close_above_mean
    (h : heap) (data : loc) (df : DataFrame) (qs : list Q) (p : nat) :
  h !! data = Some df -> wf_frame df ->
  getitem df "Close" = Some (map Some qs) ->
  Forall (fun x => 0 < x) qs ->
  (1 <= p)%nat -> (p <= length qs)%nat -> (2 <= length qs)%nat ->
  exists (s : Signal) (h' : heap) (c : Q),
    get_signal data p h = (Ok (Sig s), h') /\
    h' !! data = Some df /\
    last qs = Some c /\
    price s = Some (py_round c 2) /\
    sma s = Some (py_round (Qsum (drop (length qs - p) qs) / of_nat p) 2) /\
    (signal s = "LONG"%string
     <-> Qsum (drop (length qs - p) qs) / of_nat p < c) /\
    (signal s = "CASH"%string
     <-> c <= Qsum (drop (length qs - p) qs) / of_nat p).
Proof.
  intros Hd Hwf Hclose Hpos H1 Hp H2.
  pose proof (wf_getitem_length _ _ _ Hwf Hclose) as Hlen.
  rewrite length_map in Hlen.
  set (n := length qs) in *.
  remember (Qsum (drop (n - p) qs) / of_nat p) as m eqn:Em.
  destruct (lookup_lt_is_Some_2 qs (n - 1)%nat ltac:(lia)) as [c Hc].
  destruct (lookup_lt_is_Some_2 qs (n - 2)%nat ltac:(lia)) as [c' Hc'].
  assert (Hm : rolling_mean p (map Some qs) !! (n - 1)%nat = Some (Some m)).
  { rewrite rolling_mean_at by (fold n; lia).
    replace (S (n - 1) - p)%nat with (n - p)%nat by lia.
    rewrite take_ge by (rewrite length_drop; fold n; lia). now rewrite Em. }
  assert (Hmpos : 0 < m) by (eapply rolling_mean_pos; eassumption).
  destruct (lookup_lt_is_Some_2 (rolling_mean p (map Some qs)) (n - 2)%nat)
    as [ps Hps].
  { unfold rolling_mean. rewrite length_rolling, length_map. fold n. lia. }
  destruct (sma_get_signal_run h data p df (map Some qs) (Some c) (Some c')
              (Some m) ps Hd Hwf Hclose)
    as (d & dist & h' & Hrun).
  { rewrite <- Hlen. assumption. }
  { rewrite <- Hlen. assumption. }
  { rewrite <- Hlen, list_lookup_fmap, Hc. reflexivity. }
  { rewrite <- Hlen, list_lookup_fmap, Hc'. reflexivity. }
  { rewrite <- Hlen. assumption. }
  { rewrite <- Hlen. assumption. }
  { intros b [= <-]. lra. }
  eexists _, h', c. split; [exact Hrun|].
  split.
  { eapply frame_ok_lookup;
      [apply (sma_get_signal_frame_ok (dom h))|reflexivity|exact Hrun|exact Hd]. }
  split.
  { rewrite last_lookup. fold n.
    replace (Nat.pred n) with (n - 1)%nat by lia. assumption. }
  simpl. split; [reflexivity|]. split; [reflexivity|].
  destruct (Qlt_bool m c) eqn:E.
  - apply Qlt_bool_iff in E. split; split; intros; try reflexivity;
      try discriminate; try assumption. lra.
  - apply Qlt_bool_false_iff in E.
    split; split; intros; try reflexivity; try discriminate; try assumption.
    lra.
Qed.

Lemma signal_is_long_iff_close_above_mean_witness :
  exists (s : Signal) (h' : heap) (c : Q),
    get_signal 0%nat 2 (store1 (price_frame [100; 101; 103]))
      = (Ok (Sig s), h') /\
    h' !! 0%nat = Some (price_frame [100; 101; 103]) /\
    last [100; 101; 103] = Some c /\
    price s = Some (py_round c 2) /\
    sma s = Some (py_round (Qsum (drop (length [100; 101; 103] - 2)
                                       [100; 101; 103]) / of_nat 2) 2) /\
    (signal s = "LONG"%string
     <-> Qsum (drop (length [100; 101; 103] - 2) [100; 101; 103]) / of_nat 2 < c) /\
    (signal s = "CASH"%string
     <-> c <= Qsum (drop (length [100; 101; 103] - 2) [100; 101; 103]) / of_nat 2).
Proof.
  apply (signal_is_long_iff_close_above_mean
           (store1 (price_frame [100; 101; 103])) 0%nat
           (price_frame [100; 101; 103]) [100; 101; 103] 2).
  - reflexivity.
  - split; [reflexivity|repeat constructor].
  - reflexivity.
  - repeat constructor.
  - lia.
  - simpl. lia.
  - simpl. lia.
Defined.

(** X10: a frame with fewer than two rows that passes the length guard
    raises [IndexError].  When the frame has a Close column and at
    least [ma_period] rows but fewer than two (one row with
    [ma_period] at most 1, or no row with [ma_period] 0), [get_signal]
    does not answer with its error dictionary: reading the last or the
    row before the last raises [IndexError].  The caller's frame is
    unchanged. *)
Theorem too_few_rows_raise_IndexError
    (h : heap) (data : loc) (df : DataFrame) (closes : Series) (p : nat) :
  h !! data = Some df -> wf_frame df ->
  getitem df "Close" = Some closes ->
  (p <= length (index df))%nat -> (length (index df) < 2)%nat ->
  exists h' : heap,
    get_signal data p h = (Raise IndexError, h') /\
    h' !! data = Some df.
Proof.
  intros Hd Hwf Hclose Hp Hlt.
  pose proof (wf_getitem_length _ _ _ Hwf Hclose) as Hlen.
  set (df' := setitem df "SMA" (rolling_mean p closes)).
  set (l := fresh (dom h)).
  assert (Hrun : get_signal data p h
                 = (Raise IndexError, <[l := df']> (<[l := df]> h))).
  { unfold get_signal.
    mrun df_len_run.
    destruct (Nat.ltb_spec (length (index df)) p) as [Hlt'|_]; [lia|].
    erewrite bind_run; [|apply df_copy_run; eassumption]. fold l.
    erewrite bind_run;
      [|unfold calculate_sma;
        erewrite bind_run;
          [reflexivity
          |eapply df_getitem_run; [apply lookup_insert_eq|eassumption]]].
    erewrite bind_run; [|eapply df_setitem_run; apply lookup_insert_eq].
    fold df'.
    assert (Hl' : (<[l := df']> (<[l := df]> h)) !! l = Some df')
      by apply lookup_insert_eq.
    assert (Hi : length (index df') = length (index df))
      by (unfold df'; now rewrite index_setitem).
    destruct (index df) as [|d [|d' rest]] eqn:Hidx; [| |simpl in Hlt; lia].
    - erewrite bind_raise; [reflexivity|].
      eapply df_iloc_IndexError; [eassumption|].
      unfold iloc. rewrite Hi. reflexivity.
    - assert (Hwf' : wf_frame df').
      { apply wf_setitem; [assumption|].
        unfold rolling_mean. rewrite length_rolling, Hlen, Hidx. reflexivity. }
      assert (Hc' : getitem df' "Close" = Some closes).
      { unfold df'.
        rewrite getitem_setitem_ne; [assumption|assumption|discriminate]. }
      destruct closes as [|c [|c' closes']]; try discriminate Hlen.
      destruct (iloc_getitem df' (-1) 0%nat "Close" [c] c)
        as (latest & Hlatest & _ & _);
        [rewrite Hi; reflexivity|assumption|reflexivity|].
      erewrite bind_run; [|eapply df_iloc_run; eassumption].
      erewrite bind_raise; [reflexivity|].
      eapply df_iloc_IndexError; [eassumption|].
      unfold iloc. rewrite Hi. reflexivity. }
  eexists. split; [exact Hrun|].
  eapply frame_ok_lookup;
    [apply (sma_get_signal_frame_ok (dom h))|reflexivity|exact Hrun|exact Hd].
Qed.

Lemma too_few_rows_raise_IndexError_witness :
  exists h' : heap,
    get_signal 0%nat 1 (store1 (price_frame [100])) = (Raise IndexError, h') /\
    h' !! 0%nat = Some (price_frame [100]).
Proof.
  apply (too_few_rows_raise_IndexError
           (store1 (price_frame [100])) 0%nat (price_frame [100]) [Some 100] 1).
  - reflexivity.
  - split; [reflexivity|repeat constructor].
  - reflexivity.
  - simpl. lia.
  - simpl. lia.
Defined.

(** X11: a signal of the single-MA generator never targets the short
    fund.  Every signal that [get_signal] returns is LONG with the
    long fund and allocation 1 when the close is above the average,
    and CASH with allocation 0 otherwise; it is never SHORT.  So the
    reconciliation of [trade.py], fed with such a signal, buys no
    share of the short fund whether shorting is enabled or not. *)
Theorem single_ma_signal_never_targets_the_short_fund
    (h h' : heap) (data : loc) (p : nat) (s : Signal) :
  get_signal data p h = (Ok (Sig s), h') ->
  ((above_ma s = true /\ signal s = "LONG"%string /\
    position s = TICKER_LONG /\ allocation s = 1) \/
   (above_ma s = false /\ signal s = "CASH"%string /\
    position s = "CASH"%string /\ allocation s = 0)) /\
  forall (use_shorts : bool) (portfolio_value : Q)
         (positions : gmap string Trade.Position) (quotes : string -> Series)
         (orders : list Trade.Order),
    Trade.reconcile use_shorts s portfolio_value positions quotes = Ok orders ->
    Forall (fun o => Trade.symbol o = TICKER_SHORT -> Trade.side o = Trade.sell)
           orders.
Proof.
  intros Hrun.
  destruct (sma_get_signal_outcome _ _ _ _ _ Hrun) as (_ & _ & Hout).
  assert (Hcases :
            (above_ma s = true /\ signal s = "LONG"%string /\
             position s = TICKER_LONG /\ allocation s = 1) \/
            (above_ma s = false /\ signal s = "CASH"%string /\
             position s = "CASH"%string /\ allocation s = 0)).
  { destruct (above_ma s); injection Hout as -> -> ->; [left|right];
      repeat split; reflexivity. }
  split; [exact Hcases|].
  intros use_shorts pv positions quotes orders Hrec.
  destruct Hcases as [(_ & Hl & _)|(_ & Hc & _)].
  - rewrite (TradeFacts.reconcile_long _ _ _ _ _ Hl) in Hrec.
    destruct (last_or IndexError (quotes TICKER_LONG)) as [q|]; [|discriminate].
    cbn in Hrec.
    destruct (Trade.calculate_target_position s pv q) as [t|]; [|discriminate].
    cbn in Hrec. injection Hrec as <-.
    destruct (Z.ltb_spec 0 (Trade.held positions TICKER_SHORT));
      destruct (Z.ltb_spec 0 (t - Trade.held positions TICKER_LONG));
      try destruct (Z.ltb_spec (t - Trade.held positions TICKER_LONG) 0);
      repeat constructor; cbn; intros; try discriminate; reflexivity.
  - assert (Hcash : TradeTerms.targets_cash use_shorts s).
    { split; rewrite Hc; [discriminate|intros; discriminate]. }
    rewrite (TradeFacts.reconcile_cash _ _ _ _ _ Hcash) in Hrec.
    injection Hrec as <-.
    destruct (Z.ltb_spec 0 (Trade.held positions TICKER_LONG));
      destruct (Z.ltb_spec 0 (Trade.held positions TICKER_SHORT));
      repeat constructor.
Qed.

Lemma single_ma_signal_never_targets_the_short_fund_witness :
  exists (s : Signal) (h' : heap),
    get_signal 0%nat 2 (store1 (price_frame [100; 101; 103]))
      = (Ok (Sig s), h') /\
    ((above_ma s = true /\ signal s = "LONG"%string /\
      position s = TICKER_LONG /\ allocation s = 1) \/
     (above_ma s = false /\ signal s = "CASH"%string /\
      position s = "CASH"%string /\ allocation s = 0)) /\
    forall (use_shorts : bool) (portfolio_value : Q)
           (positions : gmap string Trade.Position) (quotes : string -> Series)
           (orders : list Trade.Order),
      Trade.reconcile use_shorts s portfolio_value positions quotes = Ok orders ->
      Forall (fun o => Trade.symbol o = TICKER_SHORT -> Trade.side o = Trade.sell)
             orders.
Proof.
  eexists _, _. split; [vm_compute; reflexivity|].
  eapply (single_ma_signal_never_targets_the_short_fund
            (store1 (price_frame [100; 101; 103])) _ 0%nat 2).
  vm_compute. reflexivity.
Defined.

End SingleMaExtras.
(* ================================================================== *)
(** * Properties of the position sizing of [strategy.py] *)

Module PositionSizeExtras.
Import Examples MoreExamples.
Import Config Strategy PositionSize SingleMaFacts.

(** X12: sizing without a price.  [get_position_size] hands an error
    signal back as it is; for a signal of [get_signal] whose close is
    not above the average (position CASH) it holds no share and a
    position value of 0 whatever the portfolio value, without fetching
    any price; and when the price provider returns an empty frame for
    the position's ticker, the answer is the error dictionary and not
    an exception. *)
Theorem sizing_without_a_price
    (get_data : string -> string -> DataFrame) (portfolio_value : Q) :
  (forall n, get_position_size get_data (Error n) portfolio_value
             = Ok (Unsized n)) /\
  (forall h h' data p s,
     get_signal data p h = (Ok (Sig s), h') -> above_ma s = false ->
     get_position_size get_data (Sig s) portfolio_value
       = Ok (Sized s (mkSizing portfolio_value 0 None 0%Z HOLD_CASH))) /\
  (forall s, position s <> "CASH"%string ->
     empty (get_data (position s) "5d") = true ->
     get_position_size get_data (Sig s) portfolio_value
       = Ok (FetchError (position s))).
Proof.
  split; [reflexivity|]. split.
  - intros h h' data p s Hrun Hbelow.
    destruct (sma_get_signal_outcome _ _ _ _ _ Hrun) as (_ & _ & Hout).
    rewrite Hbelow in Hout. injection Hout as Hs Hp Ha.
    unfold get_position_size. rewrite Hp. reflexivity.
  - intros s Hp He. unfold get_position_size.
    destruct (String.eqb_spec (position s) "CASH"); [contradiction|].
    rewrite He. reflexivity.
Qed.



Example sizing_runs :
  get_position_size (fun _ _ => price_frame [9; 10]) (Sig long_signal) 1005
    = Ok (Sized long_signal
            (mkSizing 1005 (py_round (1005 * 1) 2) (Some (fround (Some 10) 2))
                      100 (HOLD 100 TICKER_LONG))) /\
  get_position_size (fun _ _ => price_frame []) (Sig long_signal) 1005
    = Ok (FetchError TICKER_LONG) /\
  get_position_size (fun _ _ => price_frame [0]) (Sig long_signal) 1005
    = Raise ZeroDivisionError.
Proof. repeat split; vm_compute; reflexivity. Qed.

End PositionSizeExtras.
(* ================================================================== *)
(** * Further properties of the dual moving-average signal *)

Module DualMaFacts.
Import SoxlStrategy SoxlStrategyFacts SingleMaFacts.

Section WithFloatLib.
Context `{FloatLib}.

(** What goes together in a signal of [get_signal]. *)
Lemma dual_get_signal_outcome (h h' : heap) (data : loc) (s : Signal) :
  get_signal data h = (Ok (Sig s), h') ->
  exists price sma_200 sma_50 roc volatility trend_strength allocation : float,
    signal_logic price sma_200 sma_50 roc volatility trend_strength
      = (signal s, position s, allocation) /\
    SoxlStrategy.allocation s = fround allocation 2 /\
    above_200_ma s = fgt price sma_200 /\
    above_50_ma s = fgt price sma_50 /\
    regime s = get_market_regime (fgt price sma_200) (fgt price sma_50) roc.
Proof.
  intros Hrun. unfold get_signal in Hrun.
  apply bind_Ok_inv in Hrun as (df & h1 & _ & Hrun).
  apply bind_Ok_inv in Hrun as (n & h2 & _ & Hrun).
  destruct (n <? MA_LONG)%nat; [discriminate|].
  minv Hrun.
  destruct (signal_logic a1 a2 a3 a4 a5 a6) as [[sg ps] al] eqn:Hlogic.
  minv Hrun. injection Hrun as <- <-. simpl.
  exists a1, a2, a3, a4, a5, a6, al. repeat split; assumption || reflexivity.
Qed.


Lemma length_pct_change (n : nat) (s : Series) :
  length (pct_change n s) = length s.
Proof.
  unfold pct_change, shift.
  rewrite length_zip_with, length_take, length_app, length_replicate. lia.
Qed.


End WithFloatLib.

End DualMaFacts.

Module DualMaExtras.
Import Examples MoreExamples.
Import SoxlStrategy SoxlStrategyFacts SingleMaFacts DualMaFacts.

(** X14: the regime never contradicts the signal.  In every signal that
    [get_signal] returns, LONG comes with the long fund, a close above
    both averages and the regime UPTREND or STRONG_UPTREND; SHORT
    comes with the short fund, a close above neither average and the
    regime DOWNTREND or STRONG_DOWNTREND; anything else is CASH with
    an allocation of 0.  So a weakening trend or a transition is
    always CASH. *)
Theorem regime_agrees_with_signal `{FloatLib}
    (h h' : heap) (data : loc) (s : Signal) :
  get_signal data h = (Ok (Sig s), h') ->
  (signal s = "LONG"%string /\ position s = TICKER_LONG /\
   above_200_ma s = true /\ above_50_ma s = true /\
   (regime s = STRONG_UPTREND \/ regime s = UPTREND)) \/
  (signal s = "SHORT"%string /\ position s = TICKER_SHORT /\
   above_200_ma s = false /\ above_50_ma s = false /\
   (regime s = STRONG_DOWNTREND \/ regime s = DOWNTREND)) \/
  (signal s = "CASH"%string /\ position s = "CASH"%string /\
   exists a, allocation s = Some a /\ a == 0).
Proof.
  intros Hrun.
  destruct (dual_get_signal_outcome _ _ _ _ Hrun)
    as (price & s200 & s50 & roc & vol & ts & al & Hlogic & Hal & H200 & H50 & Hreg).
  unfold signal_logic in Hlogic.
  destruct (fgt price s200 && fgt price s50 && fgt roc (Some ROC_THRESHOLD))
    eqn:Elong.
  - left. injection Hlogic as <- <- _.
    apply andb_prop in Elong as [E1 Eroc]. apply andb_prop in E1 as [E200 E50].
    rewrite H200, H50, Hreg, E200, E50.
    repeat split; try reflexivity.
    apply fgt_true in Eroc as (r & t & -> & [= <-] & Hr).
    unfold get_market_regime. cbn [andb].
    destruct (fgt (Some r) (Some 0.05)); [now left|].
    assert (E0 : fgt (Some r) (Some 0) = true).
    { apply fgt_Some. unfold ROC_THRESHOLD in Hr. lra. }
    rewrite E0. now right.
  - destruct (flt price s200 && flt price s50
              && flt roc (Some (- ROC_THRESHOLD))) eqn:Eshort.
    + right. left. injection Hlogic as <- <- _.
      apply andb_prop in Eshort as [E1 Eroc].
      apply andb_prop in E1 as [E200 E50].
      assert (N200 : fgt price s200 = false).
      { pose proof (fgt_flt_exclusive price s200) as X.
        rewrite E200, andb_true_r in X. exact X. }
      assert (N50 : fgt price s50 = false).
      { pose proof (fgt_flt_exclusive price s50) as X.
        rewrite E50, andb_true_r in X. exact X. }
      rewrite H200, H50, Hreg, N200, N50.
      repeat split; try reflexivity.
      apply flt_true in Eroc as (r & t & -> & [= <-] & Hr).
      unfold get_market_regime. cbn [andb negb].
      destruct (flt (Some r) (Some (- 0.05))); [now left|].
      assert (E0 : flt (Some r) (Some 0) = true).
      { apply flt_Some. unfold ROC_THRESHOLD in Hr. lra. }
      rewrite E0. now right.
    + right. right. injection Hlogic as <- <- <-.
      repeat split; try reflexivity.
      rewrite Hal. eexists. split; [reflexivity|]. vm_compute. reflexivity.
Qed.

Lemma regime_agrees_with_signal_witness :
  exists (s : Signal) (h' : heap),
    @get_signal example_floatlib 0%nat
      (store1 (price_frame (replicate 199 1 ++ [2]))) = (Ok (Sig s), h') /\
    ((signal s = "LONG"%string /\ position s = TICKER_LONG /\
      above_200_ma s = true /\ above_50_ma s = true /\
      (regime s = STRONG_UPTREND \/ regime s = UPTREND)) \/
     (signal s = "SHORT"%string /\ position s = TICKER_SHORT /\
      above_200_ma s = false /\ above_50_ma s = false /\
      (regime s = STRONG_DOWNTREND \/ regime s = DOWNTREND)) \/
     (signal s = "CASH"%string /\ position s = "CASH"%string /\
      exists a, allocation s = Some a /\ a == 0)).
Proof.
  eexists _, _. split; [vm_compute; reflexivity|].
  eapply (@regime_agrees_with_signal example_floatlib
            (store1 (price_frame (replicate 199 1 ++ [2]))) _ 0%nat).
  vm_compute. reflexivity.
Defined.

(** X15: the position size grows with the trend and shrinks with the
    volatility, and never falls below a quarter.  For defined trend
    strengths and volatilities, [calculate_position_size] is at least
    0.25; a trend strength of larger magnitude never gives a smaller
    size, a higher volatility never gives a larger one, and neither
    the sign of the trend strength nor the flag [bullish] matters. *)
Theorem position_size_is_monotone
    (t t' v v' : Q) (bullish bullish' : bool) :
  Qabs t <= Qabs t' -> v <= v' ->
  exists a a_strong a_calm a_mirror : Q,
    calculate_position_size (Some t) (Some v') bullish = Some a /\
    calculate_position_size (Some t') (Some v') bullish' = Some a_strong /\
    calculate_position_size (Some t) (Some v) bullish' = Some a_calm /\
    calculate_position_size (Some (- t)) (Some v') bullish' = Some a_mirror /\
    1 # 4 <= a /\ a <= 1 /\ a <= a_strong /\ a <= a_calm /\ a_mirror == a.
Proof.
  intros Ht Hv.
  destruct (DualPolicyClaims.calculate_position_size_value t (Some v') bullish)
    as (a & m & Ha & Hav & Hband & Hrange).
  destruct (DualPolicyClaims.calculate_position_size_value t' (Some v') bullish')
    as (a1 & m1 & Ha1 & Hav1 & Hband1 & _).
  destruct (DualPolicyClaims.calculate_position_size_value t (Some v) bullish')
    as (a2 & m2 & Ha2 & Hav2 & Hband2 & _).
  destruct (DualPolicyClaims.calculate_position_size_value (- t) (Some v') bullish')
    as (a3 & m3 & Ha3 & Hav3 & Hband3 & _).
  exists a, a1, a2, a3. repeat (split; [assumption|]).
  pose proof (Qabs_nonneg t) as Hn. pose proof (Qabs_nonneg t') as Hn'.
  rewrite Qabs_opp in Hav3.
  set (x := Qmin 1 (0.5 + 2 * Qabs t)) in *.
  set (x' := Qmin 1 (0.5 + 2 * Qabs t')) in *.
  assert (Hx : 1 # 2 <= x <= 1).
  { unfold x. split; [apply Q.min_glb; lra|apply Q.le_min_l]. }
  assert (Hx' : x <= x').
  { unfold x, x'. apply Q.min_le_compat_l. lra. }
  simpl in Hband, Hband1, Hband2, Hband3.
  destruct Hband as (B1 & B2 & B3), Hband1 as (C1 & C2 & C3),
    Hband2 as (D1 & D2 & D3), Hband3 as (E1 & E2 & E3).
  assert (Hm : m == m1 /\ m == m3 /\ m <= m2 /\ 1 # 2 <= m <= 1).
  { assert (Hm2 : m2 == 1 \/ (m2 == 0.75 /\ 0.35 < v) \/ (m2 == 0.5 /\ 0.50 < v)).
    { destruct (Qlt_le_dec 0.50 v) as [M1|M1]; [right; right; auto|].
      destruct (Qlt_le_dec 0.35 v) as [M2|M2]; [right; left; auto|left; auto]. }
    destruct (Qlt_le_dec 0.50 v') as [L1|L1].
    - pose proof (B3 L1). pose proof (C3 L1). pose proof (E3 L1).
      destruct Hm2 as [?|[[? ?]|[? ?]]]; repeat split; lra.
    - destruct (Qlt_le_dec 0.35 v') as [L2|L2].
      + pose proof (B2 (conj L2 L1)). pose proof (C2 (conj L2 L1)).
        pose proof (E2 (conj L2 L1)).
        destruct Hm2 as [?|[[? ?]|[? ?]]]; repeat split; lra.
      + pose proof (B1 L2). pose proof (C1 L2). pose proof (E1 L2).
        destruct Hm2 as [?|[[? ?]|[? ?]]]; repeat split; lra. }
  destruct Hm as (M1 & M3 & M2 & Mr).
  split; [rewrite Hav; nra|].
  split; [lra|].
  split; [rewrite Hav, Hav1, <- M1; nra|].
  split; [rewrite Hav, Hav2; nra|].
  rewrite Hav3, Hav, <- M3. reflexivity.
Qed.

Lemma position_size_is_monotone_witness :
  exists a a_strong a_calm a_mirror : Q,
    calculate_position_size (Some 0.1) (Some 0.6) true = Some a /\
    calculate_position_size (Some (- 0.2)) (Some 0.6) false = Some a_strong /\
    calculate_position_size (Some 0.1) (Some 0.4) false = Some a_calm /\
    calculate_position_size (Some (- 0.1)) (Some 0.6) false = Some a_mirror /\
    1 # 4 <= a /\ a <= 1 /\ a <= a_strong /\ a <= a_calm /\ a_mirror == a.
Proof.
  apply (position_size_is_monotone 0.1 (- 0.2) 0.4 0.6 true false).
  - vm_compute. discriminate.
  - vm_compute. discriminate.
Defined.



(** X17: a frame without a Close column.  The single-MA generator
    checks the length first: too short a frame is answered by the
    error dictionary although it has no Close column, and only a
    frame that is long enough raises [KeyError].  The dual-MA
    generator computes its indicators before it checks the length, so
    it raises [KeyError] for every frame without a Close column, a
    short one included.  In each case the caller's frame is
    unchanged. *)
Theorem missing_close_column `{FloatLib}
    (h : heap) (data : loc) (df : DataFrame) (p : nat) :
  h !! data = Some df -> getitem df "Close" = None ->
  ((length (index df) < p)%nat ->
   Strategy.get_signal data p h = (Ok (Strategy.Error p), h)) /\
  ((p <= length (index df))%nat ->
   exists h', Strategy.get_signal data p h = (Raise KeyError, h') /\
              h' !! data = Some df) /\
  (exists h', get_signal data h = (Raise KeyError, h') /\
              h' !! data = Some df).
Proof.
  intros Hd Hnone.
  split; [intros Hlt; now apply StrategyFacts.sma_get_signal_short with df|].
  split.
  - intros Hge.
    assert (Hrun : Strategy.get_signal data p h
                   = (Raise KeyError, <[fresh (dom h) := df]> h)).
    { unfold Strategy.get_signal.
      mrun df_len_run.
      destruct (Nat.ltb_spec (length (index df)) p) as [Hlt'|_]; [lia|].
      erewrite bind_run; [|apply df_copy_run; eassumption].
      erewrite bind_raise; [reflexivity|].
      unfold Strategy.calculate_sma.
      erewrite bind_raise; [reflexivity|].
      eapply df_getitem_KeyError; [apply lookup_insert_eq|assumption]. }
    eexists. split; [exact Hrun|].
    eapply frame_ok_lookup;
      [apply (StrategyFacts.sma_get_signal_frame_ok (dom h))|reflexivity
      |exact Hrun|exact Hd].
  - assert (Hrun : get_signal data h
                   = (Raise KeyError, <[fresh (dom h) := df]> h)).
    { unfold get_signal.
      erewrite bind_raise; [reflexivity|].
      unfold calculate_indicators.
      erewrite bind_run; [|apply df_copy_run; eassumption].
      erewrite bind_raise; [reflexivity|].
      eapply df_getitem_KeyError; [apply lookup_insert_eq|assumption]. }
    eexists. split; [exact Hrun|].
    eapply frame_ok_lookup;
      [apply (dual_get_signal_frame_ok (dom h))|reflexivity|exact Hrun|exact Hd].
Qed.

Lemma missing_close_column_witness :
  let df := mkDataFrame (Index ["Open"%string]) [0%Z; 1%Z] [[Some 1; Some 2]] in
  (Strategy.get_signal 0%nat 3 (store1 df) = (Ok (Strategy.Error 3), store1 df)) /\
  (exists h', Strategy.get_signal 0%nat 2 (store1 df) = (Raise KeyError, h') /\
              h' !! 0%nat = Some df) /\
  (exists h', @get_signal example_floatlib 0%nat (store1 df)
              = (Raise KeyError, h') /\
              h' !! 0%nat = Some df).
Proof.
  pose proof (@missing_close_column example_floatlib
                (store1 (mkDataFrame (Index ["Open"%string]) [0%Z; 1%Z]
                                     [[Some 1; Some 2]]))
                0%nat
                (mkDataFrame (Index ["Open"%string]) [0%Z; 1%Z] [[Some 1; Some 2]]))
    as X.
  split; [|split].
  - apply (proj1 (X 3%nat eq_refl eq_refl)). simpl. lia.
  - apply (proj1 (proj2 (X 2%nat eq_refl eq_refl))). simpl. lia.
  - apply (proj2 (proj2 (X 0%nat eq_refl eq_refl))).
Defined.



End DualMaExtras.
(* ================================================================== *)
(** * Further properties of the metrics *)

Module MetricFacts.

Lemma count_if_le {A : Type} (p q : A -> bool) (l : list A) :
  (forall x, p x = true -> q x = true) -> (count_if p l <= count_if q l)%nat.
Proof.
  intros Hpq. induction l as [|x l IH]; [reflexivity|].
  rewrite !MetricClaims.count_if_cons.
  destruct (p x) eqn:E; [rewrite (Hpq x E)|destruct (q x)]; lia.
Qed.

Lemma count_if_length {A : Type} (p : A -> bool) (l : list A) :
  (count_if p l <= length l)%nat.
Proof.
  induction l as [|x l IH]; [reflexivity|].
  rewrite MetricClaims.count_if_cons. destruct (p x); simpl; lia.
Qed.

Lemma of_nat_le (n m : nat) : (n <= m)%nat -> of_nat n <= of_nat m.
Proof.
  intros Hle. unfold of_nat. rewrite <- Zle_Qle. lia.
Qed.

Lemma of_nat_nonneg (n : nat) : 0 <= of_nat n.
Proof. unfold of_nat. change 0 with (inject_Z 0). rewrite <- Zle_Qle. lia. Qed.

(** A quotient of two counts, the first at most the second. *)
Lemma fraction_of_counts (w t : nat) :
  (w <= t)%nat -> (0 < t)%nat ->
  exists x, fdiv (Some (of_nat w)) (Some (of_nat t)) = Some x /\ 0 <= x <= 1.
Proof.
  intros Hle Ht. unfold fdiv.
  pose proof (of_nat_pos t Ht) as Hp.
  pose proof (of_nat_le w t Hle) as Hwt.
  pose proof (of_nat_nonneg w) as Hw.
  destruct (Qeq_bool (of_nat t) 0) eqn:E.
  { apply Qeq_bool_iff in E. lra. }
  eexists. split; [reflexivity|]. split.
  - apply Qle_shift_div_l; [assumption|]. lra.
  - apply Qle_shift_div_r; [assumption|]. lra.
Qed.

(** The win rate of a column of returns, before it is reported. *)
Lemma win_rate_bounds (returns : list Q) :
  exists x,
    (if (0 <? count_if (fun r => negb (Qeq_bool r 0)) returns)%nat
     then fdiv (Some (of_nat (count_if (fun r => Qlt_bool 0 r) returns)))
               (Some (of_nat (count_if (fun r => negb (Qeq_bool r 0)) returns)))
     else Some 0) = Some x /\ 0 <= x <= 1.
Proof.
  destruct (Nat.ltb_spec 0 (count_if (fun r => negb (Qeq_bool r 0)) returns))
    as [Ht|_].
  - apply fraction_of_counts; [|assumption].
    apply count_if_le. intros r Hr. apply Qlt_bool_iff in Hr.
    destruct (Qeq_bool r 0) eqn:E; [|reflexivity].
    apply Qeq_bool_iff in E. lra.
  - exists 0. split; [reflexivity|lra].
Qed.

(** A percentage out of a fraction, rounded. *)
Lemma reported_percentage (x : Q) (digits : nat) :
  0 <= x <= 1 ->
  exists y, fround (fmul (Some x) (Some 100)) digits = Some y /\ 0 <= y <= 100.
Proof.
  intros [H0 H1]. eexists. split; [reflexivity|]. split.
  - apply (py_round_ge (x * 100) digits 0). change (inject_Z 0) with 0. lra.
  - apply (py_round_le (x * 100) digits 100). change (inject_Z 100) with 100. lra.
Qed.

(** A drawdown of a positive value below a positive maximum. *)
Lemma drawdown_bounded (c r : Q) :
  0 < c -> 0 < r -> c <= r ->
  exists d, fdiv (Some (c - r)) (Some r) = Some d /\ - (1) < d /\ d <= 0.
Proof.
  intros Hc Hr Hle. unfold fdiv.
  destruct (Qeq_bool r 0) eqn:E.
  - apply Qeq_bool_iff in E. lra.
  - eexists. split; [reflexivity|]. split.
    + apply Qlt_shift_div_l; [assumption|]. lra.
    + apply Qle_shift_div_r; [assumption|]. lra.
Qed.

Lemma drawdowns_bounded (cumulative : list Q) :
  Forall (fun x => 0 < x) cumulative ->
  Forall (fun x : float => exists d, x = Some d /\ - (1) < d /\ d <= 0)
         (drawdowns cumulative).
Proof.
  intros Hpos. unfold drawdowns.
  pose proof (expanding_max_above cumulative Hpos) as Habove.
  induction Habove as [|c r cs rs [Hr Hc] _ IH]; simpl.
  - constructor.
  - inversion Hpos; subst.
    constructor; [now apply drawdown_bounded|now apply IH].
Qed.

Lemma series_min_bounded (s : Series) :
  s <> [] ->
  Forall (fun x : float => exists d, x = Some d /\ - (1) < d /\ d <= 0) s ->
  exists d, series_min s = Some d /\ - (1) < d /\ d <= 0.
Proof.
  intros Hne Hs. induction Hs as [|x s (d & -> & Hd) Hs IH]; [congruence|].
  simpl. destruct s as [|y s].
  - simpl. eauto.
  - destruct IH as (d' & -> & Hd'); [discriminate|].
    eexists. split; [reflexivity|]. split.
    + apply Q.min_glb_lt; lra.
    + apply Qle_trans with d; [apply Q.le_min_l|lra].
Qed.

Lemma max_drawdown_bounded (cumulative : list Q) :
  cumulative <> [] -> Forall (fun x => 0 < x) cumulative ->
  exists d, series_min (drawdowns cumulative) = Some d /\ - (1) < d /\ d <= 0.
Proof.
  intros Hne Hpos. apply series_min_bounded.
  - intros E. apply (f_equal length) in E.
    rewrite length_drawdowns in E. destruct cumulative; [congruence|discriminate].
  - now apply drawdowns_bounded.
Qed.

Lemma reported_drawdown_bounded (d : Q) :
  - (1) < d -> d <= 0 ->
  exists y, fround (fmul (Some d) (Some 100)) 2 = Some y /\ - (100) <= y <= 0.
Proof.
  intros Hl Hu. eexists. split; [reflexivity|]. split.
  - apply (py_round_ge (d * 100) 2 (-100)).
    change (inject_Z (-100)) with (- (100)). lra.
  - apply (py_round_le (d * 100) 2 0). change (inject_Z 0) with 0. lra.
Qed.

Section WithFloatLib.
Context `{FloatLib}.

(** The metrics of [backtest.py] on a frame with at least one row. *)
Lemma tqqq_metrics_fields (data : list Backtest.Row) (cap : Q) :
  data <> [] ->
  exists (m : Backtest.Metrics) (first final : Backtest.Row)
         (annual_return : float),
    Backtest.calculate_metrics data cap = Ok m /\
    head data = Some first /\ last data = Some final /\
    Backtest.start_date m = Backtest.date first /\
    Backtest.end_date m = Backtest.date final /\
    Backtest.years m = py_round (of_nat (length data) / 252) 2 /\
    Backtest.initial_capital m = cap /\
    Backtest.final_value m = py_round (Backtest.strategy_value final) 2 /\
    Backtest.total_return m =
      fround (fmul (fdiv (Some (Backtest.strategy_value final - cap)) (Some cap))
                   (Some 100)) 2 /\
    Backtest.annual_volatility m =
      fround (fmul (fmul (std (map Backtest.strategy_return data)) (fsqrt 252))
                   (Some 100)) 2 /\
    Backtest.sharpe_ratio m =
      fround (if fgt (fmul (std (map Backtest.strategy_return data)) (fsqrt 252))
                     (Some 0)
              then fdiv annual_return
                     (fmul (std (map Backtest.strategy_return data)) (fsqrt 252))
              else Some 0) 2 /\
    Backtest.max_drawdown m =
      fround (fmul (series_min (drawdowns (map Backtest.strategy_cumulative data)))
                   (Some 100)) 2 /\
    Backtest.win_rate m =
      fround
        (fmul
           (if (0 <? count_if (fun r => negb (Qeq_bool r 0))
                       (map Backtest.strategy_return data))%nat
            then fdiv
                   (Some (of_nat (count_if (fun r => Qlt_bool 0 r)
                                    (map Backtest.strategy_return data))))
                   (Some (of_nat (count_if (fun r => negb (Qeq_bool r 0))
                                    (map Backtest.strategy_return data))))
            else Some 0)
           (Some 100)) 2 /\
    Backtest.total_trades m = changes (map Backtest.signal data) /\
    Backtest.bh_total_return m =
      fround (fmul (fdiv (Some (Backtest.buy_hold_value final - cap)) (Some cap))
                   (Some 100)) 2 /\
    Backtest.bh_max_drawdown m =
      fround (fmul (series_min
                      (drawdowns (map Backtest.buy_hold_cumulative data)))
                   (Some 100)) 2.
Proof.
  intros Hne. unfold Backtest.calculate_metrics.
  assert (Hlen : (0 < length data)%nat)
    by (destruct data; [congruence|simpl; lia]).
  destruct (last data) as [final|] eqn:Hfinal;
    [|apply last_None in Hfinal; congruence].
  assert (Hlast : forall (A : Type) (f : Backtest.Row -> A),
             last_or IndexError (map f data) = Ok (f final)).
  { intros A f. unfold last_or.
    change (map f data) with (f <$> data). now rewrite fmap_last, Hfinal. }
  rewrite !Hlast. cbn [mbind result_bind].
  destruct (BacktestFacts.tqqq_annualized_total
              (fdiv (Some (Backtest.strategy_value final - cap)) (Some cap))
              (length data) Hlen) as (ar & ->).
  cbn [mbind result_bind].
  destruct (BacktestFacts.tqqq_annualized_total
              (fdiv (Some (Backtest.buy_hold_value final - cap)) (Some cap))
              (length data) Hlen) as (bar & ->).
  cbn [mbind result_bind].
  destruct data as [|r0 data']; [congruence|].
  cbn [head_or mbind result_bind].
  pose proof (Hlast _ (fun r => r)) as Hrl. rewrite map_id in Hrl.
  rewrite Hrl. cbn [mbind result_bind].
  eexists _, r0, final, ar. split; [reflexivity|].
  repeat split.
Qed.

(** The metrics of [soxl_backtest.py] on a frame with at least one
    row. *)
Lemma soxl_metrics_fields (data : list SoxlBacktest.Row) (cap : Q)
      (use_shorts : bool) :
  data <> [] ->
  exists (m : SoxlBacktest.Metrics) (first final : SoxlBacktest.Row)
         (annual_return : float),
    SoxlBacktest.calculate_metrics data cap use_shorts = Ok m /\
    head data = Some first /\ last data = Some final /\
    SoxlBacktest.start_date m = SoxlBacktest.date first /\
    SoxlBacktest.end_date m = SoxlBacktest.date final /\
    SoxlBacktest.years m = py_round (of_nat (length data) / 252) 2 /\
    SoxlBacktest.initial_capital m = cap /\
    SoxlBacktest.use_shorts m = use_shorts /\
    SoxlBacktest.final_value m = py_round (SoxlBacktest.strategy_value final) 2 /\
    SoxlBacktest.total_return m =
      fround (fmul (fdiv (Some (SoxlBacktest.strategy_value final - cap))
                         (Some cap))
                   (Some 100)) 2 /\
    SoxlBacktest.annual_volatility m =
      fround (fmul (fmul (std (map SoxlBacktest.strategy_return data))
                         (fsqrt 252))
                   (Some 100)) 2 /\
    SoxlBacktest.sharpe_ratio m =
      fround (if fgt (fmul (std (map SoxlBacktest.strategy_return data))
                           (fsqrt 252))
                     (Some 0)
              then fdiv annual_return
                     (fmul (std (map SoxlBacktest.strategy_return data))
                           (fsqrt 252))
              else Some 0) 2 /\
    SoxlBacktest.max_drawdown m =
      fround (fmul (series_min
                      (drawdowns (map SoxlBacktest.strategy_cumulative data)))
                   (Some 100)) 2 /\
    SoxlBacktest.win_rate m =
      fround
        (fmul
           (if (0 <? count_if (fun r => negb (Qeq_bool r 0))
                       (map SoxlBacktest.strategy_return data))%nat
            then fdiv
                   (Some (of_nat (count_if (fun r => Qlt_bool 0 r)
                                    (map SoxlBacktest.strategy_return data))))
                   (Some (of_nat (count_if (fun r => negb (Qeq_bool r 0))
                                    (map SoxlBacktest.strategy_return data))))
            else Some 0)
           (Some 100)) 2 /\
    SoxlBacktest.total_trades m = changes (map SoxlBacktest.position data) /\
    SoxlBacktest.time_long m =
      fround (fmul (SoxlBacktest.time_in 1 (map SoxlBacktest.position data))
                   (Some 100)) 1 /\
    SoxlBacktest.time_short m =
      fround (fmul (SoxlBacktest.time_in (-1) (map SoxlBacktest.position data))
                   (Some 100)) 1 /\
    SoxlBacktest.time_cash m =
      fround (fmul (SoxlBacktest.time_in 0 (map SoxlBacktest.position data))
                   (Some 100)) 1 /\
    SoxlBacktest.bh_total_return m =
      fround (fmul (fdiv (Some (SoxlBacktest.buy_hold_value final - cap))
                         (Some cap))
                   (Some 100)) 2 /\
    SoxlBacktest.bh_max_drawdown m =
      fround (fmul (series_min
                      (drawdowns (map SoxlBacktest.buy_hold_cumulative data)))
                   (Some 100)) 2.
Proof.
  intros Hne. unfold SoxlBacktest.calculate_metrics.
  assert (Hlen : (0 < length data)%nat)
    by (destruct data; [congruence|simpl; lia]).
  destruct (last data) as [final|] eqn:Hfinal;
    [|apply last_None in Hfinal; congruence].
  assert (Hlast : forall (A : Type) (f : SoxlBacktest.Row -> A),
             last_or IndexError (map f data) = Ok (f final)).
  { intros A f. unfold last_or.
    change (map f data) with (f <$> data). now rewrite fmap_last, Hfinal. }
  rewrite !Hlast. cbn [mbind result_bind].
  destruct (SoxlBacktestFacts.soxl_annualized_total
              (fdiv (Some (SoxlBacktest.strategy_value final - cap)) (Some cap))
              (length data) Hlen) as (ar & ->).
  cbn [mbind result_bind].
  destruct (SoxlBacktestFacts.soxl_annualized_total
              (fdiv (Some (SoxlBacktest.buy_hold_value final - cap)) (Some cap))
              (length data) Hlen) as (bar & ->).
  cbn [mbind result_bind].
  destruct data as [|r0 data']; [congruence|].
  cbn [head_or mbind result_bind].
  pose proof (Hlast _ (fun r => r)) as Hrl. rewrite map_id in Hrl.
  rewrite Hrl. cbn [mbind result_bind].
  eexists _, r0, final, ar. split; [reflexivity|].
  repeat split.
Qed.

End WithFloatLib.

(** The three shares of the time add up. *)
Lemma counts_partition (positions : list Z) :
  Forall (fun p => p = 0%Z \/ p = 1%Z \/ p = (-1)%Z) positions ->
  (count_if (fun p => (p =? 1)%Z) positions
   + count_if (fun p => (p =? -1)%Z) positions
   + count_if (fun p => (p =? 0)%Z) positions = length positions)%nat.
Proof.
  induction 1 as [|p l Hp _ IH]; [reflexivity|].
  rewrite !MetricClaims.count_if_cons. cbn [length].
  destruct Hp as [-> | [-> | ->]]; cbn; lia.
Qed.

Lemma count_if_none {A : Type} (p : A -> bool) (l : list A) :
  Forall (fun x => p x = false) l -> count_if p l = 0%nat.
Proof.
  induction 1 as [|x l Hx _ IH]; [reflexivity|].
  rewrite MetricClaims.count_if_cons, Hx, IH. reflexivity.
Qed.

(** The win rate as it is reported: a percentage, and 0 when no
    return differs from zero. *)
Lemma reported_win_rate (returns : list Q) :
  exists w,
    fround
      (fmul
         (if (0 <? count_if (fun r => negb (Qeq_bool r 0)) returns)%nat
          then fdiv (Some (of_nat (count_if (fun r => Qlt_bool 0 r) returns)))
                    (Some (of_nat (count_if (fun r => negb (Qeq_bool r 0))
                                            returns)))
          else Some 0)
         (Some 100)) 2 = Some w /\
    0 <= w <= 100 /\
    (Forall (fun r => r == 0) returns -> w == 0).
Proof.
  destruct (win_rate_bounds returns) as (x & Hx & H0 & H1).
  exists (py_round (x * 100) 2). split; [rewrite Hx; reflexivity|]. split.
  - split.
    + apply (py_round_ge (x * 100) 2 0). change (inject_Z 0) with 0. lra.
    + apply (py_round_le (x * 100) 2 100). change (inject_Z 100) with 100. lra.
  - intros Hz.
    assert (Hc : count_if (fun r => negb (Qeq_bool r 0)) returns = 0%nat).
    { apply count_if_none. eapply Forall_impl; [exact Hz|].
      intros r Hr. cbn. apply Qeq_bool_iff in Hr. rewrite Hr. reflexivity. }
    rewrite Hc in Hx. cbn in Hx. injection Hx as <-.
    vm_compute. reflexivity.
Qed.

Lemma of_nat_add (n m : nat) : of_nat (n + m) == of_nat n + of_nat m.
Proof. unfold of_nat. rewrite Nat2Z.inj_add, inject_Z_plus. reflexivity. Qed.

Lemma time_in_shares (positions : list Z) :
  positions <> [] ->
  Forall (fun p => p = 0%Z \/ p = 1%Z \/ p = (-1)%Z) positions ->
  exists l s c : Q,
    SoxlBacktest.time_in 1 positions = Some l /\
    SoxlBacktest.time_in (-1) positions = Some s /\
    SoxlBacktest.time_in 0 positions = Some c /\
    0 <= l /\ 0 <= s /\ 0 <= c /\ l + s + c == 1.
Proof.
  intros Hne Hall. unfold SoxlBacktest.time_in, fdiv.
  assert (Hlen : (0 < length positions)%nat)
    by (destruct positions; [congruence|simpl; lia]).
  pose proof (of_nat_pos _ Hlen) as Hp.
  destruct (Qeq_bool (of_nat (length positions)) 0) eqn:E.
  { apply Qeq_bool_iff in E. lra. }
  eexists _, _, _. repeat (split; [reflexivity|]).
  assert (Hsum : of_nat (count_if (fun p => (p =? 1)%Z) positions)
                 + of_nat (count_if (fun p => (p =? -1)%Z) positions)
                 + of_nat (count_if (fun p => (p =? 0)%Z) positions)
                 == of_nat (length positions)).
  { rewrite <- !of_nat_add, (counts_partition positions Hall). reflexivity. }
  set (a := of_nat (count_if (fun p => (p =? 1)%Z) positions)) in *.
  set (b := of_nat (count_if (fun p => (p =? -1)%Z) positions)) in *.
  set (c := of_nat (count_if (fun p => (p =? 0)%Z) positions)) in *.
  assert (Ha : 0 <= a) by apply of_nat_nonneg.
  assert (Hb : 0 <= b) by apply of_nat_nonneg.
  assert (Hc : 0 <= c) by apply of_nat_nonneg.
  revert Hsum Hp. generalize (of_nat (length positions)). intros n Hsum Hn.
  repeat split; try (apply Qle_shift_div_l; [assumption|lra]).
  rewrite <- Hsum. field. lra.
Qed.

End MetricFacts.

Module MetricExtras.
Import Examples MoreExamples.
Import MetricFacts.

(** X19: the win rate is a percentage, and 0 without a day to count.
    On every frame with at least one row, both [calculate_metrics]
    report a win rate between 0 and 100: the days with a positive
    return are among the days with a return other than zero.  When
    no day has a return other than zero the division is skipped and
    the rate is 0. *)
Theorem win_rate_is_a_percentage `{FloatLib}
    (data : list Backtest.Row) (cap : Q)
    (data' : list SoxlBacktest.Row) (cap' : Q) (use_shorts : bool) :
  (data <> [] ->
   exists m w,
     Backtest.calculate_metrics data cap = Ok m /\
     Backtest.win_rate m = Some w /\ 0 <= w <= 100 /\
     (Forall (fun r => Backtest.strategy_return r == 0) data -> w == 0)) /\
  (data' <> [] ->
   exists m w,
     SoxlBacktest.calculate_metrics data' cap' use_shorts = Ok m /\
     SoxlBacktest.win_rate m = Some w /\ 0 <= w <= 100 /\
     (Forall (fun r => SoxlBacktest.strategy_return r == 0) data' -> w == 0)).
Proof.
  split.
  - intros Hne.
    destruct (tqqq_metrics_fields data cap Hne)
      as (m & first & final & ar & Hm & _ & _ & _ & _ & _ & _ & _ & _ & _ & _ & _
          & Hw & _).
    destruct (reported_win_rate (map Backtest.strategy_return data))
      as (w & Hx & Hrange & Hzero).
    exists m, w. split; [assumption|]. split; [congruence|].
    split; [assumption|].
    intros Hz. apply Hzero. apply Forall_map. exact Hz.
  - intros Hne.
    destruct (soxl_metrics_fields data' cap' use_shorts Hne)
      as (m & first & final & ar & Hm & _ & _ & _ & _ & _ & _ & _ & _ & _ & _ & _
          & _ & Hw & _).
    destruct (reported_win_rate (map SoxlBacktest.strategy_return data'))
      as (w & Hx & Hrange & Hzero).
    exists m, w. split; [assumption|]. split; [congruence|].
    split; [assumption|].
    intros Hz. apply Hzero. apply Forall_map. exact Hz.
Qed.

Lemma win_rate_is_a_percentage_witness :
  (exists m w,
     @Backtest.calculate_metrics example_floatlib five_days 100000 = Ok m /\
     Backtest.win_rate m = Some w /\ 0 <= w <= 100 /\
     (Forall (fun r => Backtest.strategy_return r == 0) five_days -> w == 0)) /\
  (exists m w,
     @SoxlBacktest.calculate_metrics example_floatlib flat_days 100000 false
       = Ok m /\
     SoxlBacktest.win_rate m = Some w /\ 0 <= w <= 100 /\
     (Forall (fun r => SoxlBacktest.strategy_return r == 0) flat_days -> w == 0)).
Proof.
  split.
  - apply (proj1 (@win_rate_is_a_percentage example_floatlib
                    five_days 100000 flat_days 100000 false)).
    vm_compute. discriminate.
  - apply (proj2 (@win_rate_is_a_percentage example_floatlib
                    five_days 100000 flat_days 100000 false)).
    vm_compute. discriminate.
Defined.

(** Two days in cash: no return to count, and a win rate of 0. *)
Example win_rate_of_flat_days :
  Forall (fun r => SoxlBacktest.strategy_return r == 0) flat_days /\
  exists m w,
    @SoxlBacktest.calculate_metrics example_floatlib flat_days 100000 false
      = Ok m /\
    SoxlBacktest.win_rate m = Some w /\ w == 0.
Proof.
  split.
  - vm_compute. repeat constructor.
  - eexists. eexists. split; [vm_compute; reflexivity|].
    split; reflexivity.
Qed.

(** The sample standard deviation of one observation is NaN. *)
Lemma std_single `{FloatLib} (x : Q) : std [x] = None.
Proof.
  unfold std, mean, fdiv. cbn [length Qsum foldr map].
  destruct (Qeq_bool (of_nat 1) 0); [reflexivity|].
  replace (Qeq_bool (of_nat 1 - 1) 0) with true by reflexivity.
  reflexivity.
Qed.

(** X20: a backtest over one period has no volatility.  On a frame with
    a single row both [calculate_metrics] return their metrics with an
    annual volatility of NaN (the sample standard deviation of one
    return) and a Sharpe ratio of 0, whatever the return and the float
    library; the period counts as one trade and lasts 0.0 years after
    rounding. *)
Theorem one_period_has_no_volatility `{FloatLib}
    (r : Backtest.Row) (cap : Q)
    (r' : SoxlBacktest.Row) (cap' : Q) (use_shorts : bool) :
  (exists m s,
     Backtest.calculate_metrics [r] cap = Ok m /\
     Backtest.annual_volatility m = None /\
     Backtest.sharpe_ratio m = Some s /\ s == 0 /\
     Backtest.total_trades m = 1%nat /\
     Backtest.start_date m = Backtest.date r /\
     Backtest.end_date m = Backtest.date r /\
     Backtest.years m == 0) /\
  (exists m s,
     SoxlBacktest.calculate_metrics [r'] cap' use_shorts = Ok m /\
     SoxlBacktest.annual_volatility m = None /\
     SoxlBacktest.sharpe_ratio m = Some s /\ s == 0 /\
     SoxlBacktest.total_trades m = 1%nat /\
     SoxlBacktest.start_date m = SoxlBacktest.date r' /\
     SoxlBacktest.end_date m = SoxlBacktest.date r' /\
     SoxlBacktest.years m == 0).
Proof.
  split.
  - destruct (tqqq_metrics_fields [r] cap ltac:(discriminate))
      as (m & first & final & ar & Hm & Hf & Hl & Hsd & Hed & Hy & _ & _ & _
          & Hvol & Hsh & _ & _ & Htr & _).
    injection Hf as <-. injection Hl as <-.
    cbn [map] in Hvol, Hsh. rewrite std_single in Hvol, Hsh.
    exists m, (py_round 0 2). split; [assumption|].
    split; [exact Hvol|]. split; [exact Hsh|].
    split; [vm_compute; reflexivity|].
    split; [rewrite Htr; reflexivity|].
    split; [assumption|]. split; [assumption|].
    rewrite Hy. vm_compute. reflexivity.
  - destruct (soxl_metrics_fields [r'] cap' use_shorts ltac:(discriminate))
      as (m & first & final & ar & Hm & Hf & Hl & Hsd & Hed & Hy & _ & _ & _ & _
          & Hvol & Hsh & _ & _ & Htr & _).
    injection Hf as <-. injection Hl as <-.
    cbn [map] in Hvol, Hsh. rewrite std_single in Hvol, Hsh.
    exists m, (py_round 0 2). split; [assumption|].
    split; [exact Hvol|]. split; [exact Hsh|].
    split; [vm_compute; reflexivity|].
    split; [rewrite Htr; reflexivity|].
    split; [assumption|]. split; [assumption|].
    rewrite Hy. vm_compute. reflexivity.
Qed.

(** X21: the largest drawdown stays above -100%.  On series with
    positive closes the equity curve of either backtest is positive,
    so every drawdown is strictly above -1 (and at most 0); the
    reported percentage lies between -100 and 0. *)
Theorem max_drawdown_is_above_minus_100 `{FloatLib}
    (index_close etf_close : IndexedSeries) (ma_period : nat) (cap : Q)
    (idx_close long_close : IndexedSeries) (short_close : option IndexedSeries)
    (cap' : Q) (use_shorts : bool) :
  positive_closes etf_close = true ->
  positive_closes long_close = true ->
  SoxlBacktestTerms.positive_short short_close = true ->
  let data := Backtest.combined_frame index_close etf_close ma_period cap in
  let data' :=
    SoxlBacktest.backtest_frame idx_close long_close short_close cap' use_shorts in
  (data <> [] ->
   exists m raw reported,
     Backtest.calculate_metrics data cap = Ok m /\
     series_min (drawdowns (map Backtest.strategy_cumulative data)) = Some raw /\
     - (1) < raw /\ raw <= 0 /\
     Backtest.max_drawdown m = Some reported /\ - (100) <= reported <= 0) /\
  (data' <> [] ->
   exists m raw reported,
     SoxlBacktest.calculate_metrics data' cap' use_shorts = Ok m /\
     series_min (drawdowns (map SoxlBacktest.strategy_cumulative data'))
       = Some raw /\
     - (1) < raw /\ raw <= 0 /\
     SoxlBacktest.max_drawdown m = Some reported /\ - (100) <= reported <= 0).
Proof.
  intros Hetf Hlong Hshort data data'. split.
  - intros Hne.
    destruct (BacktestFacts.tqqq_calculate_metrics_run data cap Hne)
      as (m & Hm & Hdd & _).
    destruct (max_drawdown_bounded (map Backtest.strategy_cumulative data))
      as (raw & Hraw & Hl & Hu).
    { intros E. apply Hne. destruct data; [reflexivity|discriminate]. }
    { apply BacktestClaims.tqqq_cumulative_pos. assumption. }
    rewrite Hraw in Hdd.
    destruct (reported_drawdown_bounded raw Hl Hu) as (y & Hy & Hyr).
    exists m, raw, y. repeat (split; [assumption|]).
    split; [congruence|assumption].
  - intros Hne.
    destruct (SoxlBacktestFacts.soxl_calculate_metrics_run data' cap' use_shorts Hne)
      as (m & Hm & Hdd & _).
    destruct (max_drawdown_bounded (map SoxlBacktest.strategy_cumulative data'))
      as (raw & Hraw & Hl & Hu).
    { intros E. apply Hne. destruct data'; [reflexivity|discriminate]. }
    { apply BacktestClaims.soxl_cumulative_pos; assumption. }
    rewrite Hraw in Hdd.
    destruct (reported_drawdown_bounded raw Hl Hu) as (y & Hy & Hyr).
    exists m, raw, y. repeat (split; [assumption|]).
    split; [congruence|assumption].
Qed.

Lemma max_drawdown_is_above_minus_100_witness :
  (exists m raw reported,
     @Backtest.calculate_metrics example_floatlib five_days 100000 = Ok m /\
     series_min (drawdowns (map Backtest.strategy_cumulative five_days))
       = Some raw /\
     - (1) < raw /\ raw <= 0 /\
     Backtest.max_drawdown m = Some reported /\ - (100) <= reported <= 0) /\
  (exists m raw reported,
     @SoxlBacktest.calculate_metrics example_floatlib rising_days 100000 false
       = Ok m /\
     series_min (drawdowns (map SoxlBacktest.strategy_cumulative rising_days))
       = Some raw /\
     - (1) < raw /\ raw <= 0 /\
     SoxlBacktest.max_drawdown m = Some reported /\ - (100) <= reported <= 0).
Proof.
  pose proof (@max_drawdown_is_above_minus_100 example_floatlib
                (dated five_index_closes) (dated five_etf_closes) 2 100000
                (dated rising_closes) (dated rising_closes) None 100000 false
                eq_refl ltac:(vm_compute; reflexivity) eq_refl) as [X Y].
  split; [apply X|apply Y]; vm_compute; discriminate.
Defined.

End MetricExtras.
(* ================================================================== *)
(** * The simulated range of the backtests *)

Module RangeFacts.
Import SingleMaFacts.

(** Rows that are dropped at the head of a frame. *)
Lemma omap_drop_none {A C : Type} (f : A -> option C) (l : list A) (j : nat) :
  (forall i x, (i < j)%nat -> l !! i = Some x -> f x = None) ->
  omap f l = omap f (drop j l).
Proof.
  revert l. induction j as [|j IH]; intros l Hnone; [reflexivity|].
  destruct l as [|x l]; [reflexivity|].
  cbn [omap list_omap drop].
  rewrite (Hnone 0%nat x ltac:(lia) eq_refl).
  apply IH. intros i y Hi Hy. apply (Hnone (S i) y ltac:(lia) Hy).
Qed.

(** Rows that are all kept. *)
Lemma map_omap_some {A C D : Type} (f : A -> option C) (g : A -> D)
      (gc : C -> D) (l : list A) :
  (forall x, x ∈ l -> exists c, f x = Some c /\ gc c = g x) ->
  map gc (omap f l) = map g l.
Proof.
  induction l as [|x l IH]; intros Hall; [reflexivity|].
  cbn [omap list_omap map].
  destruct (Hall x ltac:(left)) as (c & -> & Hc).
  cbn [map]. rewrite Hc. f_equal. apply IH.
  intros y Hy. apply Hall. now right.
Qed.

Lemma map_bar_closes (bars : list Backtest.Bar) :
  map (fun b => Some (Backtest.bar_index_close b)) bars
  = map Some (map Backtest.bar_index_close bars).
Proof. now rewrite map_map. Qed.

(** The rows of the signal frame of [backtest.py] are the bars from
    the first one with a whole window on. *)
Lemma tqqq_signal_frame_dates (ma_period : nat) (bars : list Backtest.Bar) :
  (1 <= ma_period)%nat ->
  map Backtest.sr_date (Backtest.signal_frame ma_period bars)
  = map Backtest.bar_date (drop (ma_period - 1) bars).
Proof.
  intros H1. unfold Backtest.signal_frame. rewrite map_bar_closes.
  set (qs := map Backtest.bar_index_close bars).
  set (sma := rolling_mean ma_period (map Some qs)).
  assert (Hq : length qs = length bars) by (unfold qs; apply length_map).
  assert (Hs : length sma = length bars).
  { unfold sma, rolling_mean. now rewrite length_rolling, length_map. }
  set (j := (ma_period - 1)%nat).
  rewrite (omap_drop_none _ (zip bars sma) j).
  - rewrite (map_omap_some _ (fun x => Backtest.bar_date (fst x))).
    + rewrite zip_with_drop.
      rewrite <- (map_map fst Backtest.bar_date). f_equal.
      change (map fst ?l) with (l.*1). apply fst_zip.
      rewrite !length_drop. lia.
    + intros [b s] Hin. apply list_elem_of_lookup in Hin as [i Hi].
      rewrite lookup_drop in Hi.
      apply lookup_zip_with_Some in Hi as (b' & s' & [= <- <-] & Hb & Hsma).
      assert (Hlt : (j + i < length qs)%nat).
      { rewrite Hq. eapply lookup_lt_Some; eassumption. }
      unfold sma in Hsma.
      rewrite rolling_mean_at in Hsma by (unfold j; lia).
      injection Hsma as <-. eexists. split; reflexivity.
  - intros i [b s] Hi Hx.
    apply lookup_zip_with_Some in Hx as (b' & s' & [= <- <-] & Hb & Hsma).
    assert (Hlt : (i < length (map Some qs))%nat).
    { rewrite length_map, Hq. eapply lookup_lt_Some; eassumption. }
    unfold sma, rolling_mean in Hsma.
    rewrite rolling_lookup_short in Hsma by (assumption || (unfold j in Hi; lia)).
    injection Hsma as <-. reflexivity.
Qed.

(** The dates of the lagged rows. *)
Lemma tqqq_lagged_dates (previous : Backtest.SignalRow)
      (rest : list Backtest.SignalRow) :
  map (fun x : Backtest.SignalRow * Q * Q => Backtest.sr_date (fst (fst x)))
      (BacktestTerms.lagged previous rest)
  = map Backtest.sr_date rest.
Proof.
  revert previous. induction rest as [|r rest IH]; intros previous;
    [reflexivity|].
  cbn [BacktestTerms.lagged map fst]. f_equal. apply IH.
Qed.

Lemma tqqq_final_frame_dates (cap : Q)
      (rows : list (Backtest.SignalRow * Q * Q)) :
  map Backtest.date (Backtest.final_frame cap rows)
  = map (fun x : Backtest.SignalRow * Q * Q => Backtest.sr_date (fst (fst x)))
        rows.
Proof.
  apply list_eq. intros t.
  change (map ?f ?l) with (f <$> l). rewrite !list_lookup_fmap.
  destruct (rows !! t) as [[[r e] s]|] eqn:Hr.
  - destruct (BacktestFacts.tqqq_final_frame_lookup cap rows t r e s Hr)
      as (row & -> & Hd & _).
    cbn. now rewrite Hd.
  - rewrite lookup_ge_None_2; [reflexivity|].
    rewrite BacktestFacts.tqqq_length_final_frame.
    now apply lookup_ge_None_1.
Qed.

(** The days of the final frame of [backtest.py]. *)
Lemma tqqq_combined_frame_dates (index_close etf_close : IndexedSeries)
      (ma_period : nat) (cap : Q) :
  positive_closes etf_close = true -> (1 <= ma_period)%nat ->
  map Backtest.date
      (Backtest.combined_frame index_close etf_close ma_period cap)
  = drop ma_period
         (map Backtest.bar_date (Backtest.aligned_closes index_close etf_close)).
Proof.
  intros Hpos H1. unfold Backtest.combined_frame.
  pose proof (BacktestFacts.tqqq_signal_range_sound index_close etf_close
                ma_period Hpos) as Hsound.
  pose proof (tqqq_signal_frame_dates ma_period
                (Backtest.aligned_closes index_close etf_close) H1) as Hdates.
  set (bars := Backtest.aligned_closes index_close etf_close) in *.
  set (rows := Backtest.signal_frame ma_period bars) in *.
  assert (Hprice : Forall (fun r => 0 < Backtest.sr_etf_close r) rows).
  { eapply Forall_impl; [exact Hsound|]. intros r [Hr _]. exact Hr. }
  rewrite tqqq_final_frame_dates,
    (BacktestFacts.tqqq_returns_frame_lagged rows Hprice).
  replace ma_period with (ma_period - 1 + 1)%nat at 1 by lia.
  rewrite <- (drop_drop _ 1 (ma_period - 1)).
  change (map Backtest.bar_date bars) with (Backtest.bar_date <$> bars).
  rewrite <- fmap_drop.
  change (Backtest.bar_date <$> drop (ma_period - 1) bars)
    with (map Backtest.bar_date (drop (ma_period - 1) bars)).
  rewrite <- Hdates.
  destruct rows as [|r0 rest]; [reflexivity|].
  rewrite tqqq_lagged_dates. reflexivity.
Qed.

(** *** The dual-MA backtest *)

(** The rate of change at a row with a non-zero close [n] rows
    before. *)
Lemma pct_change_at (n i : nat) (qs : list Q) (x p : Q) :
  (n <= i)%nat -> qs !! i = Some x -> qs !! (i - n)%nat = Some p ->
  ~ p == 0 ->
  pct_change n (map Some qs) !! i = Some (Some (x / p - 1)).
Proof.
  intros Hn Hx Hp Hnz. unfold pct_change, shift.
  assert (Hi : (i < length qs)%nat) by (eapply lookup_lt_Some; eassumption).
  rewrite lookup_zip_with.
  change (map Some qs) with (Some <$> qs).
  rewrite list_lookup_fmap, Hx. cbn [fmap option_fmap option_map mbind option_bind].
  rewrite lookup_take_lt by (rewrite length_fmap; assumption).
  rewrite lookup_app_r by (rewrite length_replicate; assumption).
  rewrite length_replicate, list_lookup_fmap, Hp.
  cbn [fmap option_fmap option_map mbind option_bind].
  unfold fdiv. destruct (Qeq_bool p 0) eqn:E.
  - apply Qeq_bool_iff in E. contradiction.
  - reflexivity.
Qed.

Lemma pct_change_short (n i : nat) (s : Series) :
  (i < n)%nat -> (i < length s)%nat -> pct_change n s !! i = Some NaN.
Proof.
  intros Hi Hlen. unfold pct_change, shift.
  rewrite lookup_zip_with.
  destruct (lookup_lt_is_Some_2 s i Hlen) as [x ->].
  cbn [mbind option_bind].
  rewrite lookup_take_lt by assumption.
  rewrite lookup_app_l by (rewrite length_replicate; assumption).
  rewrite lookup_replicate_2 by assumption.
  cbn [mbind option_bind]. destruct x; reflexivity.
Qed.

Lemma map_soxl_bar_closes (bars : list SoxlBacktest.Bar) :
  map (fun b => Some (SoxlBacktest.bar_index_close b)) bars
  = map Some (map SoxlBacktest.bar_index_close bars).
Proof. now rewrite map_map. Qed.

(** The rows of the signal frame of [soxl_backtest.py] are the bars
    from the 200th on. *)
Lemma soxl_signal_frame_dates (use_shorts : bool) (bars : list SoxlBacktest.Bar) :
  Forall (fun b => 0 < SoxlBacktest.bar_index_close b) bars ->
  map SoxlBacktest.sr_date (SoxlBacktest.signal_frame use_shorts bars)
  = map SoxlBacktest.bar_date (drop 199 bars).
Proof.
  intros Hpos. unfold SoxlBacktest.signal_frame. rewrite map_soxl_bar_closes.
  set (qs := map SoxlBacktest.bar_index_close bars).
  set (s200 := rolling_mean SoxlBacktest.MA_LONG (map Some qs)).
  set (s50 := rolling_mean SoxlBacktest.MA_SHORT (map Some qs)).
  set (roc := pct_change SoxlBacktest.ROC_PERIOD (map Some qs)).
  assert (Hq : length qs = length bars) by (unfold qs; apply length_map).
  assert (Hqpos : Forall (fun x => 0 < x) qs).
  { unfold qs. apply Forall_fmap. exact Hpos. }
  rewrite (omap_drop_none _ (zip (zip (zip bars s200) s50) roc) 199).
  - rewrite (map_omap_some _
               (fun x => SoxlBacktest.bar_date (fst (fst (fst x))))).
    + rewrite !zip_with_drop.
      rewrite <- (map_map (fun x => fst (fst (fst x))) SoxlBacktest.bar_date).
      f_equal.
      rewrite <- (map_map fst (fun x => fst (fst x))).
      rewrite <- (map_map fst fst).
      change (map fst ?l) with (l.*1).
      rewrite !fst_zip; [reflexivity| | |];
        unfold roc, s50, s200, rolling_mean;
        rewrite ?length_zip_with, !length_drop, ?length_rolling,
          ?DualMaFacts.length_pct_change, ?length_map; lia.
    + intros [[[b a200] a50] r] Hin.
      apply list_elem_of_lookup in Hin as [i Hi].
      rewrite lookup_drop in Hi.
      apply lookup_zip_with_Some in Hi as (x1 & r' & [= <- <-] & Hi & Hroc).
      apply lookup_zip_with_Some in Hi as (x2 & a50' & [= <- <-] & Hi & H50).
      apply lookup_zip_with_Some in Hi as (b' & a200' & [= <- <-] & Hb & H200).
      assert (Hlt : (199 + i < length qs)%nat).
      { rewrite Hq. eapply lookup_lt_Some; eassumption. }
      unfold s200, SoxlBacktest.MA_LONG in H200.
      rewrite rolling_mean_at in H200 by lia. injection H200 as <-.
      unfold s50, SoxlBacktest.MA_SHORT in H50.
      rewrite rolling_mean_at in H50 by lia. injection H50 as <-.
      destruct (lookup_lt_is_Some_2 qs (199 + i)%nat Hlt) as [x Hx].
      destruct (lookup_lt_is_Some_2 qs (199 + i - 20)%nat ltac:(lia)) as [p Hp].
      assert (Hppos : 0 < p).
      { rewrite Forall_lookup in Hqpos. eapply Hqpos; eassumption. }
      unfold roc, SoxlBacktest.ROC_PERIOD in Hroc.
      rewrite (pct_change_at 20 (199 + i) qs x p) in Hroc
        by (lia || assumption || lra).
      injection Hroc as <-. eexists. split; reflexivity.
  - intros i [[[b a200] a50] r] Hi Hx.
    apply lookup_zip_with_Some in Hx as (x1 & r' & [= <- <-] & Hx & Hroc).
    apply lookup_zip_with_Some in Hx as (x2 & a50' & [= <- <-] & Hx & H50).
    apply lookup_zip_with_Some in Hx as (b' & a200' & [= <- <-] & Hb & H200).
    assert (Hlt : (i < length (map Some qs))%nat).
    { rewrite length_map, Hq. eapply lookup_lt_Some; eassumption. }
    unfold s200, rolling_mean, SoxlBacktest.MA_LONG in H200.
    rewrite rolling_lookup_short in H200 by (assumption || lia).
    injection H200 as <-. reflexivity.
Qed.

Lemma soxl_lagged_dates (has_short : bool) (previous : SoxlBacktest.SignalRow)
      (rest : list SoxlBacktest.SignalRow) :
  map (fun x : SoxlBacktest.SignalRow * Q * Q * Q =>
         SoxlBacktest.sr_date (fst (fst (fst x))))
      (SoxlBacktestTerms.lagged has_short previous rest)
  = map SoxlBacktest.sr_date rest.
Proof.
  revert previous. induction rest as [|r rest IH]; intros previous;
    [reflexivity|].
  cbn [SoxlBacktestTerms.lagged map fst]. f_equal. apply IH.
Qed.

Lemma soxl_final_frame_dates (cap : Q)
      (rows : list (SoxlBacktest.SignalRow * Q * Q * Q)) :
  map SoxlBacktest.date (SoxlBacktest.final_frame cap rows)
  = map (fun x : SoxlBacktest.SignalRow * Q * Q * Q =>
           SoxlBacktest.sr_date (fst (fst (fst x))))
        rows.
Proof.
  apply list_eq. intros t.
  change (map ?f ?l) with (f <$> l). rewrite !list_lookup_fmap.
  destruct (rows !! t) as [[[[r l] s] st]|] eqn:Hr.
  - destruct (SoxlBacktestFacts.soxl_final_frame_lookup cap rows t r l s st Hr)
      as (row & -> & Hd & _).
    cbn. unfold SoxlBacktest.date. now rewrite Hd.
  - rewrite lookup_ge_None_2; [reflexivity|].
    rewrite SoxlBacktestFacts.soxl_length_final_frame.
    now apply lookup_ge_None_1.
Qed.

(** The index close of an aligned bar comes from the index series. *)
Lemma soxl_aligned_index_close (idx_close long_close : IndexedSeries)
      (short_close : option IndexedSeries) (b : SoxlBacktest.Bar) :
  b ∈ SoxlBacktest.aligned_closes idx_close long_close short_close ->
  (SoxlBacktest.bar_date b, Some (SoxlBacktest.bar_index_close b)) ∈ idx_close.
Proof.
  unfold SoxlBacktest.aligned_closes, align2. rewrite list_elem_of_omap.
  intros ([[d i] l] & Hin & Hb).
  apply list_elem_of_fmap in Hin as (d' & [= -> -> ->] & _).
  destruct (at_date d' idx_close) as [x|] eqn:E; [|discriminate].
  destruct (at_date d' long_close) as [y|]; [|discriminate].
  destruct short_close as [s|].
  - destruct (at_date d' s) as [z|]; [|discriminate].
    injection Hb as <-. simpl. now apply at_date_elem.
  - injection Hb as <-. simpl. now apply at_date_elem.
Qed.

(** The days of the final frame of [soxl_backtest.py]. *)
Lemma soxl_backtest_frame_dates (idx_close long_close : IndexedSeries)
      (short_close : option IndexedSeries) (cap : Q) (use_shorts : bool) :
  positive_closes idx_close = true ->
  positive_closes long_close = true ->
  SoxlBacktestTerms.positive_short short_close = true ->
  map SoxlBacktest.date
      (SoxlBacktest.backtest_frame idx_close long_close short_close cap use_shorts)
  = drop 200
         (map SoxlBacktest.bar_date
              (SoxlBacktest.aligned_closes idx_close long_close short_close)).
Proof.
  intros Hidx Hlong Hshort. unfold SoxlBacktest.backtest_frame.
  pose proof (SoxlBacktestFacts.soxl_signal_range_sound idx_close long_close
                short_close use_shorts Hlong Hshort) as Hsound.
  assert (Hbars : Forall (fun b => 0 < SoxlBacktest.bar_index_close b)
                         (SoxlBacktest.aligned_closes idx_close long_close
                                                      short_close)).
  { rewrite Forall_forall. intros b Hb.
    apply soxl_aligned_index_close in Hb.
    exact (positive_closes_elem idx_close _ _ Hidx Hb). }
  pose proof (soxl_signal_frame_dates use_shorts _ Hbars) as Hdates.
  set (bars := SoxlBacktest.aligned_closes idx_close long_close short_close) in *.
  set (hs := use_shorts && bool_decide (is_Some short_close)) in *.
  set (rows := SoxlBacktest.signal_frame use_shorts bars) in *.
  assert (Hprice : Forall (SoxlBacktestTerms.priced hs) rows).
  { eapply Forall_impl; [exact Hsound|]. intros r [Hr _]. exact Hr. }
  rewrite soxl_final_frame_dates,
    (SoxlBacktestFacts.soxl_returns_frame_lagged hs rows Hprice).
  change 200%nat with (199 + 1)%nat.
  rewrite <- (drop_drop _ 1 199).
  change (map SoxlBacktest.bar_date bars) with (SoxlBacktest.bar_date <$> bars).
  rewrite <- fmap_drop.
  change (SoxlBacktest.bar_date <$> drop 199 bars)
    with (map SoxlBacktest.bar_date (drop 199 bars)).
  rewrite <- Hdates.
  destruct rows as [|r0 rest]; [reflexivity|].
  rewrite soxl_lagged_dates. reflexivity.
Qed.

End RangeFacts.

Module RangeExtras.
Import Examples MoreExamples.
Import RangeFacts MetricFacts.

Lemma last_drop {A : Type} (n : nat) (l : list A) :
  (n < length l)%nat -> last (drop n l) = last l.
Proof.
  intros Hn. rewrite !last_lookup, lookup_drop, length_drop. f_equal. lia.
Qed.

Lemma head_drop {A : Type} (n : nat) (l : list A) : head (drop n l) = l !! n.
Proof. rewrite head_lookup, lookup_drop. f_equal. lia. Qed.

Lemma head_map {A B : Type} (f : A -> B) (l : list A) :
  head (map f l) = f <$> head l.
Proof. destruct l; reflexivity. Qed.

(** X22: the single-MA backtest simulates the common days after the
    first [ma_period].  With positive fund closes and a window of at
    least one day, the rows of the frame that [run_backtest] builds
    are dated by the days on which both series have a close, without
    the first [ma_period] of them.  With [ma_period] common days or
    fewer nothing is left and [calculate_metrics] raises
    [IndexError]; with more, the metrics are returned, the start date
    is the common day number [ma_period] (counted from 0), the end
    date is the last common day, and the years are the number of
    remaining days over 252. *)
Theorem single_ma_backtest_starts_after_the_window `{FloatLib}
    (index_close etf_close : IndexedSeries) (ma_period : nat) (cap : Q) :
  positive_closes etf_close = true -> (1 <= ma_period)%nat ->
  let days :=
    map Backtest.bar_date (Backtest.aligned_closes index_close etf_close) in
  let data := Backtest.combined_frame index_close etf_close ma_period cap in
  map Backtest.date data = drop ma_period days /\
  ((length days <= ma_period)%nat ->
   Backtest.calculate_metrics data cap = Raise IndexError) /\
  ((ma_period < length days)%nat ->
   exists m,
     Backtest.calculate_metrics data cap = Ok m /\
     days !! ma_period = Some (Backtest.start_date m) /\
     last days = Some (Backtest.end_date m) /\
     Backtest.years m = py_round (of_nat (length days - ma_period) / 252) 2).
Proof.
  intros Hpos H1 days data.
  pose proof (tqqq_combined_frame_dates index_close etf_close ma_period cap
                Hpos H1) as Hdates.
  fold days data in Hdates.
  split; [exact Hdates|]. split.
  - intros Hle. rewrite drop_ge in Hdates by assumption.
    destruct data; [reflexivity|discriminate].
  - intros Hlt.
    assert (Hlen : length data = (length days - ma_period)%nat).
    { rewrite <- (length_map Backtest.date data), Hdates, length_drop.
      reflexivity. }
    assert (Hne : data <> []).
    { intros E. rewrite E in Hlen. simpl in Hlen. lia. }
    destruct (tqqq_metrics_fields data cap Hne)
      as (m & first & final & ar & Hm & Hf & Hl & Hsd & Hed & Hy & _).
    exists m. split; [exact Hm|].
    split.
    { rewrite <- head_drop, <- Hdates, Hsd.
      now rewrite head_map, Hf. }
    split.
    { rewrite <- (last_drop ma_period) by assumption.
      rewrite <- Hdates, Hed.
      change (map Backtest.date data) with (Backtest.date <$> data).
      now rewrite fmap_last, Hl. }
    now rewrite Hy, Hlen.
Qed.

Lemma single_ma_backtest_starts_after_the_window_witness :
  let days :=
    map Backtest.bar_date
        (Backtest.aligned_closes (dated five_index_closes)
                                 (dated five_etf_closes)) in
  let data :=
    Backtest.combined_frame (dated five_index_closes) (dated five_etf_closes)
                            2 100000 in
  map Backtest.date data = drop 2 days /\
  ((length days <= 2)%nat ->
   @Backtest.calculate_metrics example_floatlib data 100000 = Raise IndexError) /\
  ((2 < length days)%nat ->
   exists m,
     @Backtest.calculate_metrics example_floatlib data 100000 = Ok m /\
     days !! 2%nat = Some (Backtest.start_date m) /\
     last days = Some (Backtest.end_date m) /\
     Backtest.years m = py_round (of_nat (length days - 2) / 252) 2).
Proof.
  apply (@single_ma_backtest_starts_after_the_window example_floatlib
           (dated five_index_closes) (dated five_etf_closes) 2 100000).
  - reflexivity.
  - lia.
Defined.

(** X23: the dual-MA backtest simulates the common days after the
    first 200.  With positive closes, the rows of the frame that
    [run_backtest] builds are dated by the days on which all series
    in use have a close, without the first 200 of them (199 for the
    long average and one for the first return).  With 200 common days
    or fewer [calculate_metrics] raises [IndexError]; with more, the
    metrics are returned with the start date on the common day number
    200 (counted from 0) and the end date on the last one. *)
Theorem dual_ma_backtest_starts_after_200_days `{FloatLib}
    (idx_close long_close : IndexedSeries) (short_close : option IndexedSeries)
    (cap : Q) (use_shorts : bool) :
  positive_closes idx_close = true ->
  positive_closes long_close = true ->
  SoxlBacktestTerms.positive_short short_close = true ->
  let days :=
    map SoxlBacktest.bar_date
        (SoxlBacktest.aligned_closes idx_close long_close short_close) in
  let data :=
    SoxlBacktest.backtest_frame idx_close long_close short_close cap use_shorts in
  map SoxlBacktest.date data = drop 200 days /\
  ((length days <= 200)%nat ->
   SoxlBacktest.calculate_metrics data cap use_shorts = Raise IndexError) /\
  ((200 < length days)%nat ->
   exists m,
     SoxlBacktest.calculate_metrics data cap use_shorts = Ok m /\
     days !! 200%nat = Some (SoxlBacktest.start_date m) /\
     last days = Some (SoxlBacktest.end_date m) /\
     SoxlBacktest.years m = py_round (of_nat (length days - 200) / 252) 2).
Proof.
  intros Hidx Hlong Hshort days data.
  pose proof (soxl_backtest_frame_dates idx_close long_close short_close cap
                use_shorts Hidx Hlong Hshort) as Hdates.
  fold days data in Hdates.
  split; [exact Hdates|]. split.
  - intros Hle. rewrite drop_ge in Hdates by assumption.
    destruct data; [reflexivity|discriminate].
  - intros Hlt.
    assert (Hlen : length data = (length days - 200)%nat).
    { rewrite <- (length_map SoxlBacktest.date data), Hdates, length_drop.
      reflexivity. }
    assert (Hne : data <> []).
    { intros E. rewrite E in Hlen. simpl in Hlen. lia. }
    destruct (soxl_metrics_fields data cap use_shorts Hne)
      as (m & first & final & ar & Hm & Hf & Hl & Hsd & Hed & Hy & _).
    exists m. split; [exact Hm|].
    split.
    { rewrite <- head_drop, <- Hdates, Hsd.
      now rewrite head_map, Hf. }
    split.
    { rewrite <- (last_drop 200) by assumption.
      rewrite <- Hdates, Hed.
      change (map SoxlBacktest.date data) with (SoxlBacktest.date <$> data).
      now rewrite fmap_last, Hl. }
    now rewrite Hy, Hlen.
Qed.

Lemma dual_ma_backtest_starts_after_200_days_witness :
  let days :=
    map SoxlBacktest.bar_date
        (SoxlBacktest.aligned_closes (dated rising_closes) (dated rising_closes)
                                     None) in
  let data :=
    SoxlBacktest.backtest_frame (dated rising_closes) (dated rising_closes)
                                None 100000 false in
  map SoxlBacktest.date data = drop 200 days /\
  ((length days <= 200)%nat ->
   @SoxlBacktest.calculate_metrics example_floatlib data 100000 false
     = Raise IndexError) /\
  ((200 < length days)%nat ->
   exists m,
     @SoxlBacktest.calculate_metrics example_floatlib data 100000 false = Ok m /\
     days !! 200%nat = Some (SoxlBacktest.start_date m) /\
     last days = Some (SoxlBacktest.end_date m) /\
     SoxlBacktest.years m = py_round (of_nat (length days - 200) / 252) 2).
Proof.
  apply (@dual_ma_backtest_starts_after_200_days example_floatlib
           (dated rising_closes) (dated rising_closes) None 100000 false).
  - vm_compute. reflexivity.
  - vm_compute. reflexivity.
  - reflexivity.
Defined.

(** The positions of the final frame of [soxl_backtest.py]. *)
Lemma soxl_frame_positions (idx_close long_close : IndexedSeries)
      (short_close : option IndexedSeries) (cap : Q) (use_shorts : bool) :
  positive_closes long_close = true ->
  SoxlBacktestTerms.positive_short short_close = true ->
  Forall (fun r => SoxlBacktest.position r = 0%Z \/
                   SoxlBacktest.position r = 1%Z \/
                   (use_shorts = true /\ SoxlBacktest.position r = (-1)%Z))
         (SoxlBacktest.backtest_frame idx_close long_close short_close cap
                                      use_shorts).
Proof.
  intros Hlong Hshort.
  destruct (BacktestClaims.soxl_lag idx_close long_close short_close cap
              use_shorts Hlong Hshort) as [Hlen Hlag].
  pose proof (SoxlBacktestFacts.soxl_signal_range_sound idx_close long_close
                short_close use_shorts Hlong Hshort) as Hsound.
  set (sig := SoxlBacktest.signal_frame use_shorts
                (SoxlBacktest.aligned_closes idx_close long_close short_close))
    in *.
  rewrite Forall_lookup. intros t row Hrow.
  assert (Ht : (t < length (SoxlBacktest.backtest_frame idx_close long_close
                              short_close cap use_shorts))%nat)
    by (eapply lookup_lt_Some; eassumption).
  destruct (lookup_lt_is_Some_2 sig t) as [p Hp]; [lia|].
  destruct (lookup_lt_is_Some_2 sig (S t)) as [c Hc]; [lia|].
  destruct (Hlag t p c Hp Hc) as (row' & Hrow' & Hsig & _).
  assert (row' = row) by congruence. subst row'.
  rewrite Forall_lookup in Hsound. destruct (Hsound _ _ Hc) as [_ Hrange].
  unfold SoxlBacktest.position. rewrite Hsig. exact Hrange.
Qed.

(** X24: the three shares of the time in the market add up to the whole.
    On the frame that the dual-MA backtest builds from positive
    closes, if it has a row, the shares of the rows held long, short
    and in cash are defined, not negative, and sum to 1; the metrics
    report each of them as a percentage rounded to one decimal; and
    without [use_shorts] the short share is 0. *)
Theorem time_in_market_adds_up `{FloatLib}
    (idx_close long_close : IndexedSeries) (short_close : option IndexedSeries)
    (cap : Q) (use_shorts : bool) :
  positive_closes long_close = true ->
  SoxlBacktestTerms.positive_short short_close = true ->
  let data :=
    SoxlBacktest.backtest_frame idx_close long_close short_close cap use_shorts in
  data <> [] ->
  exists (m : SoxlBacktest.Metrics) (l s c : Q),
    SoxlBacktest.calculate_metrics data cap use_shorts = Ok m /\
    SoxlBacktest.time_in 1 (map SoxlBacktest.position data) = Some l /\
    SoxlBacktest.time_in (-1) (map SoxlBacktest.position data) = Some s /\
    SoxlBacktest.time_in 0 (map SoxlBacktest.position data) = Some c /\
    0 <= l /\ 0 <= s /\ 0 <= c /\ l + s + c == 1 /\
    SoxlBacktest.time_long m = Some (py_round (l * 100) 1) /\
    SoxlBacktest.time_short m = Some (py_round (s * 100) 1) /\
    SoxlBacktest.time_cash m = Some (py_round (c * 100) 1) /\
    (use_shorts = false -> s == 0).
Proof.
  intros Hlong Hshort data Hne.
  pose proof (soxl_frame_positions idx_close long_close short_close cap
                use_shorts Hlong Hshort) as Hpos.
  fold data in Hpos.
  destruct (soxl_metrics_fields data cap use_shorts Hne)
    as (m & first & final & ar & Hm & _ & _ & _ & _ & _ & _ & _ & _ & _ & _ & _
        & _ & _ & _ & Htl & Hts & Htc & _).
  destruct (time_in_shares (map SoxlBacktest.position data))
    as (l & s & c & Hl & Hs & Hc & H0l & H0s & H0c & Hsum).
  { intros E. apply Hne. destruct data; [reflexivity|discriminate]. }
  { apply Forall_fmap. eapply Forall_impl; [exact Hpos|].
    intros r [?|[?|[_ ?]]]; auto. }
  exists m, l, s, c. split; [exact Hm|].
  repeat (split; [assumption|]).
  rewrite Hl in Htl. rewrite Hs in Hts. rewrite Hc in Htc.
  repeat (split; [assumption|]).
  intros ->.
  assert (Hnone : count_if (fun p => (p =? -1)%Z)
                           (map SoxlBacktest.position data) = 0%nat).
  { apply count_if_none. apply Forall_fmap.
    eapply Forall_impl; [exact Hpos|].
    intros r Hr. unfold compose.
    destruct Hr as [E|[E|[E _]]]; [now rewrite E|now rewrite E|discriminate]. }
  unfold SoxlBacktest.time_in in Hs. rewrite Hnone in Hs.
  unfold fdiv in Hs.
  destruct (Qeq_bool (of_nat (length (map SoxlBacktest.position data))) 0);
    [discriminate|].
  injection Hs as <-. unfold of_nat at 1. simpl. unfold Qdiv. ring.
Qed.

Lemma time_in_market_adds_up_witness :
  exists (m : SoxlBacktest.Metrics) (l s c : Q),
    @SoxlBacktest.calculate_metrics example_floatlib rising_days 100000 false
      = Ok m /\
    SoxlBacktest.time_in 1 (map SoxlBacktest.position rising_days) = Some l /\
    SoxlBacktest.time_in (-1) (map SoxlBacktest.position rising_days) = Some s /\
    SoxlBacktest.time_in 0 (map SoxlBacktest.position rising_days) = Some c /\
    0 <= l /\ 0 <= s /\ 0 <= c /\ l + s + c == 1 /\
    SoxlBacktest.time_long m = Some (py_round (l * 100) 1) /\
    SoxlBacktest.time_short m = Some (py_round (s * 100) 1) /\
    SoxlBacktest.time_cash m = Some (py_round (c * 100) 1) /\
    (false = false -> s == 0).
Proof.
  apply (@time_in_market_adds_up example_floatlib
           (dated rising_closes) (dated rising_closes) None 100000 false).
  - vm_compute. reflexivity.
  - reflexivity.
  - vm_compute. discriminate.
Defined.

End RangeExtras.
(* ================================================================== *)
(** * Runs that never change their position *)

Module InvestedFacts.

Lemma cumprod_from_Qeq (a a' : Q) (l l' : list Q) :
  a == a' -> Forall2 Qeq l l' ->
  Forall2 Qeq (cumprod_from a l) (cumprod_from a' l').
Proof.
  intros Ha Hl. revert a a' Ha.
  induction Hl as [|x x' l l' Hx _ IH]; intros a a' Ha; cbn; constructor.
  - now rewrite Ha, Hx.
  - apply IH. now rewrite Ha, Hx.
Qed.

Lemma cumprod_from_ones (a : Q) (l : list Q) :
  a == 1 -> Forall (fun x => x == 1) l ->
  Forall (fun x => x == 1) (cumprod_from a l).
Proof.
  intros Ha Hl. revert a Ha.
  induction Hl as [|x l Hx _ IH]; intros a Ha; cbn; constructor.
  - rewrite Ha, Hx. reflexivity.
  - apply IH. rewrite Ha, Hx. reflexivity.
Qed.

(** A row of the final frame of [backtest.py]. *)
Lemma tqqq_final_frame_row (cap : Q)
      (rows : list (Backtest.SignalRow * Q * Q)) (t : nat) (row : Backtest.Row) :
  Backtest.final_frame cap rows !! t = Some row ->
  exists r e s sc bc,
    rows !! t = Some (r, e, s) /\
    cumprod (map BacktestTerms.growth_of rows) !! t = Some sc /\
    cumprod (map BacktestTerms.hold_growth_of rows) !! t = Some bc /\
    Backtest.strategy_return row = s /\
    Backtest.etf_return row = e /\
    Backtest.buy_hold_return row = e /\
    Backtest.strategy_cumulative row = sc /\
    Backtest.buy_hold_cumulative row = bc /\
    Backtest.strategy_value row = cap * sc /\
    Backtest.buy_hold_value row = cap * bc.
Proof.
  rewrite BacktestFacts.tqqq_final_frame_unfold.
  intros Hrow.
  apply lookup_zip_with_Some in Hrow as ([[r e] s] & [sc bc] & -> & Hr & Hc).
  apply lookup_zip_with_Some in Hc as (sc' & bc' & [= <- <-] & Hsc & Hbc).
  exists r, e, s, sc, bc. repeat split; assumption.
Qed.

(** The lagged rows when the signal is the same on every day. *)
Lemma tqqq_lagged_constant (z : Z) (previous : Backtest.SignalRow)
      (rest : list Backtest.SignalRow) :
  Forall (fun r => Backtest.sr_signal r = z) (previous :: rest) ->
  Forall (fun x : Backtest.SignalRow * Q * Q =>
            snd x = inject_Z z * snd (fst x))
         (BacktestTerms.lagged previous rest).
Proof.
  revert previous. induction rest as [|r rest IH]; intros previous Hall;
    [constructor|].
  inversion Hall as [|? ? Hp Hrest]; subst.
  cbn [BacktestTerms.lagged]. constructor; [reflexivity|].
  apply IH. assumption.
Qed.

(** A row of the final frame of [soxl_backtest.py]. *)
Lemma soxl_final_frame_row (cap : Q)
      (rows : list (SoxlBacktest.SignalRow * Q * Q * Q)) (t : nat)
      (row : SoxlBacktest.Row) :
  SoxlBacktest.final_frame cap rows !! t = Some row ->
  exists r l s st sc bc,
    rows !! t = Some (r, l, s, st) /\
    cumprod (map SoxlBacktestTerms.growth_of rows) !! t = Some sc /\
    cumprod (map SoxlBacktestTerms.hold_growth_of rows) !! t = Some bc /\
    SoxlBacktest.row_signal row = r /\
    SoxlBacktest.strategy_return row = st /\
    SoxlBacktest.long_return row = l /\
    SoxlBacktest.short_return row = s /\
    SoxlBacktest.buy_hold_return row = l /\
    SoxlBacktest.strategy_cumulative row = sc /\
    SoxlBacktest.buy_hold_cumulative row = bc /\
    SoxlBacktest.strategy_value row = cap * sc /\
    SoxlBacktest.buy_hold_value row = cap * bc.
Proof.
  rewrite SoxlBacktestFacts.soxl_final_frame_unfold.
  intros Hrow.
  apply lookup_zip_with_Some in Hrow
      as ([[[r l] s] st] & [sc bc] & -> & Hr & Hc).
  apply lookup_zip_with_Some in Hc as (sc' & bc' & [= <- <-] & Hsc & Hbc).
  exists r, l, s, st, sc, bc. repeat split; assumption.
Qed.

Lemma soxl_lagged_constant (has_short : bool) (z : Z)
      (previous : SoxlBacktest.SignalRow) (rest : list SoxlBacktest.SignalRow) :
  Forall (fun r => SoxlBacktest.sr_position r = z) (previous :: rest) ->
  Forall (fun x : SoxlBacktest.SignalRow * Q * Q * Q =>
            snd x = SoxlBacktestTerms.exposure_return z (snd (fst (fst x)))
                                                      (snd (fst x)))
         (SoxlBacktestTerms.lagged has_short previous rest).
Proof.
  revert previous. induction rest as [|r rest IH]; intros previous Hall;
    [constructor|].
  inversion Hall as [|? ? Hp Hrest]; subst.
  cbn [SoxlBacktestTerms.lagged]. constructor; [reflexivity|].
  apply IH. assumption.
Qed.

(** The two cumulative columns agree when the factors do. *)
Lemma cumprod_agree {A : Type} (g g' : A -> Q) (rows : list A) :
  Forall (fun x => g x == g' x) rows ->
  Forall2 Qeq (cumprod (map g rows)) (cumprod (map g' rows)).
Proof.
  intros Hall. apply cumprod_from_Qeq; [reflexivity|].
  induction Hall; cbn; constructor; assumption.
Qed.

Lemma cumprod_flat {A : Type} (g : A -> Q) (rows : list A) :
  Forall (fun x => g x == 1) rows ->
  Forall (fun x => x == 1) (cumprod (map g rows)).
Proof.
  intros Hall. apply cumprod_from_ones; [reflexivity|].
  induction Hall; cbn; constructor; assumption.
Qed.

End InvestedFacts.

Module InvestedExtras.
Import Examples MoreExamples.
Import InvestedFacts.

(** X25: a strategy that is always long is buy and hold, one that is
    always in cash keeps its capital.  In the frame that the single-MA
    backtest builds from positive fund closes: if the signal is 1 on
    every day of the signal range, every row has the strategy's
    return, cumulative return and portfolio value equal to those of
    buy and hold; if the signal is 0 on every day, every row has a
    strategy return of 0, a cumulative return of 1 and a portfolio
    value equal to the initial capital.  The same holds for the
    dual-MA backtest with the positions 1 and 0. *)
Theorem constant_position_runs
    (index_close etf_close : IndexedSeries) (ma_period : nat) (cap : Q)
    (idx_close long_close : IndexedSeries) (short_close : option IndexedSeries)
    (cap' : Q) (use_shorts : bool) :
  positive_closes etf_close = true ->
  positive_closes long_close = true ->
  SoxlBacktestTerms.positive_short short_close = true ->
  let sig :=
    Backtest.signal_frame ma_period
      (Backtest.aligned_closes index_close etf_close) in
  let data := Backtest.combined_frame index_close etf_close ma_period cap in
  let sig' :=
    SoxlBacktest.signal_frame use_shorts
      (SoxlBacktest.aligned_closes idx_close long_close short_close) in
  let data' :=
    SoxlBacktest.backtest_frame idx_close long_close short_close cap' use_shorts in
  (Forall (fun r => Backtest.sr_signal r = 1%Z) sig ->
   Forall (fun row =>
             Backtest.strategy_return row == Backtest.buy_hold_return row /\
             Backtest.strategy_cumulative row == Backtest.buy_hold_cumulative row /\
             Backtest.strategy_value row == Backtest.buy_hold_value row) data) /\
  (Forall (fun r => Backtest.sr_signal r = 0%Z) sig ->
   Forall (fun row =>
             Backtest.strategy_return row == 0 /\
             Backtest.strategy_cumulative row == 1 /\
             Backtest.strategy_value row == cap) data) /\
  (Forall (fun r => SoxlBacktest.sr_position r = 1%Z) sig' ->
   Forall (fun row =>
             SoxlBacktest.strategy_return row == SoxlBacktest.buy_hold_return row /\
             SoxlBacktest.strategy_cumulative row
               == SoxlBacktest.buy_hold_cumulative row /\
             SoxlBacktest.strategy_value row == SoxlBacktest.buy_hold_value row)
          data') /\
  (Forall (fun r => SoxlBacktest.sr_position r = 0%Z) sig' ->
   Forall (fun row =>
             SoxlBacktest.strategy_return row == 0 /\
             SoxlBacktest.strategy_cumulative row == 1 /\
             SoxlBacktest.strategy_value row == cap') data').
Proof.
  intros Hetf Hlong Hshort sig data sig' data'.
  assert (Htq : forall z : Z,
            Forall (fun r => Backtest.sr_signal r = z) sig ->
            Forall (fun x : Backtest.SignalRow * Q * Q =>
                      snd x = inject_Z z * snd (fst x))
                   (Backtest.returns_frame sig)).
  { intros z Hall.
    pose proof (BacktestFacts.tqqq_signal_range_sound index_close etf_close
                  ma_period Hetf) as Hsound.
    fold sig in Hsound.
    assert (Hprice : Forall (fun r => 0 < Backtest.sr_etf_close r) sig).
    { eapply Forall_impl; [exact Hsound|]. intros r [Hr _]. exact Hr. }
    rewrite (BacktestFacts.tqqq_returns_frame_lagged sig Hprice).
    destruct sig as [|r0 rest]; [constructor|].
    now apply tqqq_lagged_constant. }
  assert (Hsx : forall z : Z,
            Forall (fun r => SoxlBacktest.sr_position r = z) sig' ->
            Forall (fun x : SoxlBacktest.SignalRow * Q * Q * Q =>
                      snd x = SoxlBacktestTerms.exposure_return
                                z (snd (fst (fst x))) (snd (fst x)))
                   (SoxlBacktest.returns_frame
                      (use_shorts && bool_decide (is_Some short_close)) sig')).
  { intros z Hall.
    pose proof (SoxlBacktestFacts.soxl_signal_range_sound idx_close long_close
                  short_close use_shorts Hlong Hshort) as Hsound.
    fold sig' in Hsound.
    assert (Hprice : Forall (SoxlBacktestTerms.priced
                               (use_shorts && bool_decide (is_Some short_close)))
                            sig').
    { eapply Forall_impl; [exact Hsound|]. intros r [Hr _]. exact Hr. }
    rewrite (SoxlBacktestFacts.soxl_returns_frame_lagged _ sig' Hprice).
    destruct sig' as [|r0 rest]; [constructor|].
    now apply soxl_lagged_constant. }
  split; [|split; [|split]].
  - intros Hall. specialize (Htq 1%Z Hall).
    unfold data, Backtest.combined_frame. fold sig.
    set (rows := Backtest.returns_frame sig) in *.
    assert (Hg : Forall (fun x => BacktestTerms.growth_of x
                                  == BacktestTerms.hold_growth_of x) rows).
    { eapply Forall_impl; [exact Htq|]. intros [[r e] s]. cbn. intros ->.
      change (inject_Z 1) with 1. ring. }
    pose proof (cumprod_agree _ _ rows Hg) as Hcum.
    rewrite Forall_lookup. intros t row Hrow.
    destruct (tqqq_final_frame_row cap rows t row Hrow)
      as (r & e & s & sc & bc & Hr & Hsc & Hbc & -> & _ & -> & -> & -> & -> & ->).
    rewrite Forall_lookup in Htq. specialize (Htq _ _ Hr). cbn in Htq.
    pose proof (Forall2_lookup_lr _ _ _ _ _ _ Hcum Hsc Hbc) as Heq.
    split; [rewrite Htq; change (inject_Z 1) with 1; ring|].
    split; [exact Heq|]. now rewrite Heq.
  - intros Hall. specialize (Htq 0%Z Hall).
    unfold data, Backtest.combined_frame. fold sig.
    set (rows := Backtest.returns_frame sig) in *.
    assert (Hg : Forall (fun x => BacktestTerms.growth_of x == 1) rows).
    { eapply Forall_impl; [exact Htq|]. intros [[r e] s]. cbn. intros ->.
      change (inject_Z 0) with 0. ring. }
    pose proof (cumprod_flat _ rows Hg) as Hcum.
    rewrite Forall_lookup. intros t row Hrow.
    destruct (tqqq_final_frame_row cap rows t row Hrow)
      as (r & e & s & sc & bc & Hr & Hsc & Hbc & -> & _ & _ & -> & _ & -> & _).
    rewrite Forall_lookup in Htq. specialize (Htq _ _ Hr). cbn in Htq.
    rewrite Forall_lookup in Hcum. specialize (Hcum _ _ Hsc). cbn in Hcum.
    split; [rewrite Htq; change (inject_Z 0) with 0; ring|].
    split; [exact Hcum|]. rewrite Hcum. ring.
  - intros Hall. specialize (Hsx 1%Z Hall).
    unfold data', SoxlBacktest.backtest_frame. fold sig'.
    set (rows := SoxlBacktest.returns_frame _ sig') in *.
    assert (Hg : Forall (fun x => SoxlBacktestTerms.growth_of x
                                  == SoxlBacktestTerms.hold_growth_of x) rows).
    { eapply Forall_impl; [exact Hsx|]. intros [[[r l] s] st]. cbn. intros ->.
      reflexivity. }
    pose proof (cumprod_agree _ _ rows Hg) as Hcum.
    rewrite Forall_lookup. intros t row Hrow.
    destruct (soxl_final_frame_row cap' rows t row Hrow)
      as (r & l & s & st & sc & bc & Hr & Hsc & Hbc & _ & -> & _ & _ & -> & ->
          & -> & -> & ->).
    rewrite Forall_lookup in Hsx. specialize (Hsx _ _ Hr). cbn in Hsx.
    pose proof (Forall2_lookup_lr _ _ _ _ _ _ Hcum Hsc Hbc) as Heq.
    split; [rewrite Hsx; reflexivity|].
    split; [exact Heq|]. now rewrite Heq.
  - intros Hall. specialize (Hsx 0%Z Hall).
    unfold data', SoxlBacktest.backtest_frame. fold sig'.
    set (rows := SoxlBacktest.returns_frame _ sig') in *.
    assert (Hg : Forall (fun x => SoxlBacktestTerms.growth_of x == 1) rows).
    { eapply Forall_impl; [exact Hsx|]. intros [[[r l] s] st]. cbn. intros ->.
      ring. }
    pose proof (cumprod_flat _ rows Hg) as Hcum.
    rewrite Forall_lookup. intros t row Hrow.
    destruct (soxl_final_frame_row cap' rows t row Hrow)
      as (r & l & s & st & sc & bc & Hr & Hsc & Hbc & _ & -> & _ & _ & _ & ->
          & _ & -> & _).
    rewrite Forall_lookup in Hsx. specialize (Hsx _ _ Hr). cbn in Hsx.
    rewrite Forall_lookup in Hcum. specialize (Hcum _ _ Hsc). cbn in Hcum.
    split; [rewrite Hsx; reflexivity|].
    split; [exact Hcum|]. rewrite Hcum. ring.
Qed.

Lemma constant_position_runs_witness :
  Forall (fun row =>
            Backtest.strategy_return row == Backtest.buy_hold_return row /\
            Backtest.strategy_cumulative row == Backtest.buy_hold_cumulative row /\
            Backtest.strategy_value row == Backtest.buy_hold_value row)
         (Backtest.combined_frame (dated climbing_index_closes)
                                  (dated climbing_etf_closes) 2 100000) /\
  Forall (fun row =>
            SoxlBacktest.strategy_return row == 0 /\
            SoxlBacktest.strategy_cumulative row == 1 /\
            SoxlBacktest.strategy_value row == 100000)
         (SoxlBacktest.backtest_frame (dated flat_closes) (dated flat_closes)
                                      None 100000 false).
Proof.
  pose proof (constant_position_runs
                (dated climbing_index_closes) (dated climbing_etf_closes)
                2 100000
                (dated flat_closes) (dated flat_closes) None 100000 false
                eq_refl ltac:(vm_compute; reflexivity) eq_refl)
    as (A & _ & _ & D).
  split.
  - apply A. vm_compute. repeat constructor.
  - apply D. vm_compute. repeat constructor.
Defined.

End InvestedExtras.
(* ================================================================== *)
(** * Running the single-MA backtest again *)

Module RerunFacts.
Import RunFacts.

(** After lines 47-48 the frame has flat labels and the same data. *)
Lemma relabelled_flat (h : heap) (l : loc) (df : DataFrame) :
  h !! l = Some df ->
  exists d, relabelled h l df !! l = Some d /\
            is_MultiIndex (columns d) = false /\ same_data df d.
Proof.
  intros Hl. unfold relabelled.
  destruct (is_MultiIndex (columns df)) eqn:E.
  - rewrite lookup_insert_eq. eexists. split; [reflexivity|].
    split; [|apply same_data_relabel].
    unfold relabel. cbn. now destruct (columns df).
  - exists df. split; [assumption|]. split; [assumption|apply same_data_refl].
Qed.

(** A frame with flat labels keeps them. *)
Lemma relabelled_keeps_flat (h : heap) (l l' : loc) (df df' : DataFrame) :
  h !! l = Some df -> h !! l' = Some df' ->
  is_MultiIndex (columns df') = false ->
  relabelled h l df !! l' = Some df'.
Proof.
  intros Hl Hl' Hflat. unfold relabelled.
  destruct (is_MultiIndex (columns df)) eqn:E; [|assumption].
  destruct (decide (l = l')) as [<-|Hne].
  - congruence.
  - now rewrite lookup_insert_ne.
Qed.

(** Relabelling a frame with flat labels does nothing. *)
Lemma relabelled_id (h : heap) (l : loc) (df : DataFrame) :
  is_MultiIndex (columns df) = false -> relabelled h l df = h.
Proof. intros Hflat. unfold relabelled. now rewrite Hflat. Qed.

End RerunFacts.

Module RerunExtras.
Import Examples MoreExamples.
Import RunFacts RerunFacts.

(** X26: a second run of the single-MA backtest changes nothing more.
    [run_backtest] of [backtest.py] may replace the column labels of
    the caller's two frames by their first level, and nothing else:
    every frame of the store keeps its rows and, under every key, its
    column.  A second call on the store that the first one left
    returns the same result (the same metrics and frame, or the same
    exception) and leaves that store as it is. *)
Theorem second_run_changes_nothing `{FloatLib}
    (h : heap) (index_data etf_data : loc) (df1 df2 : DataFrame)
    (ma_period : nat) (cap : Q) (decay : bool) :
  h !! index_data = Some df1 -> h !! etf_data = Some df2 ->
  exists (r : result (Backtest.Metrics * list Backtest.Row)) (h1 : heap),
    Backtest.run_backtest index_data etf_data ma_period cap decay h = (r, h1) /\
    Backtest.run_backtest index_data etf_data ma_period cap decay h1 = (r, h1) /\
    (forall l df, h !! l = Some df ->
       exists df', h1 !! l = Some df' /\ same_data df df') /\
    (exists d1 d2,
       h1 !! index_data = Some d1 /\ h1 !! etf_data = Some d2 /\
       is_MultiIndex (columns d1) = false /\
       is_MultiIndex (columns d2) = false).
Proof.
  intros H1 H2.
  destruct (relabelled_flat h index_data df1 H1) as (d1 & Hd1 & F1 & S1).
  destruct (lookup_relabelled h index_data etf_data df1 df2 H1 H2)
    as (d2 & Hd2 & S2).
  set (ha := relabelled h index_data df1) in *.
  destruct (relabelled_flat ha etf_data d2 Hd2) as (e2 & He2 & F2 & T2).
  pose proof (relabelled_keeps_flat ha etf_data index_data d2 d1 Hd2 Hd1 F1)
    as He1.
  set (h1 := relabelled ha etf_data d2) in *.
  assert (Hpreserved : forall l df, h !! l = Some df ->
            exists df', h1 !! l = Some df' /\ same_data df df').
  { intros l df Hl.
    destruct (lookup_relabelled h index_data l df1 df H1 Hl) as (da & Ha & Sa).
    destruct (lookup_relabelled ha etf_data l d2 da Hd2 Ha) as (db & Hb & Sb).
    exists db. split; [exact Hb|]. eapply same_data_trans; eassumption. }
  assert (Hfirst : Backtest.run_backtest index_data etf_data ma_period cap decay h
                   = Backtest.run_backtest index_data etf_data ma_period cap
                                           decay h1).
  { unfold Backtest.run_backtest at 1.
    rewrite (relabel_run h index_data df1 _ H1). fold ha.
    rewrite (relabel_run ha etf_data d2 _ Hd2). fold h1.
    unfold Backtest.run_backtest.
    rewrite (relabel_run h1 index_data d1 _ He1).
    rewrite (relabelled_id h1 index_data d1 F1).
    rewrite (relabel_run h1 etf_data e2 _ He2).
    rewrite (relabelled_id h1 etf_data e2 F2).
    reflexivity. }
  destruct (Backtest.run_backtest index_data etf_data ma_period cap decay h1)
    as [r h2] eqn:Hrun.
  assert (h2 = h1).
  { eapply (FrameClaims.run_backtest_flat_columns h1 h2 index_data etf_data d1 e2);
      eassumption. }
  subst h2.
  exists r, h1. split; [exact Hfirst|]. split; [exact Hrun|].
  split; [exact Hpreserved|].
  exists d1, e2. repeat split; assumption.
Qed.

Lemma second_run_changes_nothing_witness :
  let h := store2 (downloaded_frame "^NDX" five_index_closes)
                  (downloaded_frame "TQQQ" five_etf_closes) in
  exists (r : result (Backtest.Metrics * list Backtest.Row)) (h1 : heap),
    @Backtest.run_backtest example_floatlib 0%nat 1%nat 2 100000 true h
      = (r, h1) /\
    @Backtest.run_backtest example_floatlib 0%nat 1%nat 2 100000 true h1
      = (r, h1) /\
    (forall l df, h !! l = Some df ->
       exists df', h1 !! l = Some df' /\ same_data df df') /\
    (exists d1 d2,
       h1 !! 0%nat = Some d1 /\ h1 !! 1%nat = Some d2 /\
       is_MultiIndex (columns d1) = false /\
       is_MultiIndex (columns d2) = false).
Proof.
  apply (@second_run_changes_nothing example_floatlib
           (store2 (downloaded_frame "^NDX" five_index_closes)
                   (downloaded_frame "TQQQ" five_etf_closes))
           0%nat 1%nat
           (downloaded_frame "^NDX" five_index_closes)
           (downloaded_frame "TQQQ" five_etf_closes) 2 100000 true);
    reflexivity.
Defined.

End RerunExtras.
(* ================================================================== *)
(** * Shorting without a short fund *)

Module UnfundedShortFacts.
Import SoxlBacktest SoxlBacktestTerms LongOnlyTerms.

Lemma omap_fmap_ext {A B : Type} (f f' : A -> option B) (g : B -> B)
      (l : list A) :
  (forall x, f' x = g <$> f x) -> omap f' l = map g (omap f l).
Proof.
  intros Hext. induction l as [|x l IH]; [reflexivity|].
  cbn [omap list_omap]. rewrite Hext.
  destruct (f x); cbn; now rewrite IH.
Qed.

Lemma select_position_collapse (a b c d : bool) :
  select_position false a b c d = collapse (select_position true a b c d).
Proof. destruct a, b, c, d; reflexivity. Qed.

(** The signal range of the long-only run is the one of the run with
    shorts, its positions collapsed. *)
Lemma signal_frame_collapse (bars : list Bar) :
  signal_frame false bars = map long_only_signal (signal_frame true bars).
Proof.
  unfold signal_frame. apply omap_fmap_ext.
  intros [[[b s200] s50] r].
  destruct s200, s50, r; try reflexivity.
  cbn. unfold long_only_signal. cbn. now rewrite select_position_collapse.
Qed.

(** What [np.where] selects when the short return is 0. *)
Lemma where_position_collapse (z : Z) (l : float) :
  where_position (Some (inject_Z (collapse z))) l (Some 0)
  = where_position (Some (inject_Z z)) l (Some 0).
Proof.
  unfold collapse. destruct (Z.eqb_spec z (-1)) as [->|Hne]; reflexivity.
Qed.

Lemma zip_where_collapse (ps ps' ls : Series) (n : nat) :
  Forall2 (fun p' p => forall l, where_position p' l (Some 0)
                                 = where_position p l (Some 0)) ps' ps ->
  zip_with (fun '(p, l) s => where_position p l s) (zip ps' ls)
           (replicate n (Some 0))
  = zip_with (fun '(p, l) s => where_position p l s) (zip ps ls)
             (replicate n (Some 0)).
Proof.
  intros Hps. revert ls n.
  induction Hps as [|p' p ps' ps Hp _ IH]; intros ls n; [reflexivity|].
  destruct ls as [|l ls]; [reflexivity|].
  destruct n as [|n]; [reflexivity|].
  cbn. rewrite Hp. f_equal. apply IH.
Qed.

Lemma map_const_replicate {A B : Type} (b : B) (l : list A) :
  map (fun _ => b) l = replicate (length l) b.
Proof. induction l as [|x l IH]; [reflexivity|]. cbn. now rewrite IH. Qed.

(** The three return columns do not see the collapse. *)
Lemma long_return_column_collapse (rows : list SignalRow) :
  long_return_column (map long_only_signal rows) = long_return_column rows.
Proof. unfold long_return_column. now rewrite map_map. Qed.

Lemma short_return_column_collapse (rows : list SignalRow) :
  short_return_column false (map long_only_signal rows)
  = short_return_column false rows.
Proof. unfold short_return_column. now rewrite map_map. Qed.

Lemma strategy_return_column_collapse (rows : list SignalRow) :
  strategy_return_column false (map long_only_signal rows)
  = strategy_return_column false rows.
Proof.
  unfold strategy_return_column.
  rewrite long_return_column_collapse, short_return_column_collapse.
  unfold short_return_column. rewrite map_const_replicate.
  apply zip_where_collapse.
  unfold shift. rewrite !length_map.
  apply Forall2_take. apply Forall2_app; [repeat constructor|].
  rewrite map_map. induction rows as [|r rows IH]; cbn; constructor.
  - intros l. apply where_position_collapse.
  - exact IH.
Qed.

Definition collapse_returns (x : SignalRow * Q * Q * Q) : SignalRow * Q * Q * Q :=
  let '(r, l, s, st) := x in (long_only_signal r, l, s, st).

Lemma zip3_collapse (rows : list SignalRow) (ls ss sts : Series) :
  zip (zip (zip (map long_only_signal rows) ls) ss) sts
  = map (fun x : SignalRow * float * float * float =>
           let '(r, l, s, st) := x in (long_only_signal r, l, s, st))
        (zip (zip (zip rows ls) ss) sts).
Proof.
  revert ls ss sts. induction rows as [|r rows IH]; intros ls ss sts;
    [reflexivity|].
  destruct ls as [|l ls]; [reflexivity|].
  destruct ss as [|s ss]; [reflexivity|].
  destruct sts as [|st sts]; [reflexivity|].
  cbn. f_equal. apply IH.
Qed.

Lemma omap_map {A B C : Type} (f : B -> option C) (g : A -> B) (l : list A) :
  omap f (map g l) = omap (fun x => f (g x)) l.
Proof.
  induction l as [|x l IH]; [reflexivity|].
  cbn [map omap list_omap]. destruct (f (g x)); now rewrite IH.
Qed.

Lemma returns_frame_collapse (rows : list SignalRow) :
  returns_frame false (map long_only_signal rows)
  = map collapse_returns (returns_frame false rows).
Proof.
  unfold returns_frame.
  rewrite long_return_column_collapse, short_return_column_collapse,
    strategy_return_column_collapse, zip3_collapse, omap_map.
  apply omap_fmap_ext.
  intros [[[r l] s] st]. destruct l, s, st; reflexivity.
Qed.

Lemma final_frame_collapse (cap : Q) (rows : list (SignalRow * Q * Q * Q)) :
  final_frame cap (map collapse_returns rows)
  = map long_only_row (final_frame cap rows).
Proof.
  rewrite !SoxlBacktestFacts.soxl_final_frame_unfold.
  rewrite !map_map.
  assert (Hg : map (fun x => growth_of (collapse_returns x)) rows
               = map growth_of rows).
  { apply map_ext. intros [[[r l] s] st]. reflexivity. }
  assert (Hh : map (fun x => hold_growth_of (collapse_returns x)) rows
               = map hold_growth_of rows).
  { apply map_ext. intros [[[r l] s] st]. reflexivity. }
  rewrite Hg, Hh. clear Hg Hh.
  generalize (zip (cumprod (map growth_of rows))
                  (cumprod (map hold_growth_of rows))).
  intros cs. revert cs.
  induction rows as [|[[[r l] s] st] rows IH]; intros cs; [reflexivity|].
  destruct cs as [|[sc bc] cs]; [reflexivity|].
  cbn [zip_with map]. f_equal. apply IH.
Qed.

(** The frame of the long-only run is the frame of the run with
    shorts and no short fund, its positions collapsed. *)
Lemma backtest_frame_collapse (idx_close long_close : IndexedSeries) (cap : Q) :
  backtest_frame idx_close long_close None cap false
  = map long_only_row (backtest_frame idx_close long_close None cap true).
Proof.
  unfold backtest_frame.
  rewrite (bool_decide_eq_false_2 (is_Some (@None IndexedSeries)))
    by (intros [x Hx]; discriminate).
  cbn [andb].
  rewrite signal_frame_collapse, returns_frame_collapse, final_frame_collapse.
  reflexivity.
Qed.

End UnfundedShortFacts.

Module UnfundedShortExtras.
Import Examples MoreExamples.
Import SoxlBacktest LongOnlyTerms UnfundedShortFacts MetricFacts.

(** The short return without a short fund. *)
Lemma unfunded_short_return (rows : list SignalRow)
      (x : SignalRow * Q * Q * Q) :
  x ∈ returns_frame false rows -> snd (fst x) = 0.
Proof.
  unfold returns_frame. rewrite list_elem_of_omap.
  intros ([[[r l] s] st] & Hin & Hkeep).
  apply list_elem_of_lookup in Hin as [i Hi].
  apply lookup_zip_with_Some in Hi as (y & st' & [= <- <-] & Hi & _).
  apply lookup_zip_with_Some in Hi as (z & s' & [= <- <-] & _ & Hs).
  unfold short_return_column in Hs.
  change (map ?f ?l) with (f <$> l) in Hs. rewrite list_lookup_fmap in Hs.
  destruct (rows !! i); [|discriminate]. injection Hs as <-.
  destruct l, st; try discriminate. injection Hkeep as <-. reflexivity.
Qed.

(** X27: shorting without a short fund earns what cash earns.  When
    [run_backtest] of [soxl_backtest.py] is asked for shorts but given
    no short fund, the short return is 0 on every row, so a day held
    short earns nothing: the frame is the frame of the long-only run
    except that the position column says -1 where the long-only run
    says 0.  Returns, cumulative returns and portfolio values are the
    same row by row, and so are the final value, the total return, the
    volatility, the largest drawdown and the win rate that the metrics
    report. *)
Theorem shorting_without_a_short_fund_earns_nothing `{FloatLib}
    (idx_close long_close : IndexedSeries) (cap : Q) :
  let with_shorts := backtest_frame idx_close long_close None cap true in
  let long_only := backtest_frame idx_close long_close None cap false in
  long_only = map long_only_row with_shorts /\
  map position long_only = map collapse (map position with_shorts) /\
  map strategy_return long_only = map strategy_return with_shorts /\
  map strategy_cumulative long_only = map strategy_cumulative with_shorts /\
  map strategy_value long_only = map strategy_value with_shorts /\
  Forall (fun r => short_return r = 0) with_shorts /\
  (with_shorts <> [] ->
   exists m m',
     calculate_metrics with_shorts cap true = Ok m /\
     calculate_metrics long_only cap false = Ok m' /\
     final_value m' = final_value m /\
     total_return m' = total_return m /\
     annual_volatility m' = annual_volatility m /\
     max_drawdown m' = max_drawdown m /\
     win_rate m' = win_rate m).
Proof.
  intros with_shorts long_only.
  assert (Heq : long_only = map long_only_row with_shorts)
    by apply backtest_frame_collapse.
  split; [exact Heq|].
  rewrite Heq. rewrite !map_map.
  split; [reflexivity|]. split; [reflexivity|].
  split; [reflexivity|]. split; [reflexivity|].
  split.
  { unfold with_shorts, backtest_frame.
    rewrite (bool_decide_eq_false_2 (is_Some (@None IndexedSeries)))
      by (intros [x Hx]; discriminate).
    cbn [andb]. rewrite Forall_lookup. intros t row Hrow.
    destruct (InvestedFacts.soxl_final_frame_row _ _ _ _ Hrow)
      as (r & l & s & st & sc & bc & Hr & _ & _ & _ & _ & _ & -> & _).
    apply list_elem_of_lookup_2 in Hr.
    apply unfunded_short_return in Hr. exact Hr. }
  intros Hne.
  assert (Hne' : map long_only_row with_shorts <> []).
  { destruct with_shorts; [congruence|discriminate]. }
  destruct (soxl_metrics_fields with_shorts cap true Hne)
    as (m & first & final & ar & Hm & _ & Hl & _ & _ & _ & _ & _ & Hfv & Htr
        & Hvol & _ & Hdd & Hwr & _).
  destruct (soxl_metrics_fields (map long_only_row with_shorts) cap false Hne')
    as (m' & first' & final' & ar' & Hm' & _ & Hl' & _ & _ & _ & _ & _ & Hfv'
        & Htr' & Hvol' & _ & Hdd' & Hwr' & _).
  change (map long_only_row with_shorts) with (long_only_row <$> with_shorts)
    in Hl'.
  rewrite fmap_last, Hl in Hl'. injection Hl' as <-.
  rewrite !map_map in Hvol', Hdd', Hwr'.
  exists m, m'. split; [exact Hm|]. split; [exact Hm'|].
  split; [now rewrite Hfv, Hfv'|].
  split; [now rewrite Htr, Htr'|].
  split; [now rewrite Hvol, Hvol'|].
  split; [now rewrite Hdd, Hdd'|].
  now rewrite Hwr, Hwr'.
Qed.

(** Days on which the index falls: with shorts and no short fund the
    positions are SHORT, the long-only positions are CASH, and the
    strategy returns are the same. *)
Example unfunded_short_days :
  let index := dated (replicate 199 1 ++ [1 # 2; 1 # 4; 1 # 8]) in
  map position (backtest_frame index index None 100000 true) = [-1; -1]%Z /\
  map position (backtest_frame index index None 100000 false) = [0; 0]%Z /\
  map (fun r => Qred (strategy_return r))
      (backtest_frame index index None 100000 true) = [0; 0] /\
  map (fun r => Qred (strategy_return r))
      (backtest_frame index index None 100000 false) = [0; 0].
Proof. repeat split; vm_compute; reflexivity. Qed.

End UnfundedShortExtras.
(* ================================================================== *)
(** * The initial capital *)

Module CapitalFacts.
Import Backtest CapitalTerms.

Lemma Qlt_bool_compat (x x' y y' : Q) :
  x == x' -> y == y' -> Qlt_bool x y = Qlt_bool x' y'.
Proof.
  intros Hx Hy. unfold Qlt_bool. f_equal.
  destruct (Qle_bool y x) eqn:E, (Qle_bool y' x') eqn:E'; try reflexivity.
  - apply Qle_bool_iff in E. rewrite Hx, Hy in E. apply Qle_bool_iff in E.
    congruence.
  - apply Qle_bool_iff in E'. rewrite <- Hx, <- Hy in E'.
    apply Qle_bool_iff in E'. congruence.
Qed.

Lemma round_half_even_compat (x y : Q) :
  x == y -> round_half_even x = round_half_even y.
Proof.
  intros Hxy. unfold round_half_even.
  rewrite (Qfloor_comp _ _ Hxy).
  assert (Hd : x - inject_Z (Qfloor y) == y - inject_Z (Qfloor y))
    by (now rewrite Hxy).
  rewrite (Qlt_bool_compat _ _ (1 # 2) (1 # 2) Hd (Qeq_refl _)).
  rewrite (Qlt_bool_compat (1 # 2) (1 # 2) _ _ (Qeq_refl _) Hd).
  reflexivity.
Qed.

(** Rounding sees the value of a rational, not its representation. *)
Lemma py_round_compat (x y : Q) (digits : nat) :
  x == y -> py_round x digits = py_round y digits.
Proof.
  intros Hxy. unfold py_round.
  set (s := inject_Z (10 ^ Z.of_nat digits)).
  rewrite (round_half_even_compat (x * s) (y * s)); [reflexivity|].
  now rewrite Hxy.
Qed.

(** The frame under another initial capital. *)
Lemma final_frame_with_capital (cap cap' : Q)
      (rows : list (SignalRow * Q * Q)) :
  final_frame cap' rows = map (with_capital cap') (final_frame cap rows).
Proof.
  rewrite !BacktestFacts.tqqq_final_frame_unfold.
  generalize (zip (cumprod (map BacktestTerms.growth_of rows))
                  (cumprod (map BacktestTerms.hold_growth_of rows))).
  intros cs. revert cs.
  induction rows as [|[[r e] s] rows IH]; intros cs; [reflexivity|].
  destruct cs as [|[sc bc] cs]; [reflexivity|].
  cbn [zip_with map]. f_equal. apply IH.
Qed.

(** A total return, out of the cumulative return. *)
Lemma reported_total_return (cap c : Q) :
  ~ cap == 0 ->
  fround (fmul (fdiv (Some (cap * c - cap)) (Some cap)) (Some 100)) 2
  = Some (py_round ((c - 1) * 100) 2).
Proof.
  intros Hnz. unfold fdiv.
  destruct (Qeq_bool cap 0) eqn:E.
  { apply Qeq_bool_iff in E. contradiction. }
  cbn. f_equal. apply py_round_compat. field. assumption.
Qed.

End CapitalFacts.

Module CapitalExtras.
Import Examples MoreExamples.
Import Backtest CapitalTerms CapitalFacts MetricFacts.

(** X28: the initial capital only scales the two portfolio values.  For
    two initial capitals other than zero the frames that the
    single-MA backtest builds differ in the columns [strategy_value]
    and [buy_hold_value] alone, each the capital times the cumulative
    return; the total return is the last cumulative return minus one
    as a rounded percentage, and the total return, the volatility, the
    largest drawdown, the win rate, the trade count and the buy-and-
    hold total return and drawdown that the metrics report are the
    same for both capitals. *)
Theorem initial_capital_only_scales_the_values `{FloatLib}
    (index_close etf_close : IndexedSeries) (ma_period : nat) (cap cap' : Q) :
  ~ cap == 0 -> ~ cap' == 0 ->
  let data := combined_frame index_close etf_close ma_period cap in
  let data' := combined_frame index_close etf_close ma_period cap' in
  data' = map (with_capital cap') data /\
  Forall (fun r => strategy_value r = cap * strategy_cumulative r /\
                   buy_hold_value r = cap * buy_hold_cumulative r) data /\
  (data <> [] ->
   exists m m' final,
     calculate_metrics data cap = Ok m /\
     calculate_metrics data' cap' = Ok m' /\
     last data = Some final /\
     total_return m = Some (py_round ((strategy_cumulative final - 1) * 100) 2) /\
     total_return m' = total_return m /\
     annual_volatility m' = annual_volatility m /\
     max_drawdown m' = max_drawdown m /\
     win_rate m' = win_rate m /\
     total_trades m' = total_trades m /\
     bh_total_return m' = bh_total_return m /\
     bh_max_drawdown m' = bh_max_drawdown m).
Proof.
  intros Hcap Hcap' data data'.
  assert (Heq : data' = map (with_capital cap') data).
  { unfold data', data, combined_frame. apply final_frame_with_capital. }
  assert (Hvalues : Forall (fun r => strategy_value r = cap * strategy_cumulative r /\
                                     buy_hold_value r = cap * buy_hold_cumulative r)
                           data).
  { unfold data, combined_frame. rewrite Forall_lookup. intros t row Hrow.
    destruct (InvestedFacts.tqqq_final_frame_row _ _ _ _ Hrow)
      as (r & e & s & sc & bc & _ & _ & _ & _ & _ & _ & -> & -> & -> & ->).
    split; reflexivity. }
  split; [exact Heq|]. split; [exact Hvalues|].
  intros Hne.
  assert (Hne' : map (with_capital cap') data <> []).
  { destruct data; [congruence|discriminate]. }
  destruct (tqqq_metrics_fields data cap Hne)
    as (m & first & final & ar & Hm & _ & Hl & _ & _ & _ & _ & _ & Htr & Hvol
        & _ & Hdd & Hwr & Htrades & Hbtr & Hbdd).
  destruct (tqqq_metrics_fields (map (with_capital cap') data) cap' Hne')
    as (m' & first' & final' & ar' & Hm' & _ & Hl' & _ & _ & _ & _ & _ & Htr'
        & Hvol' & _ & Hdd' & Hwr' & Htrades' & Hbtr' & Hbdd').
  change (map (with_capital cap') data) with (with_capital cap' <$> data) in Hl'.
  rewrite fmap_last, Hl in Hl'. injection Hl' as <-.
  rewrite !map_map in Hvol', Hdd', Hwr', Htrades', Hbdd'.
  cbn [with_capital strategy_value buy_hold_value] in Htr', Hbtr'.
  assert (Hfinal : strategy_value final = cap * strategy_cumulative final /\
                   buy_hold_value final = cap * buy_hold_cumulative final).
  { rewrite Forall_lookup in Hvalues. rewrite last_lookup in Hl.
    eapply Hvalues; eassumption. }
  destruct Hfinal as [Hsv Hbv]. rewrite Hsv in Htr. rewrite Hbv in Hbtr.
  rewrite reported_total_return in Htr, Htr', Hbtr, Hbtr' by assumption.
  rewrite Heq.
  exists m, m', final. split; [exact Hm|]. split; [exact Hm'|].
  split; [exact Hl|]. split; [exact Htr|].
  split; [now rewrite Htr, Htr'|].
  split; [now rewrite Hvol, Hvol'|].
  split; [now rewrite Hdd, Hdd'|].
  split; [now rewrite Hwr, Hwr'|].
  split; [now rewrite Htrades, Htrades'|].
  split; [now rewrite Hbtr, Hbtr'|].
  now rewrite Hbdd, Hbdd'.
Qed.

Lemma initial_capital_only_scales_the_values_witness :
  let data := combined_frame (dated five_index_closes) (dated five_etf_closes)
                             2 100000 in
  let data' := combined_frame (dated five_index_closes) (dated five_etf_closes)
                              2 500 in
  data' = map (with_capital 500) data /\
  Forall (fun r => strategy_value r = 100000 * strategy_cumulative r /\
                   buy_hold_value r = 100000 * buy_hold_cumulative r) data /\
  (data <> [] ->
   exists m m' final,
     @calculate_metrics example_floatlib data 100000 = Ok m /\
     @calculate_metrics example_floatlib data' 500 = Ok m' /\
     last data = Some final /\
     total_return m = Some (py_round ((strategy_cumulative final - 1) * 100) 2) /\
     total_return m' = total_return m /\
     annual_volatility m' = annual_volatility m /\
     max_drawdown m' = max_drawdown m /\
     win_rate m' = win_rate m /\
     total_trades m' = total_trades m /\
     bh_total_return m' = bh_total_return m /\
     bh_max_drawdown m' = bh_max_drawdown m).
Proof.
  apply (@initial_capital_only_scales_the_values example_floatlib
           (dated five_index_closes) (dated five_etf_closes) 2 100000 500).
  - vm_compute. discriminate.
  - vm_compute. discriminate.
Defined.

End CapitalExtras.
